(** * Metaforo watchdog: a shallow embedding of [metaforo_watchdog_en.py]

    The script reconciles the weights a governance platform reports for the
    voters of a poll option with the Nervos DAO deposits found on chain.
    The Chinese script [metaforo_watchdog_cn.py] has the same code with
    translated messages, so one embedding covers both; the two differ only
    in where step 5 of [process_option] puts its files, and both places are
    embedded.

    Conventions of the embedding
    - Network I/O is explicit state passing over a deterministic server
      [serve : Srv -> verb -> url -> net_result * Srv]; every HTTP attempt and
      every [time.sleep] is appended to a trace.
    - Python exceptions are the [Raise] outcome of a small state-and-error
      monad; [while True] loops take fuel and answer [Diverge] without it.
    - JSON payloads are typed records: what the code reads with [.get] and a
      default is an [option] field or a projection with that default.
    - Python floats are IEEE-754 binary64 values ([spec_float] at precision
      53, maximal exponent 1024) with the operations of [SpecFloat]. *)

From Stdlib Require Import ZArith List String Ascii Bool Lia SpecFloat.
From Stdlib Require Import Permutation.
From Stdlib Require DecimalString DecimalZ DecimalPos.
Import ListNotations.
Open Scope string_scope.
Open Scope list_scope.
Open Scope Z_scope.

(** ** Exceptions, payloads and requests *)

(** The exception classes the script can meet.  [HTTPError] carries the
    status code of its response ([None]: no response attached).
    [JSONDecodeError] is the one [requests] raises from [response.json()],
    which derives from [RequestException] and from [json.JSONDecodeError]. *)
Inductive exn : Type :=
| ConnectionError
| Timeout
| HTTPError (response : option Z)
| OtherRequestException
| JSONDecodeError
| KeyError
| ValueError
| TypeError
| OverflowError
| AttributeError.

(** [isinstance(e, requests.exceptions.RequestException)] *)
Definition is_RequestException (e : exn) : bool :=
  match e with
  | ConnectionError | Timeout | HTTPError _
  | OtherRequestException | JSONDecodeError => true
  | KeyError | ValueError | TypeError | OverflowError
  | AttributeError => false
  end.

(** [isinstance(e, (json.JSONDecodeError, KeyError))] *)
Definition is_JSONDecodeError_or_KeyError (e : exn) : bool :=
  match e with
  | JSONDecodeError | KeyError => true
  | _ => false
  end.

(** One vote of [poll/list]; the keys the script reads. *)
Record vote : Type := mkVote {
  user_id : option Z;
  name : option string;
  last_time : option string;
  weight : option Z
}.

(** One live cell of the explorer: [cell["attributes"]]. *)
Record cell : Type := mkCell {
  cell_type : option string;
  capacity : option Z
}.

Record poll_option : Type := mkOption {
  id : Z;
  html : string
}.

(** A decoded JSON body, by the endpoint whose shape it has.  The three
    bodies of Metaforo are objects with [status], [code] and, under [data],
    an object that holds the key the script reads ([list], [user],
    [thread]); the body of the explorer holds the list of its cells under
    [data].  [NotJson] makes [response.json()] raise. *)
Inductive payload : Type :=
| VoteListBody (status : bool) (code : Z) (votes : list vote)
| ProfileBody (status : bool) (code : Z)
    (neuron_addresses : list string) (web3_public_key : string)
| ThreadBody (status : bool) (code : Z) (polls : list (list poll_option))
| CellsBody (data : list cell)
| NotJson.

Record response : Type := mkResponse {
  status_code : Z;
  body : payload
}.

Inductive verb : Type := GET | POST.

(** The four URLs the script builds, with the parameters it formats in;
    [url_poll_list] carries the multipart form of the POST. *)
Inductive url : Type :=
| url_get_thread (thread_id : Z)
| url_poll_list (option_id page : Z)
| url_profile (uid : Z)
| url_address_live_cells (address : string) (page page_size : Z).

(** What [requests.get] and [requests.post] raise instead of answering:
    the transport failures of [requests], all of them subclasses of
    [RequestException]. *)
Inductive net_error : Type :=
| ConnectionFailed
| TimedOut
| OtherFailure.

Definition exn_of_net_error (n : net_error) : exn :=
  match n with
  | ConnectionFailed => ConnectionError
  | TimedOut => Timeout
  | OtherFailure => OtherRequestException
  end.

(** The outcome of one HTTP attempt. *)
Inductive net_result : Type :=
| NetRaise (e : net_error)
| NetResponse (r : response).

(** What the run does to the outside: HTTP attempts and sleeps (in
    milliseconds). *)
Inductive event : Type :=
| EvHttp (v : verb) (u : url)
| EvSleep (ms : Z).

Definition is_http (ev : event) : bool :=
  match ev with EvHttp _ _ => true | EvSleep _ => false end.

(** Number of HTTP attempts in a trace. *)
Definition http_count (t : list event) : nat := List.length (filter is_http t).

(** ** Configuration *)

Definition MAX_RETRIES : Z := 3.
Definition RETRY_DELAY : Z := 3.

(** ** Outcomes *)

Inductive res (A : Type) : Type :=
| Ok (a : A)
| Raise (e : exn)
| Diverge.
Arguments Ok {A} a.
Arguments Raise {A} e.
Arguments Diverge {A}.

(** How one turn of a [while True] body ends: [break], the next turn with
    the updated loop variables, or [return]. *)
Inductive ctl (B C R : Type) : Type :=
| Break (b : B)
| Continue (c : C)
| Return (r : R).
Arguments Break {B C R} b.
Arguments Continue {B C R} c.
Arguments Return {B C R} r.

(** [range(n)] *)
Definition range (n : Z) : list Z := map Z.of_nat (seq 0 (Z.to_nat n)).

(** ** Enriched votes and exported rows *)

(** One entry of [vote["weight_list"]]. *)
Record address_weight : Type := mkAW {
  aw_address : string;
  aw_Weight : Z
}.

(** A vote after step 2-3 of [process_option] set its two computed keys. *)
Record enriched_vote : Type := mkEnriched {
  ev_vote : vote;
  weight_list : list address_weight;
  weight_calc : Z
}.

(** One element of [export_data]. *)
Record export_row : Type := mkRow {
  nickname : string;
  userid : option Z;
  total_weight_metaforo : Z;
  total_weight_onchain_floored : Z;
  row_address : string;
  address_weight_floored : Z;
  need_review : bool;
  explorer_url : string
}.

(** [str.lower] on ASCII strings. *)
Definition ascii_lower (c : ascii) : ascii :=
  let n := nat_of_ascii c in
  if (Nat.leb 65 n && Nat.leb n 90)%bool then ascii_of_nat (n + 32) else c.

Fixpoint lower (s : string) : string :=
  match s with
  | EmptyString => EmptyString
  | String c s' => String (ascii_lower c) (lower s')
  end.

(** ** Python floats

    A Python [float] is a binary64 number.  [float_of_Z] is [float(x)] on the
    integer the explorer prints for a capacity, read from its digits
    (correct rounding, ties to even, an infinity beyond the range of the
    floats); [float_add] and [float_div] are [+] and [/]. *)

Definition prec : Z := 53.
Definition emax : Z := 1024.

Definition float : Type := spec_float.

Definition float_of_Z (z : Z) : float := binary_normalize prec emax z 0 false.

Definition float_add (x y : float) : float := SFadd prec emax x y.

Definition float_div (x y : float) : float := SFdiv prec emax x y.

(** [math.floor] on a float: the integer below, [OverflowError] on an
    infinity and [ValueError] on a NaN. *)
Definition math_floor (x : float) : res Z :=
  match x with
  | S754_zero _ => Ok 0
  | S754_finite s m e => Ok (Z.shiftl (cond_Zopp s (Zpos m)) e)
  | S754_infinity _ => Raise OverflowError
  | S754_nan => Raise ValueError
  end.

(** [math.floor] on an [int] returns it. *)
Definition math_floor_int (z : Z) : Z := z.

(** ** Hexadecimal decoding: [bytearray.fromhex] *)

Definition hex_digit (c : ascii) : option nat :=
  let n := nat_of_ascii c in
  if (Nat.leb 48 n && Nat.leb n 57)%bool then Some (n - 48)%nat
  else if (Nat.leb 97 n && Nat.leb n 102)%bool then Some (n - 87)%nat
  else if (Nat.leb 65 n && Nat.leb n 70)%bool then Some (n - 55)%nat
  else None.

(** ASCII whitespace, which [fromhex] skips between two bytes. *)
Definition is_ascii_space (c : ascii) : bool :=
  let n := nat_of_ascii c in
  (Nat.eqb n 32 || (Nat.leb 9 n && Nat.leb n 13))%bool.

Fixpoint fromhex (s : string) : option (list Byte.byte) :=
  match s with
  | EmptyString => Some []
  | String c s1 =>
      if is_ascii_space c then fromhex s1
      else
        match hex_digit c, s1 with
        | Some hi, String d s2 =>
            match hex_digit d, fromhex s2 with
            | Some lo, Some bytes =>
                Some (byte_of_ascii (ascii_of_nat (16 * hi + lo)) :: bytes)
            | _, _ => None
            end
        | _, _ => None
        end
  end.

(** [s.startswith("0x")] and [s[2:]] *)
Definition startswith_0x (s : string) : bool :=
  match s with
  | String "0" (String "x" _) => true
  | _ => false
  end.

Definition drop2 (s : string) : string :=
  match s with
  | String _ (String _ rest) => rest
  | _ => EmptyString
  end.

(** Python truthiness of a string and of an optional integer. *)
Definition truthy_string (s : string) : bool :=
  match s with EmptyString => false | _ => true end.

Definition truthy_id (u : option Z) : bool :=
  match u with
  | Some z => negb (z =? 0)
  | None => false
  end.

(** The PW Lock script template of [metamask_to_ckb_address]. *)
Definition PW_LOCK_CODE_HASH : string :=
  "bf43c3602455798c1a61a596e0d95278864c552fafe231c063b3fabf97a8febc".

Definition script_hash_type_type : Z := 1.

(** ** Printing a weight: step 4 of [process_option] *)

(** [f"{z:,.2f}"] on an [int]: the integer is converted to a float, and the
    conversion raises [OverflowError] when it is too large for one. *)
Definition format_2f (z : Z) : res unit :=
  match float_of_Z z with
  | S754_infinity _ => Raise OverflowError
  | _ => Ok tt
  end.

(** [for item in vote['weight_list']]: the weight of every address. *)
Fixpoint print_weight_list (wl : list address_weight) : res unit :=
  match wl with
  | [] => Ok tt
  | item :: rest =>
      match format_2f (aw_Weight item) with
      | Ok _ => print_weight_list rest
      | r => r
      end
  end.

(** What step 4 prints for one vote: the reported weight, the computed
    total, then the weight of every address. *)
Definition print_vote (ev : enriched_vote) : res unit :=
  match format_2f
          (match weight (ev_vote ev) with Some z => z | None => 0 end) with
  | Ok _ =>
      match format_2f (weight_calc ev) with
      | Ok _ => print_weight_list (weight_list ev)
      | r => r
      end
  | r => r
  end.

(** [for vote in voters_data] of step 4. *)
Fixpoint print_results (voters_data : list enriched_vote) : res unit :=
  match voters_data with
  | [] => Ok tt
  | ev :: rest =>
      match print_vote ev with
      | Ok _ => print_results rest
      | r => r
      end
  end.

(** ** Retry classification *)

Definition is_retryable_error (exception : exn) : bool :=
  match exception with
  | ConnectionError => true
  | Timeout => true
  | HTTPError (Some status) => (status =? 429) || (500 <=? status)
  | _ => false
  end.

Section Pipeline.

(** The deterministic outside world: a server state and its answer to one
    HTTP attempt. *)
Context {Srv : Type}.
Variable serve : Srv -> verb -> url -> net_result * Srv.

(** [pyckb]'s [Script(code_hash, hash_type, args).addr()] under the network
    configuration [mainnet]: the address encoder of the external library. *)
Variable script_addr : bool -> list Byte.byte -> Z -> list Byte.byte -> string.

Record world : Type := mkWorld {
  server : Srv;
  trace : list event
}.

Definition M (A : Type) : Type := world -> res A * world.

Definition ret {A} (a : A) : M A := fun w => (Ok a, w).

Definition bind {A B} (m : M A) (k : A -> M B) : M B :=
  fun w =>
    match m w with
    | (Ok a, w') => k a w'
    | (Raise e, w') => (Raise e, w')
    | (Diverge, w') => (Diverge, w')
    end.

Notation "x <- m ;; k" := (bind m (fun x => k))
  (at level 61, m at next level, right associativity).
Notation "m ;;; k" := (bind m (fun _ => k))
  (at level 61, right associativity).

Definition raise {A} (e : exn) : M A := fun w => (Raise e, w).

Definition diverge {A} : M A := fun w => (Diverge, w).

(** A pure computation that may raise. *)
Definition lift {A} (r : res A) : M A := fun w => (r, w).

(** [try: m  except <classes handles> as e: h e]; other exceptions go on. *)
Definition try_except {A} (m : M A) (handles : exn -> bool) (h : exn -> M A)
  : M A :=
  fun w =>
    match m w with
    | (Raise e, w') => if handles e then h e w' else (Raise e, w')
    | r => r
    end.

Definition emit (ev : event) : M unit :=
  fun w => (Ok tt, mkWorld (server w) (trace w ++ [ev])).

(** [time.sleep(seconds)], in milliseconds. *)
Definition sleep (ms : Z) : M unit := emit (EvSleep ms).

(** [requests.get] / [requests.post]: one HTTP attempt. *)
Definition requests_send (v : verb) (u : url) : M response :=
  fun w =>
    let '(r, s') := serve (server w) v u in
    let w' := mkWorld s' (trace w ++ [EvHttp v u]) in
    match r with
    | NetRaise e => (Raise (exn_of_net_error e), w')
    | NetResponse resp => (Ok resp, w')
    end.

(** [response.raise_for_status()] *)
Definition raise_for_status (r : response) : M unit :=
  if (400 <=? status_code r) && (status_code r <? 600)
  then raise (HTTPError (Some (status_code r)))
  else ret tt.

(** [response.json()] *)
Definition json (r : response) : M payload :=
  match body r with
  | NotJson => raise JSONDecodeError
  | b => ret b
  end.

(** *** [request_with_retry] *)

(** The [try] body of one turn of the [for attempt] loop. *)
Definition attempt_once (method : string) (u : url) : M response :=
  response <-
    (if (lower method =? "get")%string then requests_send GET u
     else if (lower method =? "post")%string then requests_send POST u
     else raise ValueError) ;;
  raise_for_status response ;;;
  ret response.

(** The [for attempt in range(max_retries + 1)] loop over the attempts still
    to make, and the [raise last_exception] after it. *)
Fixpoint retry_loop (method : string) (u : url) (max_retries : Z)
    (attempts : list Z) (last_exception : option exn) : M response :=
  match attempts with
  | [] =>
      match last_exception with
      | Some e => raise e
      | None => raise TypeError
      end
  | attempt :: rest =>
      try_except (attempt_once method u) is_RequestException
        (fun e =>
           if (attempt <? max_retries) && is_retryable_error e
           then sleep (1000 * RETRY_DELAY) ;;;
                retry_loop method u max_retries rest (Some e)
           else raise e)
  end.

Definition request_with_retry (method : string) (u : url) (max_retries : Z)
  : M response :=
  retry_loop method u max_retries (range (max_retries + 1)) None.

(** *** Envelope projections: [data.get(key, default)] *)

(** [data.get("status") and data["code"] == 20000] *)
Definition envelope_ok (data : payload) : bool :=
  match data with
  | VoteListBody st c _ | ProfileBody st c _ _ | ThreadBody st c _ =>
      st && (c =? 20000)
  | CellsBody _ | NotJson => false
  end.

(** [data.get("data", {}).get("list", [])] *)
Definition vote_list_of (data : payload) : list vote :=
  match data with
  | VoteListBody _ _ l => l
  | _ => []
  end.

(** [user_data.get("neuron_addresses", [])] *)
Definition neuron_addresses_of (data : payload) : list string :=
  match data with
  | ProfileBody _ _ l _ => l
  | _ => []
  end.

(** [user_data.get("web3_public_key", "")] *)
Definition web3_public_key_of (data : payload) : string :=
  match data with
  | ProfileBody _ _ _ k => k
  | _ => ""
  end.

(** [data.get("data", {}).get("thread", {}).get("polls", [])], each poll
    given by its options. *)
Definition polls_of (data : payload) : list (list poll_option) :=
  match data with
  | ThreadBody _ _ ps => ps
  | _ => []
  end.

(** [data = response.json().get("data", [])] as [for cell in data] and
    [cell.get("attributes", {})] read it: the cells of a cell list.  The
    body of another endpoint holds an object under [data]; the loop then
    runs over the keys of that object, which are strings, and [cell.get]
    raises [AttributeError]. *)
Definition cells_of (data : payload) : res (list cell) :=
  match data with
  | CellsBody l => Ok l
  | _ => Raise AttributeError
  end.

(** *** [metamask_to_ckb_address] *)

Definition metamask_to_ckb_address (metamask_address : string)
    (mainnet : bool) : res string :=
  if negb (truthy_string metamask_address) then Ok ""
  else
    match fromhex PW_LOCK_CODE_HASH with
    | None => Raise ValueError
    | Some code_hash =>
        let hash_type := script_hash_type_type in
        let address_hex :=
          if startswith_0x metamask_address then drop2 metamask_address
          else metamask_address in
        match fromhex (lower address_hex) with
        | None => Raise ValueError
        | Some args => Ok (script_addr mainnet code_hash hash_type args)
        end
    end.

(** *** [get_poll_options] *)

(** [None] when the thread cannot be read, has no poll, or its first poll
    has no option; else the options of the first poll and the thread id. *)
Definition get_poll_options (thread_id : Z)
  : M (option (list poll_option * Z)) :=
  try_except
    (response <- request_with_retry "get" (url_get_thread thread_id)
                   MAX_RETRIES ;;
     data <- json response ;;
     if envelope_ok data then
       match polls_of data with
       | [] => ret None
       | poll :: _ =>
           match poll with
           | [] => ret None
           | _ :: _ => ret (Some (poll, thread_id))
           end
       end
     else ret None)
    is_RequestException
    (fun _ => ret None).

(** *** [get_all_votes] *)

Fixpoint get_all_votes_loop (fuel : nat) (option_id : Z)
    (all_votes : list vote) (page : Z) : M (option (list vote)) :=
  match fuel with
  | O => diverge
  | S fuel' =>
      step <-
        try_except
          (response <-
             request_with_retry "post" (url_poll_list option_id page)
               MAX_RETRIES ;;
           data <- json response ;;
           if envelope_ok data then
             let vote_list := vote_list_of data in
             match vote_list with
             | [] => ret (Break tt)
             | _ :: _ => ret (Continue (all_votes ++ vote_list, page + 1))
             end
           else ret (Return None))
          is_RequestException
          (fun _ => ret (Return None)) ;;
      match step with
      | Break _ => ret (Some all_votes)
      | Return r => ret r
      | Continue (all_votes', page') =>
          sleep 500 ;;;
          get_all_votes_loop fuel' option_id all_votes' page'
      end
  end.

Definition get_all_votes (fuel : nat) (option_id : Z)
  : M (option (list vote)) :=
  get_all_votes_loop fuel option_id [] 1.

(** *** [get_user_dao_addresses] *)

Definition string_in (a : string) (l : list string) : bool :=
  existsb (String.eqb a) l.

Definition get_user_dao_addresses (uid : Z) : M (list string) :=
  try_except
    (response <- request_with_retry "get" (url_profile uid) MAX_RETRIES ;;
     data <- json response ;;
     if envelope_ok data then
       let addresses := neuron_addresses_of data in
       let web3_public_key := web3_public_key_of data in
       if truthy_string web3_public_key then
         pwlock_address <- lift (metamask_to_ckb_address web3_public_key true) ;;
         if truthy_string pwlock_address
            && negb (string_in pwlock_address addresses)
         then ret (addresses ++ [pwlock_address])
         else ret addresses
       else ret addresses
     else ret [])
    is_RequestException
    (fun _ => ret []).

(** *** [get_address_onchain_weight] *)

(** The body of [for cell in data]. *)
Definition add_cell (total_capacity : float) (c : cell) : float :=
  match cell_type c with
  | Some t =>
      if (t =? "nervos_dao_deposit")%string
      then float_add total_capacity
             (float_of_Z (match capacity c with Some z => z | None => 0 end))
      else total_capacity
  | None => total_capacity
  end.

(** The [while True] loop, for any page size. *)
Fixpoint live_cells_loop (fuel : nat) (page_size : Z) (address : string)
    (total_capacity : float) (page : Z) : M float :=
  match fuel with
  | O => diverge
  | S fuel' =>
      step <-
        try_except
          (response <-
             request_with_retry "get"
               (url_address_live_cells address page page_size) MAX_RETRIES ;;
           body <- json response ;;
           data <- lift (cells_of body) ;;
           let total_capacity' := fold_left add_cell data total_capacity in
           if Z.of_nat (List.length data) <? page_size
           then ret (Break total_capacity')
           else ret (Continue (total_capacity', page + 1)))
          (fun e => is_RequestException e || is_JSONDecodeError_or_KeyError e)
          (fun _ => ret (Break total_capacity)) ;;
      match step with
      | Break total => ret total
      | Return r => ret r
      | Continue (total_capacity', page') =>
          sleep 500 ;;;
          live_cells_loop fuel' page_size address total_capacity' page'
      end
  end.

Definition get_address_onchain_weight_sized (page_size : Z) (fuel : nat)
    (address : string) : M Z :=
  total_capacity <-
    live_cells_loop fuel page_size address (S754_zero false) 1 ;;
  lift (math_floor (float_div total_capacity (float_of_Z (10 ^ 8)))).

(** The script fixes [page_size = 20]. *)
Definition get_address_onchain_weight (fuel : nat) (address : string) : M Z :=
  get_address_onchain_weight_sized 20 fuel address.

(** *** [process_option] *)

(** [for address in addresses] of step 2-3. *)
Fixpoint weigh_addresses (fuel : nat) (addresses : list string)
    (wl : list address_weight) (total_onchain_weight : Z)
  : M (list address_weight * Z) :=
  match addresses with
  | [] => ret (wl, total_onchain_weight)
  | address :: rest =>
      onchain_weight <- get_address_onchain_weight fuel address ;;
      weigh_addresses fuel rest (wl ++ [mkAW address onchain_weight])
        (total_onchain_weight + onchain_weight)
  end.

(** One turn of [for i, vote in enumerate(voters_data)]. *)
Definition enrich_vote (fuel : nat) (v : vote) : M enriched_vote :=
  if negb (truthy_id (user_id v)) then ret (mkEnriched v [] 0)
  else
    addresses <-
      get_user_dao_addresses (match user_id v with Some u => u | None => 0 end) ;;
    match addresses with
    | [] => ret (mkEnriched v [] 0)
    | _ :: _ =>
        weighed <- weigh_addresses fuel addresses [] 0 ;;
        ret (mkEnriched v (fst weighed) (snd weighed))
    end.

Fixpoint enrich_votes (fuel : nat) (voters_data : list vote)
  : M (list enriched_vote) :=
  match voters_data with
  | [] => ret []
  | v :: rest =>
      ev <- enrich_vote fuel v ;;
      evs <- enrich_votes fuel rest ;;
      ret (ev :: evs)
  end.

(** Step 5: the rows one vote appends to [export_data]. *)
Definition export_vote (ev : enriched_vote) : list export_row :=
  let nickname := match name (ev_vote ev) with Some n => n | None => "N/A" end in
  let userid := user_id (ev_vote ev) in
  let total_weight_metaforo :=
    match weight (ev_vote ev) with Some z => z | None => 0 end in
  let total_weight_onchain := weight_calc ev in
  let need_review :=
    negb (total_weight_metaforo =? math_floor_int total_weight_onchain) in
  match weight_list ev with
  | _ :: _ =>
      map (fun item =>
             let address := aw_address item in
             mkRow nickname userid total_weight_metaforo
               (math_floor_int total_weight_onchain)
               address (math_floor_int (aw_Weight item)) need_review
               ("https://explorer.app5.org/address/" ++ address)%string)
          (weight_list ev)
  | [] =>
      [mkRow nickname userid total_weight_metaforo
         (math_floor_int total_weight_onchain) "" 0 need_review ""]
  end.

Definition export_data (voters_data : list enriched_vote) : list export_row :=
  flat_map export_vote voters_data.

(** [process_option]: [None] when there is no vote data, else the rows
    written to the JSON and CSV files of the option.  Of what it prints,
    step 4 formats every weight with [:,.2f], which can raise, and is kept
    ([print_results]).  Left out are the lines of step 1, which print the
    fields of a vote as they are, and those of steps 2 and 3, which format
    the weights that step 4 formats again. *)
Definition process_option (fuel : nat) (option_id : Z)
  : M (option (list export_row)) :=
  voters_data <- get_all_votes fuel option_id ;;
  match voters_data with
  | None | Some [] => ret None
  | Some (v :: vs) =>
      enriched <- enrich_votes fuel (v :: vs) ;;
      lift (print_results enriched) ;;;
      ret (Some (export_data enriched))
  end.

(** *** [main]: the [for option in options] loop of the URL mode *)

Fixpoint main_options (fuel : nat) (options : list poll_option)
    (all_files : list (Z * list export_row))
  : M (list (Z * list export_row)) :=
  match options with
  | [] => ret all_files
  | option :: rest =>
      let option_id := id option in
      files <- process_option fuel option_id ;;
      main_options fuel rest
        (match files with
         | Some rows => all_files ++ [(option_id, rows)]
         | None => all_files
         end)
  end.

(** *** Observing a run

    The definitions below are not part of the script: they name what the
    statements about it observe. *)

(** The verb [request_with_retry] sends for [method], if it supports it. *)
Definition verb_of_method (method : string) : option verb :=
  if (lower method =? "get")%string then Some GET
  else if (lower method =? "post")%string then Some POST
  else None.

(** What one attempt makes of the server's answer: the answer itself, or the
    exception of [requests] or of [raise_for_status]. *)
Definition attempt_outcome (r : net_result) : res response :=
  match r with
  | NetRaise e => Raise (exn_of_net_error e)
  | NetResponse resp =>
      if (400 <=? status_code resp) && (status_code resp <? 600)
      then Raise (HTTPError (Some (status_code resp)))
      else Ok resp
  end.

(** The server state after [n] attempts of the same request. *)
Fixpoint server_after (n : nat) (s : Srv) (v : verb) (u : url) : Srv :=
  match n with
  | O => s
  | S n' => server_after n' (snd (serve s v u)) v u
  end.

(** The events of [n] failed attempts, each followed by the retry delay. *)
Fixpoint retry_trace (n : nat) (v : verb) (u : url) : list event :=
  match n with
  | O => []
  | S n' => EvHttp v u :: EvSleep (1000 * RETRY_DELAY) :: retry_trace n' v u
  end.

(** The attempt made in state [s] fails with a retryable error. *)
Definition retryable_failure (s : Srv) (v : verb) (u : url) : Prop :=
  exists e, attempt_outcome (fst (serve s v u)) = Raise e /\
            is_retryable_error e = true.

(** The outcome of attempt [k] ends the loop started at attempt index [i]:
    a response, an error that is not retryable, or the last attempt. *)
Definition final_outcome (mr : Z) (i k : nat) (o : res response) : Prop :=
  match o with
  | Ok _ => True
  | Raise e => is_retryable_error e = false \/ Z.of_nat (i + k) = mr
  | Diverge => False
  end.

(** A complete listing from [page] on: every page request is answered with
    a successful envelope, with votes until the first empty page, which ends
    it.  [acc] holds the votes of the pages before [page]. *)
Inductive complete_listing (option_id : Z)
  : world -> Z -> list vote -> list vote -> world -> Prop :=
| listing_end w page acc r w1 :
    request_with_retry "post" (url_poll_list option_id page) MAX_RETRIES w =
      (Ok r, w1) ->
    envelope_ok (body r) = true ->
    vote_list_of (body r) = [] ->
    complete_listing option_id w page acc acc w1
| listing_page w page acc r w1 l w' :
    request_with_retry "post" (url_poll_list option_id page) MAX_RETRIES w =
      (Ok r, w1) ->
    envelope_ok (body r) = true ->
    vote_list_of (body r) <> [] ->
    complete_listing option_id
      (mkWorld (server w1) (trace w1 ++ [EvSleep 500])) (page + 1)
      (acc ++ vote_list_of (body r)) l w' ->
    complete_listing option_id w page acc l w'.

End Pipeline.

(** ** The command line and the files

    The rest of the script: the thread URL, the names and places of the
    files, and [main].  A Python [str] is a Rocq [string] whose characters
    are its code points, all below 256. *)

(** [c] is one of [0] ... [9]: what [\d] matches below code point 256. *)
Definition is_ascii_digit (c : ascii) : bool :=
  let n := nat_of_ascii c in (Nat.leb 48 n && Nat.leb n 57)%bool.

(** [str(z)] on an [int]. *)
Definition str (z : Z) : string := DecimalString.NilZero.string_of_int (Z.to_int z).

(** [url.rstrip('/')] *)
Fixpoint rstrip_slash (s : string) : string :=
  match s with
  | EmptyString => EmptyString
  | String c s' =>
      match rstrip_slash s' with
      | EmptyString => if (c =? "/")%char then EmptyString else String c EmptyString
      | r => String c r
      end
  end.

(** [$] matches at the start of [s]: at the end of the string, and before
    a newline that ends it. *)
Definition at_end (s : string) : bool :=
  match s with
  | EmptyString => true
  | String c EmptyString => (c =? "010")%char
  | String _ (String _ _) => false
  end.

(** The pattern [(\d+)$] tried at the start of [s]: group 1 when it
    matches. *)
Fixpoint re_match_digits_end (s : string) : option string :=
  match s with
  | EmptyString => None
  | String c s' =>
      if is_ascii_digit c then
        if at_end s' then Some (String c EmptyString)
        else
          match re_match_digits_end s' with
          | Some g => Some (String c g)
          | None => None
          end
      else None
  end.

(** [re.search(r'(\d+)$', s)]: the pattern is tried at every position from
    the left, the first match wins. *)
Fixpoint re_search_digits_end (s : string) : option string :=
  match re_match_digits_end s with
  | Some g => Some g
  | None =>
      match s with
      | EmptyString => None
      | String _ s' => re_search_digits_end s'
      end
  end.

(** [\w] on one character: a letter, a digit or a numeric character of
    Unicode, or the underscore.  Below code point 256 these are the ASCII
    letters and digits, [_], and the Latin-1 characters listed. *)
Definition is_word (c : ascii) : bool :=
  let n := nat_of_ascii c in
  ((Nat.leb 48 n && Nat.leb n 57) || (Nat.leb 65 n && Nat.leb n 90)
   || (Nat.leb 97 n && Nat.leb n 122) || Nat.eqb n 95
   || Nat.eqb n 170 || Nat.eqb n 178 || Nat.eqb n 179 || Nat.eqb n 181
   || Nat.eqb n 185 || Nat.eqb n 186 || (Nat.leb 188 n && Nat.leb n 190)
   || (Nat.leb 192 n && Nat.leb n 214) || (Nat.leb 216 n && Nat.leb n 246)
   || (Nat.leb 248 n && Nat.leb n 255))%bool.

(** [re.sub(r'[^\w\-]', '_', option_name)] *)
Fixpoint safe_option_name (option_name : string) : string :=
  match option_name with
  | EmptyString => EmptyString
  | String c rest =>
      String (if (is_word c || (c =? "-")%char)%bool then c else "_"%char)
        (safe_option_name rest)
  end.

(** [s.endswith('/')] *)
Fixpoint endswith_slash (s : string) : bool :=
  match s with
  | EmptyString => false
  | String c EmptyString => (c =? "/")%char
  | String _ s' => endswith_slash s'
  end.

(** [os.path.join(a, b)] of [posixpath]. *)
Definition os_path_join (a b : string) : string :=
  if prefix "/" b then b
  else if (negb (truthy_string a) || endswith_slash a)%bool then (a ++ b)%string
  else (a ++ "/" ++ b)%string.

(** [p[:p.rfind('/') + 1]] *)
Fixpoint head_of_path (p : string) : string :=
  match p with
  | EmptyString => EmptyString
  | String c p' =>
      match head_of_path p' with
      | EmptyString => if (c =? "/")%char then "/" else EmptyString
      | h => String c h
      end
  end.

(** [head == '/' * len(head)] *)
Fixpoint all_slashes (s : string) : bool :=
  match s with
  | EmptyString => true
  | String c s' => ((c =? "/")%char && all_slashes s')%bool
  end.

(** [os.path.dirname(p)] of [posixpath]. *)
Definition os_path_dirname (p : string) : string :=
  let head := head_of_path p in
  if (truthy_string head && negb (all_slashes head))%bool
  then rstrip_slash head
  else head.

(** What step 5 of [process_option] does to the file system. *)
Inductive fs_effect : Type :=
| MakeDirs (path : string)
| WriteJson (path : string) (rows : list export_row)
| WriteCsv (path : string) (rows : list export_row).

(** How [main] ends: [sys.exit(code)], or its last line, after the effects
    [effects] on the file system. *)
Inductive main_result : Type :=
| SystemExit (code : Z)
| Completed (effects : list fs_effect).

Section Entry.

Context {Srv : Type}.
Variable serve : Srv -> verb -> url -> net_result * Srv.
Variable script_addr : bool -> list Byte.byte -> Z -> list Byte.byte -> string.

(** [sys.get_int_max_str_digits()]: the longest decimal string [int]
    converts, 4300 by default since CPython 3.11 and never between 1 and
    639; 0 when the interpreter has no such limit. *)
Variable int_max_str_digits : nat.

(** The builtin [int] on a command-line argument: [None] is its
    [ValueError]. *)
Variable int_of_argument : string -> option Z.

(** [os.path.dirname(os.path.abspath(__file__))] *)
Variable script_dir : string.

(** [int(s)] on the digits the pattern captured. *)
Definition int_of_digits (s : string) : res Z :=
  if (Nat.ltb 0 int_max_str_digits
      && Nat.ltb int_max_str_digits (String.length s))%bool
  then Raise ValueError
  else
    match DecimalString.NilZero.uint_of_string s with
    | Some d => Ok (Z.of_uint d)
    | None => Raise ValueError
    end.

Definition parse_thread_id_from_url (url : string) : res Z :=
  match re_search_digits_end (rstrip_slash url) with
  | Some group1 => int_of_digits group1
  | None => Raise ValueError
  end.

(** The two paths of an option in [metaforo_watchdog_en.py]: a directory
    for the thread, and in it the files of the option. *)
Definition json_path (thread_id : Z) (option_name timestamp : string)
  : string :=
  os_path_join script_dir
    ("./vote_result/" ++ str thread_id ++ "/" ++ safe_option_name option_name
       ++ "_" ++ timestamp ++ ".json")%string.

Definition csv_path (thread_id : Z) (option_name timestamp : string)
  : string :=
  os_path_join script_dir
    ("./vote_result/" ++ str thread_id ++ "/" ++ safe_option_name option_name
       ++ "_" ++ timestamp ++ ".csv")%string.

(** The two paths of an option in [metaforo_watchdog_cn.py]: beside the
    script, the thread in the file name; this script makes no directory. *)
Definition json_path_cn (thread_id : Z) (option_name timestamp : string)
  : string :=
  os_path_join script_dir
    ("vote_result_" ++ str thread_id ++ "_" ++ safe_option_name option_name
       ++ "_" ++ timestamp ++ ".json")%string.

Definition csv_path_cn (thread_id : Z) (option_name timestamp : string)
  : string :=
  os_path_join script_dir
    ("vote_result_" ++ str thread_id ++ "_" ++ safe_option_name option_name
       ++ "_" ++ timestamp ++ ".csv")%string.

(** The end of step 5 in [metaforo_watchdog_en.py]: the directory is made,
    the JSON file is written, the CSV file is written when there is a row,
    and both paths are returned. *)
Definition save_export (thread_id : Z) (option_name timestamp : string)
    (export_data : list export_row) : list string * list fs_effect :=
  let output_dir :=
    os_path_dirname (json_path thread_id option_name timestamp) in
  ([json_path thread_id option_name timestamp;
    csv_path thread_id option_name timestamp],
   MakeDirs output_dir
     :: WriteJson (json_path thread_id option_name timestamp) export_data
     :: match export_data with
        | [] => []
        | _ :: _ =>
            [WriteCsv (csv_path thread_id option_name timestamp) export_data]
        end).

(** [process_option] of [metaforo_watchdog_en.py] with its files: [None]
    when there is no vote data, else the exported paths, with what was done
    to the file system. *)
Definition process_option_files (fuel : nat) (option_id : Z)
    (option_name : string) (thread_id : Z) (timestamp : string)
  : M (option (list string * list fs_effect)) :=
  bind (process_option serve script_addr fuel option_id)
    (fun rows =>
       match rows with
       | None => ret None
       | Some export_data =>
           ret (Some (save_export thread_id option_name timestamp export_data))
       end).

(** The [for option in options] loop of [main], with [all_files] and the
    effects so far. *)
Fixpoint main_loop (fuel : nat) (options : list poll_option) (thread_id : Z)
    (timestamp : string) (all_files : list string) (done : list fs_effect)
  : M (list string * list fs_effect) :=
  match options with
  | [] => ret (all_files, done)
  | option :: rest =>
      bind (process_option_files fuel (id option) (html option) thread_id
              timestamp)
        (fun files =>
           match files with
           | Some (paths, effects) =>
               main_loop fuel rest thread_id timestamp (all_files ++ paths)
                 (done ++ effects)
           | None => main_loop fuel rest thread_id timestamp all_files done
           end)
  end.

(** [main] of [metaforo_watchdog_en.py] on the command line [argv],
    [timestamp] being the clock reading it formats. *)
Definition main (fuel : nat) (argv : list string) (timestamp : string)
  : M main_result :=
  match argv with
  | [] | [_] => ret (SystemExit 1)
  | _ :: arg :: _ =>
      if prefix "http" arg then
        match parse_thread_id_from_url arg with
        | Ok thread_id =>
            bind (get_poll_options serve thread_id)
              (fun result =>
                 match result with
                 | None => ret (SystemExit 1)
                 | Some (options, thread_id) =>
                     bind (main_loop fuel options thread_id timestamp [] [])
                       (fun r => ret (Completed (snd r)))
                 end)
        | Raise ValueError => ret (SystemExit 1)
        | Raise e => raise e
        | Diverge => diverge
        end
      else
        match int_of_argument arg with
        | None => ret (SystemExit 1)
        | Some option_id =>
            bind (process_option_files fuel option_id (str option_id)
                    option_id timestamp)
              (fun files =>
                 ret (Completed
                        (match files with
                         | Some (_, effects) => effects
                         | None => []
                         end)))
        end
  end.

End Entry.

(** ** What the statements observe

    The definitions from here to the properties are not part of the script:
    they name the quantities, the traces and the sources the statements
    speak about. *)

(** *** Capacities and weights *)

(** The cells the loop of [get_address_onchain_weight] adds up. *)
Definition is_deposit (c : cell) : bool :=
  match cell_type c with
  | Some t => (t =? "nervos_dao_deposit")%string
  | None => false
  end.

(** The capacity a cell adds to the weight: its capacity if it is a deposit
    cell, nothing otherwise. *)
Definition deposit_capacity (c : cell) : Z :=
  match cell_type c with
  | Some t =>
      if (t =? "nervos_dao_deposit")%string
      then match capacity c with Some z => z | None => 0 end
      else 0
  | None => 0
  end.

(** The exact sum of the capacities of the deposit cells, in shannons. *)
Definition deposit_sum (cells : list cell) : Z :=
  fold_right (fun c acc => deposit_capacity c + acc) 0 cells.

(** The float the loop of [get_address_onchain_weight] accumulates over the
    cells [cells], and the weight the function returns for it. *)
Definition float_capacity (cells : list cell) : float :=
  fold_left add_cell cells (S754_zero false).

Definition weight_of_float (total_capacity : float) : res Z :=
  math_floor (float_div total_capacity (float_of_Z (10 ^ 8))).

(** The sum of the weights of a weight list. *)
Definition sum_weights (wl : list address_weight) : Z :=
  fold_right (fun item acc => aw_Weight item + acc) 0 wl.

(** The weight list of a voter whose addresses hold the cells [cells a],
    each address floored on its own. *)
Definition floored_weights (cells : string -> list cell)
    (addresses : list string) : list address_weight :=
  map (fun a => mkAW a (deposit_sum (cells a) / 10 ^ 8)) addresses.

(** *** Rounding *)

(** The second half of [binary_round_aux]: the rounded mantissa is brought
    back to 53 digits and packed. *)
Definition pack (s : bool) (m e : Z) : float :=
  let '(mrs, e') := shr_fexp prec emax m e loc_Exact in
  match shr_m mrs with
  | Z0 => S754_zero s
  | Zpos p => if e' <=? emax - prec then S754_finite s p e' else S754_infinity s
  | Zneg _ => S754_nan
  end.

(** A float that is [+0], or positive and normal with an exponent of at most
    [k]: the sums of the loop stay of this kind. *)
Definition float_below (k : Z) (t : float) : Prop :=
  t = S754_zero false \/
  exists m e,
    t = S754_finite false m e /\
    Zpos (digits2_pos m) = 53 /\ -52 <= e <= k.

(** *** Traces *)

(** The HTTP attempts of a trace, in order. *)
Definition http_events (t : list event) : list event := filter is_http t.

(** The events of one call of [request_with_retry] to a source that answers
    by the request alone: four attempts when the answer is a retryable
    failure, one otherwise. *)
Definition fetch_trace (f : verb -> url -> net_result) (v : verb) (u : url)
  : list event :=
  match attempt_outcome (f v u) with
  | Raise e =>
      if is_retryable_error e
      then retry_trace (Z.to_nat MAX_RETRIES) v u ++ [EvHttp v u]
      else [EvHttp v u]
  | _ => [EvHttp v u]
  end.

(** The events of [n] vote pages fetched at the first attempt from page
    [first] on, each followed by the cooldown, and their page requests. *)
Fixpoint listing_trace (option_id : Z) (first : Z) (n : nat) : list event :=
  match n with
  | O => []
  | S n' =>
      EvHttp POST (url_poll_list option_id first) :: EvSleep 500
        :: listing_trace option_id (first + 1) n'
  end.

Fixpoint vote_requests (option_id : Z) (first : Z) (n : nat) : list event :=
  match n with
  | O => []
  | S n' =>
      EvHttp POST (url_poll_list option_id first)
        :: vote_requests option_id (first + 1) n'
  end.

(** The same for [n] full pages of cells. *)
Fixpoint cells_trace (address : string) (page_size : Z) (first : Z) (n : nat)
  : list event :=
  match n with
  | O => []
  | S n' =>
      EvHttp GET (url_address_live_cells address first page_size)
        :: EvSleep 500 :: cells_trace address page_size (first + 1) n'
  end.

Fixpoint cell_requests (address : string) (page_size : Z) (first : Z)
    (n : nat) : list event :=
  match n with
  | O => []
  | S n' =>
      EvHttp GET (url_address_live_cells address first page_size)
        :: cell_requests address page_size (first + 1) n'
  end.

(** What a listing returns when the answer [stop] ends it after the votes
    [votes]: these votes if [stop] is a successful envelope, no data when it
    is a failure or another envelope. *)
Definition listing_result (stop : net_result) (votes : list vote)
  : option (list vote) :=
  match attempt_outcome stop with
  | Ok r => if envelope_ok (body r) then Some votes else None
  | _ => None
  end.

(** *** Sources

    A source answers an attempt by the request alone, whatever came
    before. *)

Definition pure_server {Srv : Type} (f : verb -> url -> net_result)
  : Srv -> verb -> url -> net_result * Srv :=
  fun s v u => (f v u, s).

(** Every attempt is answered with HTTP status [code]. *)
Definition always_status (code : Z) : verb -> url -> net_result :=
  fun _ _ => NetResponse (mkResponse code NotJson).

(** A successful [poll/list] answer carrying the votes [l]. *)
Definition vote_page (l : list vote) : net_result :=
  NetResponse (mkResponse 200 (VoteListBody true 20000 l)).

(** A vote listing made of [pages]: page [p] (from 1) is the [p]-th list,
    and every page after the last is answered by [after]. *)
Definition vote_source (pages : list (list vote)) (after : net_result)
  : verb -> url -> net_result :=
  fun _ u =>
    match u with
    | url_poll_list _ p => nth (Z.to_nat (p - 1)) (map vote_page pages) after
    | _ => NetResponse (mkResponse 404 NotJson)
    end.

(** The same, with an empty page after the last. *)
Definition vote_pages (pages : list (list vote)) : verb -> url -> net_result :=
  vote_source pages (vote_page []).

(** The source [f] answers the live cells of [address] with the cells
    [cells], cut into pages of the size asked for. *)
Definition serves_cells (f : verb -> url -> net_result) (address : string)
    (cells : list cell) : Prop :=
  forall v p n,
    f v (url_address_live_cells address p n) =
    NetResponse
      (mkResponse 200
         (CellsBody
            (firstn (Z.to_nat n) (skipn (Z.to_nat ((p - 1) * n)) cells)))).

(** The live cells [cells] of every address, cut into pages of the size
    asked for. *)
Definition cell_pages (cells : list cell) : verb -> url -> net_result :=
  fun _ u =>
    match u with
    | url_address_live_cells _ p n =>
        NetResponse
          (mkResponse 200
             (CellsBody
                (firstn (Z.to_nat n)
                   (skipn (Z.to_nat ((p - 1) * n)) cells))))
    | _ => NetResponse (mkResponse 404 NotJson)
    end.

(** A successful answer of the explorer carrying the cells [l]. *)
Definition cells_page (l : list cell) : net_result :=
  NetResponse (mkResponse 200 (CellsBody l)).

(** A cell listing made of [pages], whatever the page size asked for: page
    [p] (from 1) is the [p]-th list, and every page after the last is
    answered by [after]. *)
Definition cell_page_source (pages : list (list cell)) (after : net_result)
  : verb -> url -> net_result :=
  fun _ u =>
    match u with
    | url_address_live_cells _ p _ =>
        nth (Z.to_nat (p - 1)) (map cells_page pages) after
    | _ => NetResponse (mkResponse 404 NotJson)
    end.

(** A profile with the native addresses [addresses] and the public key
    [key], whoever is asked for. *)
Definition profile_source (addresses : list string) (key : string)
  : verb -> url -> net_result :=
  fun _ u =>
    match u with
    | url_profile _ =>
        NetResponse (mkResponse 200 (ProfileBody true 20000 addresses key))
    | _ => NetResponse (mkResponse 404 NotJson)
    end.

(** A voter profile with the native addresses [addresses] and no public
    key, and the live cells [cells a] for every address [a]. *)
Definition ledger_source (addresses : list string)
    (cells : string -> list cell) : verb -> url -> net_result :=
  fun _ u =>
    match u with
    | url_profile _ =>
        NetResponse (mkResponse 200 (ProfileBody true 20000 addresses ""))
    | url_address_live_cells a p n =>
        NetResponse
          (mkResponse 200
             (CellsBody
                (firstn (Z.to_nat n)
                   (skipn (Z.to_nat ((p - 1) * n)) (cells a)))))
    | _ => NetResponse (mkResponse 404 NotJson)
    end.

(** One poll option with the votes [votes] on its first page, over a
    ledger. *)
Definition poll_source (votes : list vote) (addresses : list string)
    (cells : string -> list cell) : verb -> url -> net_result :=
  fun v u =>
    match u with
    | url_poll_list _ 1 => vote_page votes
    | url_poll_list _ _ => vote_page []
    | _ => ledger_source addresses cells v u
    end.

(** Two poll options: the listing of option 1 always answers 500; option 2
    has one vote, without a voter id. *)
Definition two_options_source : verb -> url -> net_result :=
  fun _ u =>
    match u with
    | url_poll_list 2 1 =>
        vote_page [mkVote None (Some "anon") None (Some 50)]
    | url_poll_list 2 _ => vote_page []
    | url_poll_list _ _ => NetResponse (mkResponse 500 NotJson)
    | _ => NetResponse (mkResponse 404 NotJson)
    end.

(** *** Well-formed data *)

(** The cells a body holds: those of a cell list, none in another body. *)
Definition cells_in (data : payload) : list cell :=
  match data with
  | CellsBody l => l
  | _ => []
  end.

(** The capacities the server gives are 64-bit unsigned integers, as they
    are on chain. *)
Definition capacities_u64 {Srv : Type}
    (serve : Srv -> verb -> url -> net_result * Srv) : Prop :=
  forall s v u r s',
    serve s v u = (NetResponse r, s') ->
    Forall (fun c => 0 <= deposit_capacity c < 2 ^ 64) (cells_in (body r)).

(** What the explorer answers about the cells of an address is a list of
    cells, or is not JSON: never the body of another endpoint. *)
Definition cell_bodies {Srv : Type}
    (serve : Srv -> verb -> url -> net_result * Srv) : Prop :=
  forall s v address page page_size r s',
    serve s v (url_address_live_cells address page page_size) =
      (NetResponse r, s') ->
    body r = NotJson \/ exists l, body r = CellsBody l.

(** The public key [k] is hexadecimal, with or without the [0x] prefix:
    [bytearray.fromhex] accepts it. *)
Definition hexadecimal_key (k : string) : Prop :=
  fromhex (lower (if startswith_0x k then drop2 k else k)) <> None.

(** *** The command line, the files and the rest *)

(** Every character of [s] satisfies [p]. *)
Fixpoint string_forall (p : ascii -> bool) (s : string) : bool :=
  match s with
  | EmptyString => true
  | String c s' => (p c && string_forall p s')%bool
  end.

(** [s] is made of hexadecimal digits only. *)
Definition all_hex (s : string) : bool :=
  string_forall
    (fun c => match hex_digit c with Some _ => true | None => false end) s.

(** [s] is made of decimal digits only. *)
Definition all_digits (s : string) : bool := string_forall is_ascii_digit s.

(** The last character of [s] is a decimal digit. *)
Fixpoint last_is_digit (s : string) : bool :=
  match s with
  | EmptyString => false
  | String c EmptyString => is_ascii_digit c
  | String _ s' => last_is_digit s'
  end.

(** The string of [n] characters [c]. *)
Fixpoint replicate (n : nat) (c : ascii) : string :=
  match n with
  | O => EmptyString
  | S n' => String c (replicate n' c)
  end.

(** A character [re.sub] keeps: a word character or a hyphen. *)
Definition is_safe_char (c : ascii) : bool :=
  (is_word c || (c =? "-")%char)%bool.

(** [s] has no slash. *)
Definition no_slash (s : string) : bool :=
  string_forall (fun c => negb (c =? "/")%char) s.

(** A server that counts the attempts it has seen: it answers the first
    [failures] of them with HTTP status [code] and every later one with
    [r]. *)
Definition flaky_server (failures : nat) (code : Z) (r : response)
  : nat -> verb -> url -> net_result * nat :=
  fun seen _ _ =>
    (if Nat.ltb seen failures
     then NetResponse (mkResponse code NotJson)
     else NetResponse r,
     S seen).

(** The sum of the address weights of some rows. *)
Definition sum_address_weights (rows : list export_row) : Z :=
  fold_right (fun row acc => address_weight_floored row + acc) 0 rows.

(** The exact deposits of a voter, in shannons: the sum over the addresses
    of the capacities of their deposit cells. *)
Definition voter_deposits (cells : string -> list cell)
    (addresses : list string) : Z :=
  fold_right (fun a acc => deposit_sum (cells a) + acc) 0 addresses.


(** One poll option whose first page holds the votes [votes]; every profile
    has no native address and the public key [key]. *)
Definition keyed_poll_source (votes : list vote) (key : string)
  : verb -> url -> net_result :=
  fun _ u =>
    match u with
    | url_poll_list _ 1 => vote_page votes
    | url_poll_list _ _ => vote_page []
    | url_profile _ =>
        NetResponse (mkResponse 200 (ProfileBody true 20000 [] key))
    | _ => NetResponse (mkResponse 404 NotJson)
    end.

(** A forum whose every thread has the polls [polls]; any other request is
    answered by [f]. *)
Definition forum_source (polls : list (list poll_option))
    (f : verb -> url -> net_result) : verb -> url -> net_result :=
  fun v u =>
    match u with
    | url_get_thread _ =>
        NetResponse (mkResponse 200 (ThreadBody true 20000 polls))
    | _ => f v u
    end.

(** The rows of the JSON files and of the CSV files that were written, in
    order. *)
Definition json_rows (effects : list fs_effect) : list (list export_row) :=
  flat_map
    (fun e => match e with WriteJson _ rows => [rows] | _ => [] end) effects.

Definition csv_rows (effects : list fs_effect) : list (list export_row) :=
  flat_map
    (fun e => match e with WriteCsv _ rows => [rows] | _ => [] end) effects.

(** The effect [e] makes the directory [dir] or writes a file placed in
    it. *)
Definition in_directory (dir : string) (e : fs_effect) : Prop :=
  match e with
  | MakeDirs path => path = dir
  | WriteJson path _ | WriteCsv path _ => os_path_dirname path = dir
  end.

(** The effects [effects] save the batches [batches] in the directory
    [dir]: the same rows in the JSON files, in the CSV files and in the
    batches, in order, three effects for a batch, and all of them making
    [dir] or writing into it. *)
Definition saved (dir : string) (effects : list fs_effect)
    (batches : list (Z * list export_row)) : Prop :=
  json_rows effects = map snd batches /\
  csv_rows effects = map snd batches /\
  List.length effects = (3 * List.length batches)%nat /\
  Forall (in_directory dir) effects.

(** A paced run of requests: it begins and ends with a request, and between
    two requests there is one pause, of the retry delay or of the cooldown
    between pages. *)
Inductive paced : list event -> Prop :=
| paced_last v u : paced [EvHttp v u]
| paced_pause v u ms t :
    ms = 1000 * RETRY_DELAY \/ ms = 500 ->
    paced t ->
    paced (EvHttp v u :: EvSleep ms :: t).

(** * Properties *)

(** ** Python floats: what is exact *)

(** *** Digits *)
Lemma digits2_pos_size p : digits2_pos p = Pos.size p.
Proof. induction p; simpl; congruence. Qed.

Lemma digits2_bounds p :
  2 ^ (Zpos (digits2_pos p) - 1) <= Zpos p < 2 ^ Zpos (digits2_pos p).
Proof.
  rewrite digits2_pos_size.
  pose proof (Pos.size_gt p) as Hgt. pose proof (Pos.size_le p) as Hle.
  split.
  - assert (H : (2 ^ Pos.size p <= p~0)%positive) by exact Hle.
    apply Pos2Z.pos_le_pos in H. rewrite Pos2Z.inj_pow in H.
    replace (Zpos (Pos.size p)) with (Zpos (Pos.size p) - 1 + 1) in H by lia.
    rewrite Z.pow_add_r in H by lia. change (2 ^ 1) with 2 in H.
    change (Zpos p~0) with (2 * Zpos p) in H. lia.
  - apply Pos2Z.pos_lt_pos in Hgt. now rewrite Pos2Z.inj_pow in Hgt.
Qed.

Lemma digits2_unique p k :
  2 ^ (k - 1) <= Zpos p < 2 ^ k -> Zpos (digits2_pos p) = k.
Proof.
  intros [Hlo Hhi]. pose proof (digits2_bounds p) as [Dlo Dhi].
  set (d := Zpos (digits2_pos p)) in *.
  assert (Hd : 1 <= d) by (unfold d; lia).
  assert (Hk : 1 <= k).
  { destruct (Z_lt_le_dec k 1) as [Hlt|]; [|assumption].
    assert (2 ^ k <= 2 ^ 0) by (destruct (Z_lt_le_dec k 0);
      [rewrite Z.pow_neg_r by lia; simpl; lia | apply Z.pow_le_mono_r; lia]).
    simpl in H. lia. }
  destruct (Z.lt_trichotomy d k) as [Hlt|[Heq|Hgt]]; [|assumption|].
  - assert (2 ^ d <= 2 ^ (k - 1)) by (apply Z.pow_le_mono_r; lia). lia.
  - assert (2 ^ k <= 2 ^ (d - 1)) by (apply Z.pow_le_mono_r; lia). lia.
Qed.

(** *** Shifts to the left *)
Lemma iter_xO_spec m n : Zpos (Pos.iter xO m n) = Zpos m * 2 ^ Zpos n.
Proof.
  induction n using Pos.peano_ind.
  - simpl. lia.
  - rewrite Pos.iter_succ, Pos2Z.inj_succ, Z.pow_succ_r by lia.
    change (Zpos (Pos.iter xO m n)~0) with (2 * Zpos (Pos.iter xO m n)).
    rewrite IHn. lia.
Qed.

Lemma shl_align_spec mx ex ex' :
  let '(m', e') := shl_align mx ex ex' in
  e' = Z.min ex ex' /\ Zpos m' = Zpos mx * 2 ^ (ex - e').
Proof.
  unfold shl_align. destruct (ex' - ex) as [|d|d] eqn:Hd.
  - split; [lia|]. replace (ex - ex) with 0 by lia. simpl. lia.
  - split; [lia|]. replace (ex - ex) with 0 by lia. simpl. lia.
  - split; [lia|]. rewrite iter_xO_spec. f_equal. f_equal. lia.
Qed.

(** *** Shifts to the right *)
Lemma iter_pos_nat {A} (f : A -> A) p : forall x,
  iter_pos f p x = Nat.iter (Pos.to_nat p) f x.
Proof.
  induction p as [p IH|p IH|]; intros x.
  - change (iter_pos f p~1 x) with (iter_pos f p (iter_pos f p (f x))).
    rewrite !IH, Pos2Nat.inj_xI, Nat.iter_succ_r.
    replace (2 * Pos.to_nat p)%nat with (Pos.to_nat p + Pos.to_nat p)%nat by lia.
    now rewrite Nat.iter_add.
  - change (iter_pos f p~0 x) with (iter_pos f p (iter_pos f p x)).
    rewrite !IH, Pos2Nat.inj_xO.
    replace (2 * Pos.to_nat p)%nat with (Pos.to_nat p + Pos.to_nat p)%nat by lia.
    now rewrite Nat.iter_add.
  - reflexivity.
Qed.

Lemma shr_1_double k :
  0 <= k ->
  shr_1 (Build_shr_record (2 * k) false false) = Build_shr_record k false false.
Proof. destruct k; simpl; try reflexivity; lia. Qed.

Lemma shr_iter_exact n : forall m,
  0 <= m ->
  Nat.iter n shr_1 (Build_shr_record (m * 2 ^ Z.of_nat n) false false) =
  Build_shr_record m false false.
Proof.
  induction n as [|n IH]; intros m Hm.
  - simpl. now rewrite Z.mul_1_r.
  - rewrite Nat.iter_succ_r, Nat2Z.inj_succ, Z.pow_succ_r by lia.
    replace (m * (2 * 2 ^ Z.of_nat n)) with (2 * (m * 2 ^ Z.of_nat n)) by lia.
    rewrite shr_1_double by (apply Z.mul_nonneg_nonneg; [lia|apply Z.pow_nonneg; lia]).
    now apply IH.
Qed.

(** *** Values that need no rounding *)
Lemma fexp_normal x : -1074 <= x - 53 -> fexp prec emax x = x - 53.
Proof. intros H. unfold fexp, emin, prec, emax. lia. Qed.

Lemma shr_zero mrs e : shr mrs e 0 = (mrs, e).
Proof. reflexivity. Qed.

Lemma shr_exact m e sft :
  0 <= m -> 0 <= sft ->
  shr (Build_shr_record (m * 2 ^ sft) false false) e sft =
  (Build_shr_record m false false, e + sft).
Proof.
  intros Hm Hs. destruct sft as [|p|p]; [| |lia].
  - simpl. rewrite Z.mul_1_r, Z.add_0_r. reflexivity.
  - unfold shr. rewrite iter_pos_nat.
    rewrite <- (positive_nat_Z p) at 1. now rewrite shr_iter_exact.
Qed.

Lemma binary_round_aux_exact s M e sft m' :
  0 <= sft ->
  M = Zpos m' * 2 ^ sft ->
  Zpos (digits2_pos m') = 53 ->
  -1074 <= e + sft <= 971 ->
  binary_round_aux prec emax s M e loc_Exact = S754_finite s m' (e + sft).
Proof.
  intros Hs HM Hd He.
  pose proof (digits2_bounds m') as Hb. rewrite Hd in Hb.
  assert (Hpow : 0 < 2 ^ sft) by (apply Z.pow_pos_nonneg; lia).
  assert (HMpos : 0 < M) by (subst M; lia).
  destruct M as [|mM|mM]; try lia.
  assert (HD : Zpos (digits2_pos mM) = 53 + sft).
  { apply digits2_unique. rewrite HM.
    replace (53 + sft - 1) with (52 + sft) by lia.
    rewrite !Z.pow_add_r by lia. change (53 - 1) with 52 in Hb. nia. }
  unfold binary_round_aux, shr_fexp. simpl Zdigits2. rewrite HD.
  rewrite fexp_normal by lia.
  replace (53 + sft + e - 53 - e) with sft by lia.
  simpl shr_record_of_loc. rewrite HM.
  rewrite shr_exact by lia.
  simpl shr_m. simpl loc_of_shr_record. simpl round_nearest_even.
  simpl Zdigits2. rewrite Hd. rewrite fexp_normal by lia.
  replace (53 + (e + sft) - 53 - (e + sft)) with 0 by lia.
  rewrite shr_zero. simpl shr_m.
  replace (e + sft <=? emax - prec) with true
    by (symmetry; apply Z.leb_le; unfold emax, prec; lia).
  reflexivity.
Qed.

(** [binary_normalize] of a value [a * 2^k * 2^e] with [a] below [2^53] *)
Lemma binary_normalize_exact a k e :
  0 < a < 2 ^ 53 -> 0 <= k ->
  let d := Z.log2 a + 1 in
  -1074 <= d + k + e - 53 <= 971 ->
  binary_normalize prec emax (a * 2 ^ k) e false =
  S754_finite false (Z.to_pos (a * 2 ^ (53 - d))) (d + k + e - 53).
Proof.
  intros Ha Hk d He.
  assert (Hlog : 2 ^ (d - 1) <= a < 2 ^ d).
  { unfold d. replace (Z.log2 a + 1 - 1) with (Z.log2 a) by lia.
    replace (Z.log2 a + 1) with (Z.succ (Z.log2 a)) by lia.
    apply Z.log2_spec. lia. }
  assert (Hd1 : 1 <= d) by (unfold d; pose proof (Z.log2_nonneg a); lia).
  assert (Hd53 : d <= 53).
  { destruct (Z_le_gt_dec d 53); [assumption|].
    assert (2 ^ 53 <= 2 ^ (d - 1)) by (apply Z.pow_le_mono_r; lia). lia. }
  assert (Hpk : 0 < 2 ^ k) by (apply Z.pow_pos_nonneg; lia).
  assert (Hpd : 0 < 2 ^ (53 - d)) by (apply Z.pow_pos_nonneg; lia).
  set (m' := Z.to_pos (a * 2 ^ (53 - d))).
  assert (Hm' : Zpos m' = a * 2 ^ (53 - d)) by (unfold m'; rewrite Z2Pos.id; nia).
  assert (Hdm' : Zpos (digits2_pos m') = 53).
  { apply digits2_unique. rewrite Hm'. change (53 - 1) with 52.
    assert (E1 : 2 ^ 52 = 2 ^ (d - 1) * 2 ^ (53 - d))
      by (rewrite <- Z.pow_add_r by lia; f_equal; lia).
    assert (E2 : 2 ^ 53 = 2 ^ d * 2 ^ (53 - d))
      by (rewrite <- Z.pow_add_r by lia; f_equal; lia).
    rewrite E1, E2. nia. }
  destruct (a * 2 ^ k) as [|mx|mx] eqn:Hmx; try nia.
  assert (HD : Zpos (digits2_pos mx) = d + k).
  { apply digits2_unique. rewrite <- Hmx.
    replace (d + k - 1) with ((d - 1) + k) by lia.
    rewrite !Z.pow_add_r by lia. nia. }
  unfold binary_normalize, binary_round. rewrite HD.
  rewrite fexp_normal by lia.
  pose proof (shl_align_spec mx e (d + k + e - 53)) as Hsh.
  destruct (shl_align mx e (d + k + e - 53)) as [mz ez].
  destruct Hsh as [Hez Hmz].
  destruct (Z_le_gt_dec 53 (d + k)) as [Hge|Hlt].
  - (* no left shift: the mantissa is shifted right by d + k - 53 bits *)
    assert (Hz : ez = e) by lia. clear Hez. subst ez.
    replace (e - e) with 0 in Hmz by lia.
    rewrite Z.pow_0_r, Z.mul_1_r in Hmz.
    replace (d + k + e - 53) with (e + (d + k - 53)) by lia.
    apply binary_round_aux_exact; try lia; try assumption.
    rewrite Hmz, <- Hmx, Hm'.
    rewrite <- Z.mul_assoc, <- Z.pow_add_r by lia.
    f_equal. f_equal. lia.
  - assert (Hz : ez = d + k + e - 53) by lia. clear Hez. subst ez.
    replace (d + k + e - 53) with ((d + k + e - 53) + 0) at 2 by lia.
    apply binary_round_aux_exact; try lia; try assumption.
    rewrite Z.mul_1_r, Hmz, <- Hmx, Hm'.
    rewrite <- Z.mul_assoc, <- Z.pow_add_r by lia.
    f_equal. f_equal. lia.
Qed.

(** *** Conversion and addition below [2^53] *)
Lemma float_of_Z_pos a :
  0 < a < 2 ^ 53 ->
  float_of_Z a =
  S754_finite false (Z.to_pos (a * 2 ^ (53 - (Z.log2 a + 1))))
    (Z.log2 a + 1 - 53).
Proof.
  intros Ha. unfold float_of_Z.
  pose proof (Z.log2_nonneg a) as Hl.
  assert (Hd53 : Z.log2 a + 1 <= 53).
  { assert (Z.log2 a < 53) by (apply Z.log2_lt_pow2; lia). lia. }
  pose proof (binary_normalize_exact a 0 0 Ha ltac:(lia)) as H.
  cbv zeta in H. rewrite Z.pow_0_r, Z.mul_1_r in H.
  rewrite H by lia. f_equal. lia.
Qed.

Lemma float_add_exact a b :
  0 <= a -> 0 <= b -> a + b < 2 ^ 53 ->
  float_add (float_of_Z a) (float_of_Z b) = float_of_Z (a + b).
Proof.
  intros Ha Hb Hab.
  destruct (Z.eq_dec a 0) as [->|Hna].
  - rewrite Z.add_0_l. destruct (Z.eq_dec b 0) as [->|Hnb]; [reflexivity|].
    rewrite (float_of_Z_pos b) by lia. reflexivity.
  - destruct (Z.eq_dec b 0) as [->|Hnb].
    + rewrite Z.add_0_r, (float_of_Z_pos a) by lia. reflexivity.
    + rewrite (float_of_Z_pos a), (float_of_Z_pos b), (float_of_Z_pos (a + b))
        by lia.
      set (da := Z.log2 a + 1). set (db := Z.log2 b + 1).
      set (dc := Z.log2 (a + b) + 1).
      assert (Hda : 1 <= da <= 53).
      { unfold da. pose proof (Z.log2_nonneg a).
        assert (Z.log2 a < 53) by (apply Z.log2_lt_pow2; lia). lia. }
      assert (Hdb : 1 <= db <= 53).
      { unfold db. pose proof (Z.log2_nonneg b).
        assert (Z.log2 b < 53) by (apply Z.log2_lt_pow2; lia). lia. }
      assert (Hdc : 1 <= dc <= 53).
      { unfold dc. pose proof (Z.log2_nonneg (a + b)).
        assert (Z.log2 (a + b) < 53) by (apply Z.log2_lt_pow2; lia). lia. }
      assert (Hpa : 0 < 2 ^ (53 - da)) by (apply Z.pow_pos_nonneg; lia).
      assert (Hpb : 0 < 2 ^ (53 - db)) by (apply Z.pow_pos_nonneg; lia).
      unfold float_add, SFadd.
      set (ez := Z.min (da - 53) (db - 53)).
      pose proof (shl_align_spec (Z.to_pos (a * 2 ^ (53 - da))) (da - 53) ez)
        as Sa.
      pose proof (shl_align_spec (Z.to_pos (b * 2 ^ (53 - db))) (db - 53) ez)
        as Sb.
      destruct (shl_align (Z.to_pos (a * 2 ^ (53 - da))) (da - 53) ez)
        as [ma ea].
      destruct (shl_align (Z.to_pos (b * 2 ^ (53 - db))) (db - 53) ez)
        as [mb eb].
      destruct Sa as [Hea Hma]. destruct Sb as [Heb Hmb].
      simpl fst. unfold cond_Zopp.
      rewrite Z2Pos.id in Hma, Hmb by nia.
      assert (Hea' : ea = ez) by (unfold ez in *; lia).
      assert (Heb' : eb = ez) by (unfold ez in *; lia).
      rewrite Hea' in Hma. rewrite Heb' in Hmb.
      assert (Hez : ez <= 0) by (unfold ez; lia).
      rewrite <- Z.mul_assoc, <- Z.pow_add_r in Hma by lia.
      rewrite <- Z.mul_assoc, <- Z.pow_add_r in Hmb by lia.
      replace (53 - da + (da - 53 - ez)) with (- ez) in Hma by lia.
      replace (53 - db + (db - 53 - ez)) with (- ez) in Hmb by lia.
      rewrite Hma, Hmb, <- Z.mul_add_distr_r.
      pose proof (binary_normalize_exact (a + b) (- ez) ez ltac:(lia)
                    ltac:(lia)) as H.
      cbv zeta in H. fold dc in H. rewrite H by lia.
      f_equal. lia.
Qed.

Lemma add_cell_exact acc c :
  0 <= acc -> 0 <= deposit_capacity c ->
  acc + deposit_capacity c < 2 ^ 53 ->
  add_cell (float_of_Z acc) c = float_of_Z (acc + deposit_capacity c).
Proof.
  unfold add_cell, deposit_capacity. intros Ha Hc Hs.
  destruct (cell_type c) as [t|]; [|now rewrite Z.add_0_r].
  destruct (t =? "nervos_dao_deposit")%string; [|now rewrite Z.add_0_r].
  now apply float_add_exact.
Qed.

Lemma deposit_sum_nonneg cells :
  Forall (fun c => 0 <= deposit_capacity c) cells -> 0 <= deposit_sum cells.
Proof.
  induction 1 as [|c cells Hc _ IH]; simpl; [lia|].
  unfold deposit_sum in *. simpl. lia.
Qed.

Lemma fold_add_cell_exact cells : forall acc,
  0 <= acc ->
  Forall (fun c => 0 <= deposit_capacity c) cells ->
  acc + deposit_sum cells < 2 ^ 53 ->
  fold_left add_cell cells (float_of_Z acc) =
  float_of_Z (acc + deposit_sum cells).
Proof.
  induction cells as [|c cells IH]; intros acc Ha Hall Hs.
  - simpl. now rewrite Z.add_0_r.
  - inversion Hall as [|? ? Hc Hrest]; subst.
    pose proof (deposit_sum_nonneg cells Hrest) as Hn.
    change (deposit_sum (c :: cells))
      with (deposit_capacity c + deposit_sum cells) in *.
    simpl fold_left. rewrite add_cell_exact by lia.
    rewrite IH by (auto; lia). f_equal. lia.
Qed.

Lemma float_capacity_exact cells :
  Forall (fun c => 0 <= deposit_capacity c) cells ->
  deposit_sum cells < 2 ^ 53 ->
  float_capacity cells = float_of_Z (deposit_sum cells).
Proof.
  intros Hall Hs. unfold float_capacity.
  change (S754_zero false) with (float_of_Z 0).
  now rewrite fold_add_cell_exact by (auto; lia).
Qed.

(** *** Rounding a quotient *)

Lemma binary_round_aux_pack s m e l :
  binary_round_aux prec emax s m e l =
  let '(mrs, e') := shr_fexp prec emax m e l in
  pack s (round_nearest_even (shr_m mrs) (loc_of_shr_record mrs)) e'.
Proof.
  unfold binary_round_aux, pack.
  destruct (shr_fexp prec emax m e l) as [mrs e']. reflexivity.
Qed.

Lemma pack_exact s M e sft m' :
  0 <= sft ->
  M = Zpos m' * 2 ^ sft ->
  Zpos (digits2_pos m') = 53 ->
  -1074 <= e + sft <= 971 ->
  pack s M e = S754_finite s m' (e + sft).
Proof.
  intros Hs HM Hd He.
  pose proof (digits2_bounds m') as Hb. rewrite Hd in Hb.
  assert (Hpow : 0 < 2 ^ sft) by (apply Z.pow_pos_nonneg; lia).
  assert (HMpos : 0 < M) by (subst M; lia).
  destruct M as [|mM|mM]; try lia.
  assert (HD : Zpos (digits2_pos mM) = 53 + sft).
  { apply digits2_unique. rewrite HM.
    replace (53 + sft - 1) with (52 + sft) by lia.
    rewrite !Z.pow_add_r by lia. change (53 - 1) with 52 in Hb. nia. }
  unfold pack, shr_fexp. simpl Zdigits2. rewrite HD.
  rewrite fexp_normal by lia.
  replace (53 + sft + e - 53 - e) with sft by lia.
  simpl shr_record_of_loc. rewrite HM.
  rewrite shr_exact by lia.
  simpl shr_m.
  replace (e + sft <=? emax - prec) with true
    by (symmetry; apply Z.leb_le; unfold emax, prec; lia).
  reflexivity.
Qed.

Lemma math_floor_finite m e :
  e <= 0 -> math_floor (S754_finite false m e) = Ok (Zpos m / 2 ^ (- e)).
Proof.
  intros He. simpl. f_equal. rewrite Z.shiftl_div_pow2 by lia. reflexivity.
Qed.

(** Packing a mantissa of 53 digits, or [2^53] after a carry, keeps its
    value, and so its floor. *)
Lemma pack_floor q e :
  2 ^ 52 <= q <= 2 ^ 53 -> -1074 <= e <= -1 ->
  math_floor (pack false q e) = Ok (q / 2 ^ (- e)).
Proof.
  intros Hq He.
  destruct (Z.eq_dec q (2 ^ 53)) as [->|Hne].
  - rewrite (pack_exact false (2 ^ 53) e 1 (Z.to_pos (2 ^ 52)));
      try lia; try reflexivity.
    rewrite math_floor_finite by lia.
    f_equal. rewrite Z2Pos.id by reflexivity.
    replace (- e) with (1 + (- (e + 1))) by lia.
    rewrite Z.pow_add_r by lia.
    change (2 ^ 53) with (2 ^ 1 * 2 ^ 52).
    assert (0 < 2 ^ (- (e + 1))) by (apply Z.pow_pos_nonneg; lia).
    rewrite Z.div_mul_cancel_l; lia.
  - assert (Hq0 : 0 < q) by (assert (0 < 2 ^ 52) by reflexivity; lia).
    assert (H1 : q = Zpos (Z.to_pos q) * 2 ^ 0)
      by (rewrite Z2Pos.id, Z.pow_0_r by lia; lia).
    assert (H2 : Zpos (digits2_pos (Z.to_pos q)) = 53).
    { apply digits2_unique. rewrite Z2Pos.id by lia.
      change (53 - 1) with 52. lia. }
    rewrite (pack_exact false q e 0 (Z.to_pos q) ltac:(lia) H1 H2 ltac:(lia)).
    rewrite Z.add_0_r, math_floor_finite by lia. now rewrite Z2Pos.id.
Qed.

Lemma round_nearest_even_bounds m l :
  round_nearest_even m l = m \/ round_nearest_even m l = m + 1.
Proof.
  destruct l as [|[| |]]; simpl; auto. destruct (Z.even m); auto.
Qed.

Lemma shr_record_of_loc_m m l : shr_m (shr_record_of_loc m l) = m.
Proof. now destruct l as [|[| |]]. Qed.

Lemma loc_of_shr_record_of_loc m l :
  loc_of_shr_record (shr_record_of_loc m l) = l.
Proof. now destruct l as [|[| |]]. Qed.

(** One bit shifted out, then rounding: twice the result is the mantissa
    when it is even, and one of its two neighbours when it is odd. *)
Lemma shr_1_round p l :
  let mrs := shr_1 (shr_record_of_loc (Zpos p) l) in
  let q1 := round_nearest_even (shr_m mrs) (loc_of_shr_record mrs) in
  2 * q1 = Zpos p \/
  (Z.odd (Zpos p) = true /\ (2 * q1 = Zpos p - 1 \/ 2 * q1 = Zpos p + 1)).
Proof.
  destruct p as [p|p|]; destruct l as [|[| |]]; simpl;
    try (left; reflexivity);
    try (right; split; [reflexivity|]);
    try (destruct (Z.even (Zpos p)); simpl);
    try (destruct p; simpl);
    try (left; reflexivity); try (right; reflexivity); lia.
Qed.

Lemma binary_round_aux_floor q e l :
  2 ^ 52 <= q < 2 ^ 54 -> -1074 <= e <= -2 ->
  exists N,
    math_floor (binary_round_aux prec emax false q e l) = Ok (N / 2 ^ (- e)) /\
    q - 1 <= N <= q + 1 /\
    (N = q - 1 -> Z.odd q = true).
Proof.
  intros Hq He. rewrite binary_round_aux_pack. unfold shr_fexp.
  assert (Hq0 : 0 < q) by (assert (0 < 2 ^ 52) by reflexivity; lia).
  destruct q as [|p|p]; try lia. simpl Zdigits2.
  destruct (Z_lt_le_dec (Zpos p) (2 ^ 53)) as [Hlt|Hge].
  - assert (Hd : Zpos (digits2_pos p) = 53)
      by (apply digits2_unique; change (53 - 1) with 52; lia).
    rewrite Hd, fexp_normal by lia.
    replace (53 + e - 53 - e) with 0 by lia. rewrite shr_zero.
    rewrite shr_record_of_loc_m, loc_of_shr_record_of_loc.
    exists (round_nearest_even (Zpos p) l).
    destruct (round_nearest_even_bounds (Zpos p) l) as [-> | ->].
    + split; [apply pack_floor; lia|]. split; [lia|]. lia.
    + split; [apply pack_floor; lia|]. split; [lia|]. lia.
  - assert (Hd : Zpos (digits2_pos p) = 54)
      by (apply digits2_unique; change (54 - 1) with 53; lia).
    rewrite Hd, fexp_normal by lia.
    replace (54 + e - 53 - e) with 1 by lia.
    change (shr (shr_record_of_loc (Zpos p) l) e 1)
      with (shr_1 (shr_record_of_loc (Zpos p) l), e + 1).
    pose proof (shr_1_round p l) as Hr. cbv zeta in Hr.
    set (q1 := round_nearest_even
                 (shr_m (shr_1 (shr_record_of_loc (Zpos p) l)))
                 (loc_of_shr_record (shr_1 (shr_record_of_loc (Zpos p) l))))
      in *.
    assert (Hq1 : 2 ^ 52 <= q1 <= 2 ^ 53).
    { change (2 ^ 54) with (2 * 2 ^ 53) in Hq.
      change (2 ^ 53) with (2 * 2 ^ 52) in Hge.
      change (2 ^ 53) with (2 * 2 ^ 52) in Hq.
      change (2 ^ 53) with (2 * 2 ^ 52).
      destruct Hr as [Hr|[_ [Hr|Hr]]]; lia. }
    exists (2 * q1). split; [|split].
    + rewrite pack_floor by lia. f_equal.
      replace (- e) with (1 + (- (e + 1))) by lia.
      rewrite Z.pow_add_r by lia. change (2 ^ 1) with 2.
      assert (0 < 2 ^ (- (e + 1))) by (apply Z.pow_pos_nonneg; lia).
      rewrite Z.div_mul_cancel_l by lia. reflexivity.
    + lia.
    + intros HN. destruct Hr as [Hr|[Ho _]]; [lia|exact Ho].
Qed.

(** *** The weight of a capacity below [2^53] *)

Lemma quotient_floor x T' N :
  0 <= x -> 10 ^ 8 < 2 * T' ->
  let q := (x * (2 * T')) / 10 ^ 8 in
  q - 1 <= N <= q + 1 ->
  (N = q - 1 -> Z.odd q = true) ->
  N / (2 * T') = x / 10 ^ 8.
Proof.
  intros Hx HT q HN Hodd.
  set (T := 2 * T') in *.
  pose proof (Z.div_mod x (10 ^ 8) ltac:(discriminate)) as Hdm.
  pose proof (Z.mod_pos_bound x (10 ^ 8) ltac:(reflexivity)) as Hmod.
  set (Q0 := x / 10 ^ 8) in *. set (x0 := x mod 10 ^ 8) in *.
  assert (Hq : q = Q0 * T + (x0 * T) / 10 ^ 8).
  { unfold q. rewrite Hdm.
    replace ((10 ^ 8 * Q0 + x0) * T) with (Q0 * T * 10 ^ 8 + x0 * T) by ring.
    rewrite Z.div_add_l by discriminate. reflexivity. }
  set (j := (x0 * T) / 10 ^ 8) in *.
  assert (Hj0 : 0 <= j) by (apply Z.div_pos; [nia|reflexivity]).
  assert (Hj1 : j < T - 1).
  { apply Z.div_lt_upper_bound; [reflexivity|]. nia. }
  assert (Hj2 : N = q - 1 -> 1 <= j).
  { intros HNq. specialize (Hodd HNq).
    destruct (Z.eq_dec j 0) as [Hz|]; [|lia].
    rewrite Hq, Hz, Z.add_0_r in Hodd. unfold T in Hodd.
    replace (Q0 * (2 * T')) with (0 + 2 * (Q0 * T')) in Hodd by ring.
    rewrite Z.odd_add_mul_2 in Hodd. discriminate. }
  symmetry. apply (Z.div_unique N T Q0 (N - Q0 * T)); [|lia].
  left. lia.
Qed.

Lemma float_of_Z_1e8 :
  float_of_Z (10 ^ 8) = S754_finite false 6710886400000000 (-26).
Proof. vm_compute. reflexivity. Qed.

Lemma weight_of_float_exact x :
  0 <= x < 2 ^ 53 ->
  weight_of_float (float_of_Z x) = Ok (x / 10 ^ 8).
Proof.
  intros Hx. unfold weight_of_float. rewrite float_of_Z_1e8.
  destruct (Z.eq_dec x 0) as [->|Hx0]; [reflexivity|].
  rewrite float_of_Z_pos by lia.
  set (dx := Z.log2 x + 1).
  assert (Hlog : 2 ^ (dx - 1) <= x < 2 ^ dx).
  { unfold dx. replace (Z.log2 x + 1 - 1) with (Z.log2 x) by lia.
    replace (Z.log2 x + 1) with (Z.succ (Z.log2 x)) by lia.
    apply Z.log2_spec. lia. }
  assert (Hdx : 1 <= dx <= 53).
  { unfold dx. pose proof (Z.log2_nonneg x).
    assert (Z.log2 x < 53) by (apply Z.log2_lt_pow2; lia). lia. }
  assert (Hpd : 0 < 2 ^ (53 - dx)) by (apply Z.pow_pos_nonneg; lia).
  set (mx := Z.to_pos (x * 2 ^ (53 - dx))).
  assert (Hmx : Zpos mx = x * 2 ^ (53 - dx))
    by (unfold mx; rewrite Z2Pos.id; nia).
  assert (Hbx : 2 ^ 52 <= Zpos mx < 2 ^ 53).
  { rewrite Hmx.
    assert (E1 : 2 ^ 52 = 2 ^ (dx - 1) * 2 ^ (53 - dx))
      by (rewrite <- Z.pow_add_r by lia; f_equal; lia).
    assert (E2 : 2 ^ 53 = 2 ^ dx * 2 ^ (53 - dx))
      by (rewrite <- Z.pow_add_r by lia; f_equal; lia).
    rewrite E1, E2. nia. }
  assert (Hdmx : Zpos (digits2_pos mx) = 53)
    by (apply digits2_unique; exact Hbx).
  unfold float_div, SFdiv, SFdiv_core_binary.
  simpl Zdigits2. rewrite Hdmx.
  change (Zpos (digits2_pos 6710886400000000)) with 53.
  replace (53 + (dx - 53) - (53 + -26)) with (dx - 27) by lia.
  rewrite fexp_normal by lia.
  replace (Z.min (dx - 27 - 53) (dx - 53 - -26)) with (dx - 80) by lia.
  replace (dx - 53 - -26 - (dx - 80)) with 53 by lia.
  cbv iota. rewrite Z.shiftl_mul_pow2 by lia.
  set (my := 6710886400000000).
  destruct (Z.div_eucl (Zpos mx * 2 ^ 53) my) as [q r] eqn:Hdiv.
  assert (Hq : q = (Zpos mx * 2 ^ 53) / my)
    by (unfold Z.div; now rewrite Hdiv).
  simpl xorb.
  assert (Hmy : my = 10 ^ 8 * 2 ^ 26) by reflexivity.
  assert (Hqb : 2 ^ 52 <= q < 2 ^ 54).
  { rewrite Hq. split.
    - apply Z.div_le_lower_bound; [reflexivity|].
      assert (my <= 2 ^ 53) by (unfold my; vm_compute; discriminate). nia.
    - apply Z.div_lt_upper_bound; [reflexivity|].
      assert (2 ^ 52 <= my) by (unfold my; vm_compute; discriminate).
      change (2 ^ 54) with (2 ^ 52 * 4). nia. }
  destruct (binary_round_aux_floor q (dx - 80) (new_location my r) Hqb
              ltac:(lia)) as [N [Hfl [HN Hodd]]].
  rewrite Hfl. f_equal.
  replace (- (dx - 80)) with (80 - dx) by lia.
  assert (HT : 2 ^ (80 - dx) = 2 * 2 ^ (79 - dx)).
  { rewrite <- Z.pow_succ_r by lia. f_equal. lia. }
  assert (HT27 : 2 ^ 26 <= 2 ^ (79 - dx))
    by (apply Z.pow_le_mono_r; lia).
  assert (Hqx : q = (x * (2 * 2 ^ (79 - dx))) / 10 ^ 8).
  { rewrite Hq, Hmx, Hmy, <- HT.
    replace (x * 2 ^ (53 - dx) * 2 ^ 53) with (x * 2 ^ (80 - dx) * 2 ^ 26).
    - rewrite Z.div_mul_cancel_r by discriminate. reflexivity.
    - rewrite <- !Z.mul_assoc, <- !Z.pow_add_r by lia. f_equal. f_equal. lia. }
  rewrite HT. apply quotient_floor.
  - lia.
  - change (2 ^ 26) with 67108864 in HT27. change (10 ^ 8) with 100000000. lia.
  - rewrite <- Hqx. exact HN.
  - rewrite <- Hqx. exact Hodd.
Qed.

(** *** Rounding in general *)

Lemma shr_1_m mrs :
  0 <= shr_m mrs ->
  shr_m (shr_1 mrs) = shr_m mrs / 2 /\ shr_r (shr_1 mrs) = Z.odd (shr_m mrs).
Proof.
  destruct mrs as [m r s]. simpl shr_m at 1 3 4. intros Hm.
  destruct m as [|[p|p|]|p]; try lia; simpl; split; try reflexivity.
  - rewrite Pos2Z.inj_xI. apply (Z.div_unique_pos _ _ _ 1); lia.
  - rewrite Pos2Z.inj_xO. apply (Z.div_unique_pos _ _ _ 0); lia.
Qed.

Lemma shr_iter_m n : forall mrs,
  0 <= shr_m mrs ->
  shr_m (Nat.iter n shr_1 mrs) = shr_m mrs / 2 ^ Z.of_nat n.
Proof.
  induction n as [|n IH]; intros mrs Hm.
  - simpl. now rewrite Z.div_1_r.
  - rewrite Nat.iter_succ_r, IH by (destruct (shr_1_m mrs Hm) as [-> _];
                                     apply Z.div_pos; lia).
    destruct (shr_1_m mrs Hm) as [-> _].
    rewrite Nat2Z.inj_succ, Z.pow_succ_r by lia.
    rewrite Z.div_div by (try lia; apply Z.pow_pos_nonneg; lia).
    reflexivity.
Qed.

Lemma shr_iter_r n mrs :
  0 <= shr_m mrs ->
  shr_r (Nat.iter (S n) shr_1 mrs) = Z.odd (shr_m mrs / 2 ^ Z.of_nat n).
Proof.
  intros Hm. simpl Nat.iter.
  assert (H0 : 0 <= shr_m (Nat.iter n shr_1 mrs)).
  { rewrite shr_iter_m by assumption. apply Z.div_pos; [lia|].
    apply Z.pow_pos_nonneg; lia. }
  destruct (shr_1_m _ H0) as [_ ->]. now rewrite shr_iter_m.
Qed.

Lemma round_no_remainder_bit mrs :
  shr_r mrs = false ->
  round_nearest_even (shr_m mrs) (loc_of_shr_record mrs) = shr_m mrs.
Proof. destruct mrs as [m r s]. simpl. intros ->. now destruct s. Qed.

Lemma shl_align_above mx ex ex' :
  ex <= ex' -> shl_align mx ex ex' = (mx, ex).
Proof.
  intros H. unfold shl_align. destruct (ex' - ex) eqn:Hd; try reflexivity. lia.
Qed.

(** Rounding a positive mantissa of [D >= 53] digits: [n = D - 53] bits are
    shifted out, the quotient is kept or incremented, and it is kept when
    the first bit shifted out is 0. *)
Lemma binary_round_aux_shift s mp e :
  let D := Zpos (digits2_pos mp) in
  let n := D - 53 in
  53 <= D -> -1074 <= e + n ->
  exists q1,
    binary_round_aux prec emax s (Zpos mp) e loc_Exact = pack s q1 (e + n) /\
    (q1 = Zpos mp / 2 ^ n \/ q1 = Zpos mp / 2 ^ n + 1) /\
    (n = 0 -> q1 = Zpos mp) /\
    (1 <= n -> Z.odd (Zpos mp / 2 ^ (n - 1)) = false -> q1 = Zpos mp / 2 ^ n).
Proof.
  intros D n HD He. rewrite binary_round_aux_pack. unfold shr_fexp.
  simpl Zdigits2. fold D. rewrite fexp_normal by (unfold n in He; lia).
  replace (D + e - 53 - e) with n by (unfold n; lia).
  simpl shr_record_of_loc.
  assert (Hn0 : 0 <= n) by (unfold n; lia). clearbody n. clearbody D.
  destruct n as [|p|p]; [| |lia].
  - rewrite shr_zero. simpl shr_m. simpl loc_of_shr_record.
    simpl round_nearest_even. exists (Zpos mp).
    rewrite Z.pow_0_r, Z.div_1_r, Z.add_0_r.
    split; [reflexivity|]. split; [now left|]. split; [reflexivity|lia].
  - unfold shr. rewrite iter_pos_nat.
    set (mrs := Nat.iter (Pos.to_nat p) shr_1
                  (Build_shr_record (Zpos mp) false false)).
    assert (Hm : shr_m mrs = Zpos mp / 2 ^ Zpos p).
    { unfold mrs. rewrite shr_iter_m by (simpl; lia).
      now rewrite positive_nat_Z. }
    exists (round_nearest_even (shr_m mrs) (loc_of_shr_record mrs)).
    split; [reflexivity|]. split; [|split].
    + rewrite <- Hm. apply round_nearest_even_bounds.
    + lia.
    + intros _ Hodd. rewrite <- Hm. apply round_no_remainder_bit.
      unfold mrs.
      destruct (Pos.to_nat p) as [|k] eqn:Hk; [lia|].
      rewrite shr_iter_r by (simpl; lia). simpl shr_m.
      replace (Z.of_nat k) with (Zpos p - 1) by lia. exact Hodd.
Qed.

Lemma pack_finite s q e :
  2 ^ 52 <= q <= 2 ^ 53 -> -1074 <= e <= 970 ->
  exists m' e',
    pack s q e = S754_finite s m' e' /\
    Zpos (digits2_pos m') = 53 /\ e <= e' <= e + 1.
Proof.
  intros Hq He.
  destruct (Z.eq_dec q (2 ^ 53)) as [->|Hne].
  - exists (Z.to_pos (2 ^ 52)), (e + 1). split; [|split; [reflexivity|lia]].
    apply pack_exact; try lia; reflexivity.
  - assert (Hq0 : 0 < q) by (assert (0 < 2 ^ 52) by reflexivity; lia).
    assert (H1 : q = Zpos (Z.to_pos q) * 2 ^ 0)
      by (rewrite Z2Pos.id, Z.pow_0_r by lia; lia).
    assert (H2 : Zpos (digits2_pos (Z.to_pos q)) = 53).
    { apply digits2_unique. rewrite Z2Pos.id by lia.
      change (53 - 1) with 52. lia. }
    exists (Z.to_pos q), (e + 0). split; [|split; [exact H2|lia]].
    apply pack_exact; try lia; assumption.
Qed.

Lemma quotient_digits mp :
  let D := Zpos (digits2_pos mp) in
  53 <= D -> 2 ^ 52 <= Zpos mp / 2 ^ (D - 53) < 2 ^ 53.
Proof.
  intros D HD. pose proof (digits2_bounds mp) as Hb. fold D in Hb.
  assert (Hp : 0 < 2 ^ (D - 53)) by (apply Z.pow_pos_nonneg; lia).
  assert (E1 : 2 ^ (D - 1) = 2 ^ 52 * 2 ^ (D - 53))
    by (rewrite <- Z.pow_add_r by lia; f_equal; lia).
  assert (E2 : 2 ^ D = 2 ^ 53 * 2 ^ (D - 53))
    by (rewrite <- Z.pow_add_r by lia; f_equal; lia).
  split.
  - apply Z.div_le_lower_bound; [exact Hp|]. lia.
  - apply Z.div_lt_upper_bound; [exact Hp|]. lia.
Qed.

(** A positive value of at least 53 digits is rounded to a normal float
    whose exponent is the one of its leading 53 digits, or one more. *)
Lemma binary_normalize_finite mp ez :
  let D := Zpos (digits2_pos mp) in
  53 <= D -> -52 <= ez -> ez + D - 52 <= 970 ->
  exists m' e',
    binary_normalize prec emax (Zpos mp) ez false = S754_finite false m' e' /\
    Zpos (digits2_pos m') = 53 /\
    ez + D - 53 <= e' <= ez + D - 52.
Proof.
  intros D HD Hez Hhi. unfold binary_normalize, binary_round. fold D.
  rewrite fexp_normal by lia.
  rewrite shl_align_above by lia.
  destruct (binary_round_aux_shift false mp ez HD ltac:(fold D; lia))
    as [q1 [Hrun [Hq1 _]]].
  fold D in Hrun, Hq1. rewrite Hrun.
  pose proof (quotient_digits mp HD) as Hqd. fold D in Hqd.
  destruct (pack_finite false q1 (ez + (D - 53))) as [m' [e' [Hp [Hd He']]]];
    [destruct Hq1; lia|lia|].
  exists m', e'. split; [exact Hp|]. split; [exact Hd|lia].
Qed.

Lemma normal_form_digits a :
  0 < a < 2 ^ 53 ->
  Zpos (digits2_pos (Z.to_pos (a * 2 ^ (53 - (Z.log2 a + 1))))) = 53.
Proof.
  intros Ha. set (d := Z.log2 a + 1).
  assert (Hlog : 2 ^ (d - 1) <= a < 2 ^ d).
  { unfold d. replace (Z.log2 a + 1 - 1) with (Z.log2 a) by lia.
    replace (Z.log2 a + 1) with (Z.succ (Z.log2 a)) by lia.
    apply Z.log2_spec. lia. }
  assert (Hd : 1 <= d <= 53).
  { unfold d. pose proof (Z.log2_nonneg a).
    assert (Z.log2 a < 53) by (apply Z.log2_lt_pow2; lia). lia. }
  assert (Hpd : 0 < 2 ^ (53 - d)) by (apply Z.pow_pos_nonneg; lia).
  apply digits2_unique. rewrite Z2Pos.id by nia. change (53 - 1) with 52.
  assert (E1 : 2 ^ 52 = 2 ^ (d - 1) * 2 ^ (53 - d))
    by (rewrite <- Z.pow_add_r by lia; f_equal; lia).
  assert (E2 : 2 ^ 53 = 2 ^ d * 2 ^ (53 - d))
    by (rewrite <- Z.pow_add_r by lia; f_equal; lia).
  rewrite E1, E2. nia.
Qed.

(** The float of a capacity below [2^64]. *)
Lemma float_of_Z_below z :
  0 <= z < 2 ^ 64 -> float_below 12 (float_of_Z z).
Proof.
  intros Hz. destruct (Z.eq_dec z 0) as [->|Hnz]; [now left|]. right.
  destruct (Z_lt_le_dec z (2 ^ 53)) as [Hlt|Hge].
  - rewrite float_of_Z_pos by lia.
    eexists; eexists. split; [reflexivity|]. split.
    + apply normal_form_digits. lia.
    + pose proof (Z.log2_nonneg z).
      assert (Z.log2 z < 53) by (apply Z.log2_lt_pow2; lia). lia.
  - unfold float_of_Z. destruct z as [|zp|zp]; try lia.
    pose proof (digits2_bounds zp) as Hb.
    assert (HD : 54 <= Zpos (digits2_pos zp) <= 64).
    { split.
      - destruct (Z_lt_le_dec (Zpos (digits2_pos zp)) 54); [|assumption].
        assert (2 ^ Zpos (digits2_pos zp) <= 2 ^ 53)
          by (apply Z.pow_le_mono_r; lia). lia.
      - destruct (Z_lt_le_dec 64 (Zpos (digits2_pos zp))); [|assumption].
        assert (2 ^ 64 <= 2 ^ (Zpos (digits2_pos zp) - 1))
          by (apply Z.pow_le_mono_r; lia). lia. }
    destruct (binary_normalize_finite zp 0) as [m' [e' [Hn [Hd He]]]];
      try lia.
    exists m', e'. split; [exact Hn|]. split; [exact Hd|lia].
Qed.

Lemma digits_ge_53 mp : 2 ^ 52 <= Zpos mp -> 53 <= Zpos (digits2_pos mp).
Proof.
  intros H. pose proof (digits2_bounds mp) as [_ Hb].
  destruct (Z_lt_le_dec (Zpos (digits2_pos mp)) 53); [|assumption].
  assert (2 ^ Zpos (digits2_pos mp) <= 2 ^ 52) by (apply Z.pow_le_mono_r; lia).
  lia.
Qed.

Lemma digits_le mp k : 0 <= k -> Zpos mp < 2 ^ k -> Zpos (digits2_pos mp) <= k.
Proof.
  intros Hk H. pose proof (digits2_bounds mp) as [Hb _].
  destruct (Z_lt_le_dec k (Zpos (digits2_pos mp))); [|assumption].
  assert (2 ^ k <= 2 ^ (Zpos (digits2_pos mp) - 1))
    by (apply Z.pow_le_mono_r; lia).
  lia.
Qed.

(** Adding a capacity keeps the sum below: up to the exponent 65 the sum
    may gain two exponents, and from 66 on the capacity is too small to
    change it. *)
Lemma float_add_below t c :
  float_below 67 t -> float_below 12 c -> float_below 67 (float_add t c).
Proof.
  intros [->|[m [e [-> [Hdm He]]]]] [->|[mc [ec [-> [Hdc Hec]]]]].
  - now left.
  - right. exists mc, ec. repeat split; try assumption; lia.
  - right. exists m, e. repeat split; try assumption; lia.
  - pose proof (digits2_bounds m) as Hbm. rewrite Hdm in Hbm.
    pose proof (digits2_bounds mc) as Hbc. rewrite Hdc in Hbc.
    change (53 - 1) with 52 in Hbm, Hbc.
    unfold float_add, SFadd. set (ez := Z.min e ec).
    pose proof (shl_align_spec m e ez) as Sa.
    pose proof (shl_align_spec mc ec ez) as Sb.
    destruct (shl_align m e ez) as [ma ea].
    destruct (shl_align mc ec ez) as [mb eb].
    destruct Sa as [Hea Hma]. destruct Sb as [Heb Hmb].
    simpl fst. unfold cond_Zopp.
    change (Zpos ma + Zpos mb) with (Zpos (ma + mb)).
    assert (Hea' : ea = ez) by (unfold ez in *; lia).
    assert (Heb' : eb = ez) by (unfold ez in *; lia).
    rewrite Hea' in Hma. rewrite Heb' in Hmb. clear Hea Heb Hea' Heb'.
    assert (HM : Zpos (ma + mb) = Zpos m * 2 ^ (e - ez) + Zpos mc * 2 ^ (ec - ez))
      by (rewrite Pos2Z.inj_add; lia).
    assert (Hpa : 1 <= 2 ^ (e - ez))
      by (assert (0 < 2 ^ (e - ez)) by (apply Z.pow_pos_nonneg; unfold ez; lia);
          lia).
    assert (Hpb : 1 <= 2 ^ (ec - ez))
      by (assert (0 < 2 ^ (ec - ez))
            by (apply Z.pow_pos_nonneg; unfold ez; lia); lia).
    right.
    destruct (Z_le_gt_dec e 65) as [Hlow|Hhigh].
    + set (emx := Z.max e ec).
      assert (Hpm : 2 ^ (e - ez) <= 2 ^ (emx - ez))
        by (apply Z.pow_le_mono_r; unfold emx, ez; lia).
      assert (Hpn : 2 ^ (ec - ez) <= 2 ^ (emx - ez))
        by (apply Z.pow_le_mono_r; unfold emx, ez; lia).
      assert (H52 : 2 ^ 52 <= Zpos (ma + mb)) by (rewrite HM; nia).
      assert (Hup : Zpos (ma + mb) < 2 ^ (54 + (emx - ez))).
      { rewrite Z.pow_add_r by (unfold emx, ez; lia).
        change (2 ^ 54) with (2 * 2 ^ 53). rewrite HM. nia. }
      pose proof (digits_ge_53 _ H52) as HD1.
      assert (Hk0 : 0 <= 54 + (emx - ez)) by (unfold emx, ez; lia).
      pose proof (digits_le (ma + mb) (54 + (emx - ez)) Hk0 Hup) as HD2.
      destruct (binary_normalize_finite (ma + mb) ez HD1)
        as [m' [e' [Hn [Hd He']]]]; [unfold ez; lia|unfold emx, ez in *; lia|].
      exists m', e'. split; [exact Hn|]. split; [exact Hd|].
      unfold emx, ez in *; lia.
    + assert (Hez : ez = ec) by (unfold ez; lia).
      rewrite Hez in *. clear Hez ez.
      replace (ec - ec) with 0 in * by lia.
      rewrite Z.pow_0_r, Z.mul_1_r in HM.
      set (k := e - ec) in *.
      assert (Hk : 54 <= k) by (unfold k; lia).
      assert (Hpk : 2 ^ 53 <= 2 ^ (k - 1)) by (apply Z.pow_le_mono_r; lia).
      assert (Hpk2 : 2 ^ k = 2 * 2 ^ (k - 1)).
      { rewrite <- Z.pow_succ_r by lia. f_equal. lia. }
      assert (HD : Zpos (digits2_pos (ma + mb)) = 53 + k).
      { apply digits2_unique. rewrite HM.
        replace (53 + k - 1) with (52 + k) by lia.
        rewrite !Z.pow_add_r by lia. nia. }
      unfold binary_normalize, binary_round. rewrite HD.
      rewrite fexp_normal by lia. rewrite shl_align_above by lia.
      destruct (binary_round_aux_shift false (ma + mb) ec)
        as [q1 [Hrun [_ [_ Hq1]]]]; [lia|lia|].
      rewrite HD in Hrun, Hq1.
      replace (53 + k - 53) with k in Hrun, Hq1 by lia.
      assert (Hquot : Zpos (ma + mb) / 2 ^ k = Zpos m).
      { rewrite HM, Z.div_add_l by lia. rewrite Z.div_small by lia. lia. }
      assert (Hbit : Z.odd (Zpos (ma + mb) / 2 ^ (k - 1)) = false).
      { rewrite HM, Hpk2.
        replace (Zpos m * (2 * 2 ^ (k - 1))) with (2 * Zpos m * 2 ^ (k - 1))
          by ring.
        rewrite Z.div_add_l by lia. rewrite Z.div_small by lia.
        rewrite Z.add_0_r, Z.odd_mul. reflexivity. }
      rewrite Hrun, (Hq1 ltac:(lia) Hbit), Hquot.
      exists m, e. split; [|split; [exact Hdm|lia]].
      rewrite (pack_exact false (Zpos m) (ec + k) 0 m);
        [f_equal; unfold k; lia|lia|rewrite Z.pow_0_r; lia|exact Hdm|
         unfold k; lia].
Qed.

Lemma add_cell_below total c :
  float_below 67 total ->
  0 <= deposit_capacity c < 2 ^ 64 ->
  float_below 67 (add_cell total c).
Proof.
  unfold add_cell, deposit_capacity. intros Ht Hc.
  destruct (cell_type c) as [t|]; [|exact Ht].
  destruct (t =? "nervos_dao_deposit")%string; [|exact Ht].
  apply float_add_below; [exact Ht|]. now apply float_of_Z_below.
Qed.

Lemma fold_add_cell_below cells : forall total,
  float_below 67 total ->
  Forall (fun c => 0 <= deposit_capacity c < 2 ^ 64) cells ->
  float_below 67 (fold_left add_cell cells total).
Proof.
  induction cells as [|c cells IH]; intros total Ht Hall; [exact Ht|].
  inversion Hall as [|? ? Hc Hrest]; subst. simpl.
  apply IH; [|exact Hrest]. now apply add_cell_below.
Qed.

Lemma binary_round_aux_quotient_finite q e l :
  2 ^ 52 <= q < 2 ^ 54 -> -1074 <= e <= 900 ->
  exists m' e', binary_round_aux prec emax false q e l = S754_finite false m' e'.
Proof.
  intros Hq He. rewrite binary_round_aux_pack. unfold shr_fexp.
  assert (Hq0 : 0 < q) by (assert (0 < 2 ^ 52) by reflexivity; lia).
  destruct q as [|p|p]; try lia. simpl Zdigits2.
  destruct (Z_lt_le_dec (Zpos p) (2 ^ 53)) as [Hlt|Hge].
  - assert (Hd : Zpos (digits2_pos p) = 53)
      by (apply digits2_unique; change (53 - 1) with 52; lia).
    rewrite Hd, fexp_normal by lia.
    replace (53 + e - 53 - e) with 0 by lia. rewrite shr_zero.
    rewrite shr_record_of_loc_m, loc_of_shr_record_of_loc.
    destruct (pack_finite false (round_nearest_even (Zpos p) l) e)
      as [m' [e' [Hp _]]]; [|lia|now exists m', e'].
    destruct (round_nearest_even_bounds (Zpos p) l) as [-> | ->]; lia.
  - assert (Hd : Zpos (digits2_pos p) = 54)
      by (apply digits2_unique; change (54 - 1) with 53; lia).
    rewrite Hd, fexp_normal by lia.
    replace (54 + e - 53 - e) with 1 by lia.
    change (shr (shr_record_of_loc (Zpos p) l) e 1)
      with (shr_1 (shr_record_of_loc (Zpos p) l), e + 1).
    pose proof (shr_1_round p l) as Hr. cbv zeta in Hr.
    set (q1 := round_nearest_even
                 (shr_m (shr_1 (shr_record_of_loc (Zpos p) l)))
                 (loc_of_shr_record (shr_1 (shr_record_of_loc (Zpos p) l))))
      in *.
    assert (Hq1 : 2 ^ 52 <= q1 <= 2 ^ 53).
    { change (2 ^ 54) with (2 * 2 ^ 53) in Hq.
      change (2 ^ 53) with (2 * 2 ^ 52) in Hge.
      change (2 ^ 53) with (2 * 2 ^ 52) in Hq.
      change (2 ^ 53) with (2 * 2 ^ 52).
      destruct Hr as [Hr|[_ [Hr|Hr]]]; lia. }
    destruct (pack_finite false q1 (e + 1)) as [m' [e' [Hp _]]];
      [exact Hq1|lia|now exists m', e'].
Qed.

(** The weight of a float of this kind is an integer: [math.floor] is not
    given an infinity or a NaN. *)
Lemma weight_of_float_returns t :
  float_below 67 t -> exists z, weight_of_float t = Ok z.
Proof.
  unfold weight_of_float. rewrite float_of_Z_1e8.
  intros [->|[m [e [-> [Hdm He]]]]]; [now exists 0|].
  pose proof (digits2_bounds m) as Hbm. rewrite Hdm in Hbm.
  change (53 - 1) with 52 in Hbm.
  unfold float_div, SFdiv, SFdiv_core_binary.
  simpl Zdigits2. rewrite Hdm.
  change (Zpos (digits2_pos 6710886400000000)) with 53.
  replace (53 + e - (53 + -26)) with (e + 26) by lia.
  rewrite fexp_normal by lia.
  replace (Z.min (e + 26 - 53) (e - -26)) with (e - 27) by lia.
  replace (e - -26 - (e - 27)) with 53 by lia.
  cbv iota. rewrite Z.shiftl_mul_pow2 by lia.
  set (my := 6710886400000000).
  destruct (Z.div_eucl (Zpos m * 2 ^ 53) my) as [q r] eqn:Hdiv.
  assert (Hq : q = (Zpos m * 2 ^ 53) / my)
    by (unfold Z.div; now rewrite Hdiv).
  simpl xorb.
  assert (Hqb : 2 ^ 52 <= q < 2 ^ 54).
  { rewrite Hq. split.
    - apply Z.div_le_lower_bound; [reflexivity|].
      assert (my <= 2 ^ 53) by (unfold my; vm_compute; discriminate). nia.
    - apply Z.div_lt_upper_bound; [reflexivity|].
      assert (2 ^ 52 <= my) by (unfold my; vm_compute; discriminate).
      change (2 ^ 54) with (2 ^ 52 * 4). nia. }
  destruct (binary_round_aux_quotient_finite q (e - 27) (new_location my r)
              Hqb ltac:(lia)) as [m' [e' ->]].
  simpl. eexists. reflexivity.
Qed.



Section PipelineFacts.

Context {Srv : Type}.
Variable serve : Srv -> verb -> url -> net_result * Srv.
Variable script_addr : bool -> list Byte.byte -> Z -> list Byte.byte -> string.

(** ** The request executor *)

Lemma attempt_once_verb method v u w :
  verb_of_method method = Some v ->
  attempt_once serve method u w =
    (attempt_outcome (fst (serve (server w) v u)),
     mkWorld (snd (serve (server w) v u)) (trace w ++ [EvHttp v u])).
Proof.
  unfold verb_of_method, attempt_once, bind, requests_send, raise_for_status.
  intros H.
  destruct (lower method =? "get")%string.
  - injection H as <-. destruct (serve (server w) GET u) as [[e|r] s']; simpl; auto.
    destruct ((400 <=? status_code r) && (status_code r <? 600)); reflexivity.
  - destruct (lower method =? "post")%string; [|discriminate].
    injection H as <-. destruct (serve (server w) POST u) as [[e|r] s']; simpl; auto.
    destruct ((400 <=? status_code r) && (status_code r <? 600)); reflexivity.
Qed.

Lemma attempt_once_unsupported method u w :
  verb_of_method method = None ->
  attempt_once serve method u w = (Raise ValueError, w).
Proof.
  unfold verb_of_method, attempt_once, bind, raise.
  destruct (lower method =? "get")%string; [discriminate|].
  destruct (lower method =? "post")%string; [discriminate|]. reflexivity.
Qed.

Lemma attempt_outcome_RequestException r e :
  attempt_outcome r = Raise e -> is_RequestException e = true.
Proof.
  destruct r as [n|resp]; simpl.
  - intros [= <-]. destruct n; reflexivity.
  - destruct ((400 <=? status_code resp) && (status_code resp <? 600)); [|discriminate].
    intros [= <-]. reflexivity.
Qed.


Lemma retry_loop_step method v u mr attempt rest last w :
  verb_of_method method = Some v ->
  retry_loop serve method u mr (attempt :: rest) last w =
    let w1 := mkWorld (snd (serve (server w) v u)) (trace w ++ [EvHttp v u]) in
    match attempt_outcome (fst (serve (server w) v u)) with
    | Ok r => (Ok r, w1)
    | Raise e =>
        if (attempt <? mr) && is_retryable_error e
        then retry_loop serve method u mr rest (Some e)
               (mkWorld (server w1) (trace w1 ++ [EvSleep (1000 * RETRY_DELAY)]))
        else (Raise e, w1)
    | Diverge => (Diverge, w1)
    end.
Proof.
  intros Hv. simpl. unfold try_except. rewrite (attempt_once_verb _ _ _ _ Hv).
  destruct (attempt_outcome (fst (serve (server w) v u))) as [r|e|] eqn:Ho; try reflexivity.
  rewrite (attempt_outcome_RequestException _ _ Ho).
  destruct ((attempt <? mr) && is_retryable_error e); reflexivity.
Qed.

Lemma retry_loop_run method v u mr :
  verb_of_method method = Some v ->
  forall k n i last s tr,
    (k < n)%nat ->
    Z.of_nat (i + n) = mr + 1 ->
    (forall j, (j < k)%nat -> retryable_failure serve (server_after serve j s v u) v u) ->
    final_outcome mr i k
      (attempt_outcome (fst (serve (server_after serve k s v u) v u))) ->
    retry_loop serve method u mr (map Z.of_nat (seq i n)) last (mkWorld s tr) =
      (attempt_outcome (fst (serve (server_after serve k s v u) v u)),
       mkWorld (server_after serve (S k) s v u)
               (tr ++ retry_trace k v u ++ [EvHttp v u])).
Proof.
  intros Hv. induction k as [|k IH]; intros n i last s tr Hk Hn Hpre Hfin.
  - destruct n as [|n]; [lia|]. simpl seq. simpl map.
    rewrite (retry_loop_step _ _ _ _ _ _ _ _ Hv). simpl.
    unfold final_outcome in Hfin. simpl in Hfin.
    destruct (attempt_outcome (fst (serve s v u))) as [r|e|] eqn:Ho; simpl in *.
    + reflexivity.
    + destruct Hfin as [Hnr|Hlast].
      * rewrite Hnr, andb_false_r. reflexivity.
      * replace (Z.of_nat i <? mr) with false by (symmetry; apply Z.ltb_ge; lia).
        reflexivity.
    + contradiction.
  - destruct n as [|n]; [lia|]. simpl seq. simpl map.
    rewrite (retry_loop_step _ _ _ _ _ _ _ _ Hv). simpl.
    destruct (Hpre 0%nat ltac:(lia)) as [e [He Hr]]. simpl in He.
    rewrite He, Hr.
    replace (Z.of_nat i <? mr) with true by (symmetry; apply Z.ltb_lt; lia).
    simpl. rewrite (IH n (S i) (Some e)); try lia.
    + f_equal. f_equal. rewrite <- !app_assoc. reflexivity.
    + intros j Hj. apply (Hpre (S j)). lia.
    + unfold final_outcome in *. simpl in Hfin.
      destruct (attempt_outcome
                  (fst (serve (server_after serve k (snd (serve s v u)) v u) v u)));
        auto.
      destruct Hfin as [Hnr|Hl]; [left; exact Hnr | right; lia].
Qed.


Lemma is_retryable_error_iff e :
  is_retryable_error e = true <->
  (e = ConnectionError \/ e = Timeout \/
   exists st, e = HTTPError (Some st) /\ (st = 429 \/ 500 <= st)).
Proof.
  split.
  - destruct e as [| |[st|]| | | | | | |]; simpl; try discriminate; auto.
    intros H. right. right. exists st. split; [reflexivity|].
    apply orb_true_iff in H. destruct H as [H|H]; [left|right]; lia.
  - intros [->|[->|[st [-> H]]]]; simpl; auto.
    apply orb_true_iff. destruct H; [left|right]; lia.
Qed.

Lemma http_count_app t1 t2 :
  http_count (t1 ++ t2) = (http_count t1 + http_count t2)%nat.
Proof. unfold http_count. rewrite filter_app, length_app. reflexivity. Qed.

Lemma http_count_retry_trace n v u : http_count (retry_trace n v u) = n.
Proof.
  induction n as [|n IH]; [reflexivity|].
  change (http_count (retry_trace (S n) v u))
    with (S (http_count (retry_trace n v u))). now rewrite IH.
Qed.

(** A request that fails retryably in every server state uses the whole
    budget and raises the error of the last attempt. *)
Lemma request_with_retry_exhausts method v u mr w :
  verb_of_method method = Some v ->
  0 <= mr ->
  (forall s, retryable_failure serve s v u) ->
  exists e,
    request_with_retry serve method u mr w =
      (Raise e,
       mkWorld (server_after serve (S (Z.to_nat mr)) (server w) v u)
               (trace w ++ retry_trace (Z.to_nat mr) v u ++ [EvHttp v u])) /\
    attempt_outcome
      (fst (serve (server_after serve (Z.to_nat mr) (server w) v u) v u)) =
      Raise e.
Proof.
  intros Hv Hmr Hall.
  destruct (Hall (server_after serve (Z.to_nat mr) (server w) v u))
    as [e [He Hr]].
  exists e. split; [|exact He].
  unfold request_with_retry, range. destruct w as [s tr].
  simpl server in *. simpl trace. rewrite <- He.
  apply (retry_loop_run method v u mr Hv (Z.to_nat mr)
           (Z.to_nat (mr + 1)) 0%nat None s tr).
  - lia.
  - lia.
  - intros j _. apply Hall.
  - rewrite He. simpl. right. lia.
Qed.

(** A failure that is not retryable ends the call at the first attempt. *)
Lemma request_with_retry_propagates method v u mr w e :
  verb_of_method method = Some v ->
  0 <= mr ->
  attempt_outcome (fst (serve (server w) v u)) = Raise e ->
  is_retryable_error e = false ->
  request_with_retry serve method u mr w =
    (Raise e, mkWorld (snd (serve (server w) v u)) (trace w ++ [EvHttp v u])).
Proof.
  intros Hv Hmr He Hr.
  unfold request_with_retry, range. destruct w as [s tr]. simpl in *.
  rewrite (retry_loop_run method v u mr Hv 0%nat
             (Z.to_nat (mr + 1)) 0%nat None s tr); simpl; try lia.
  - rewrite He. reflexivity.
  - rewrite He. simpl. now left.
Qed.

(** A first attempt that is answered ends the call with that answer. *)
Lemma request_with_retry_answers method v u mr w r :
  verb_of_method method = Some v ->
  0 <= mr ->
  attempt_outcome (fst (serve (server w) v u)) = Ok r ->
  request_with_retry serve method u mr w =
    (Ok r, mkWorld (snd (serve (server w) v u)) (trace w ++ [EvHttp v u])).
Proof.
  intros Hv Hmr He.
  unfold request_with_retry, range. destruct w as [s tr]. simpl in *.
  rewrite (retry_loop_run method v u mr Hv 0%nat
             (Z.to_nat (mr + 1)) 0%nat None s tr); simpl; try lia.
  - rewrite He. reflexivity.
  - rewrite He. exact I.
Qed.

Lemma request_with_retry_unsupported method u mr w :
  verb_of_method method = None ->
  0 <= mr ->
  request_with_retry serve method u mr w = (Raise ValueError, w).
Proof.
  intros Hv Hmr. unfold request_with_retry, range.
  destruct (Z.to_nat (mr + 1)) as [|n] eqn:Hn; [lia|].
  simpl. unfold try_except. rewrite (attempt_once_unsupported _ _ _ Hv).
  reflexivity.
Qed.

(** C5. The executor retries a failed attempt exactly when attempts remain
    and the error is a connection error, a timeout or an HTTP error with
    status 429 or at least 500; against a request that always fails
    retryably it makes [max_retries + 1] attempts (4 with the default) and
    raises the error of the last one as it is; an error that is not
    retryable, and an unsupported method, end the call at once. *)
Theorem request_with_retry_policy :
  (forall e,
     is_retryable_error e = true <->
     (e = ConnectionError \/ e = Timeout \/
      exists st, e = HTTPError (Some st) /\ (st = 429 \/ 500 <= st))) /\
  (forall method v u mr attempt rest last w e,
     verb_of_method method = Some v ->
     attempt_outcome (fst (serve (server w) v u)) = Raise e ->
     let w1 := mkWorld (snd (serve (server w) v u))
                       (trace w ++ [EvHttp v u]) in
     retry_loop serve method u mr (attempt :: rest) last w =
       if (attempt <? mr) && is_retryable_error e
       then retry_loop serve method u mr rest (Some e)
              (mkWorld (server w1)
                       (trace w1 ++ [EvSleep (1000 * RETRY_DELAY)]))
       else (Raise e, w1)) /\
  (forall method v u mr w,
     verb_of_method method = Some v ->
     0 <= mr ->
     (forall s, retryable_failure serve s v u) ->
     exists e w',
       request_with_retry serve method u mr w = (Raise e, w') /\
       attempt_outcome
         (fst (serve (server_after serve (Z.to_nat mr) (server w) v u) v u)) =
         Raise e /\
       trace w' = trace w ++ retry_trace (Z.to_nat mr) v u ++ [EvHttp v u] /\
       Z.of_nat (http_count (trace w')) =
         Z.of_nat (http_count (trace w)) + (mr + 1)) /\
  (forall method v u w,
     verb_of_method method = Some v ->
     (forall s, retryable_failure serve s v u) ->
     exists e w',
       request_with_retry serve method u MAX_RETRIES w = (Raise e, w') /\
       trace w' =
         trace w ++
         [EvHttp v u; EvSleep 3000; EvHttp v u; EvSleep 3000;
          EvHttp v u; EvSleep 3000; EvHttp v u]) /\
  (forall method v u mr w e,
     verb_of_method method = Some v ->
     0 <= mr ->
     attempt_outcome (fst (serve (server w) v u)) = Raise e ->
     is_retryable_error e = false ->
     exists w',
       request_with_retry serve method u mr w = (Raise e, w') /\
       trace w' = trace w ++ [EvHttp v u]) /\
  (forall method u mr w,
     verb_of_method method = None ->
     0 <= mr ->
     request_with_retry serve method u mr w = (Raise ValueError, w)).
Proof.
  split; [exact is_retryable_error_iff|].
  split.
  { intros method v u mr attempt rest last w e Hv He w1.
    rewrite (retry_loop_step _ _ _ _ _ _ _ _ Hv). simpl. rewrite He.
    reflexivity. }
  split.
  { intros method v u mr w Hv Hmr Hall.
    destruct (request_with_retry_exhausts method v u mr w Hv Hmr Hall)
      as [e [Hrun He]].
    eexists; eexists. split; [exact Hrun|]. split; [exact He|].
    split; [reflexivity|]. simpl trace.
    rewrite !http_count_app, http_count_retry_trace.
    change (http_count [EvHttp v u]) with 1%nat. lia. }
  split.
  { intros method v u w Hv Hall.
    destruct (request_with_retry_exhausts method v u MAX_RETRIES w Hv
                ltac:(unfold MAX_RETRIES; lia) Hall) as [e [Hrun He]].
    eexists; eexists. split; [exact Hrun|]. reflexivity. }
  split.
  { intros method v u mr w e Hv Hmr He Hr. eexists. split.
    - apply request_with_retry_propagates; eassumption.
    - reflexivity. }
  intros method u mr w Hv Hmr. now apply request_with_retry_unsupported.
Qed.

End PipelineFacts.

Lemma request_with_retry_policy_witness :
  exists e w',
    request_with_retry (pure_server (Srv:=unit) (always_status 500)) "get" (url_profile 7)
      MAX_RETRIES (mkWorld tt []) = (Raise e, w') /\
    trace w' =
      [] ++
      [EvHttp GET (url_profile 7); EvSleep 3000;
       EvHttp GET (url_profile 7); EvSleep 3000;
       EvHttp GET (url_profile 7); EvSleep 3000;
       EvHttp GET (url_profile 7)].
Proof.
  destruct (request_with_retry_policy (pure_server (Srv:=unit) (always_status 500)))
    as (_ & _ & _ & H & _).
  apply (H "get" GET (url_profile 7) (mkWorld tt [])).
  - reflexivity.
  - intros s. exists (HTTPError (Some 500)). split; reflexivity.
Defined.

(** ** The vote paginator *)

Section PaginatorFacts.

Context {Srv : Type}.
Variable serve : Srv -> verb -> url -> net_result * Srv.

Lemma retry_loop_raises method v u mr :
  verb_of_method method = Some v ->
  forall attempts last w e w',
    (forall e0, last = Some e0 -> is_RequestException e0 = true) ->
    (last = None -> attempts <> []) ->
    retry_loop serve method u mr attempts last w = (Raise e, w') ->
    is_RequestException e = true.
Proof.
  intros Hv. induction attempts as [|a rest IH]; intros last w e w' Hl Hne Hrun.
  - destruct last as [e0|]; [|now destruct (Hne eq_refl)].
    simpl in Hrun. unfold raise in Hrun. injection Hrun as <- _. now apply Hl.
  - rewrite (retry_loop_step serve _ _ _ _ _ _ _ _ Hv) in Hrun. simpl in Hrun.
    destruct (attempt_outcome (fst (serve (server w) v u))) as [r|e1|] eqn:Ho;
      try discriminate.
    pose proof (attempt_outcome_RequestException _ _ Ho) as He1.
    destruct ((a <? mr) && is_retryable_error e1).
    + apply IH in Hrun; auto.
      * intros e0 [= <-]. exact He1.
      * discriminate.
    + injection Hrun as <- _. exact He1.
Qed.

Lemma retry_loop_returns method v u mr :
  verb_of_method method = Some v ->
  forall attempts last w w',
    retry_loop serve method u mr attempts last w <> (Diverge, w').
Proof.
  intros Hv. induction attempts as [|a rest IH]; intros last w w' Hrun.
  - simpl in Hrun. destruct last; discriminate.
  - rewrite (retry_loop_step serve _ _ _ _ _ _ _ _ Hv) in Hrun. simpl in Hrun.
    destruct (attempt_outcome (fst (serve (server w) v u))) as [r|e1|] eqn:Ho.
    + discriminate.
    + destruct ((a <? mr) && is_retryable_error e1); [|discriminate].
      now apply IH in Hrun.
    + destruct (fst (serve (server w) v u)) as [n|resp]; simpl in Ho;
        [discriminate|].
      destruct ((400 <=? status_code resp) && (status_code resp <? 600));
        discriminate.
Qed.

(** With a supported method and the default budget the executor raises
    request exceptions only, and always returns. *)
Lemma request_with_retry_raises method v u w e w' :
  verb_of_method method = Some v ->
  request_with_retry serve method u MAX_RETRIES w = (Raise e, w') ->
  is_RequestException e = true.
Proof.
  intros Hv. unfold request_with_retry.
  apply (retry_loop_raises method v u MAX_RETRIES Hv); [discriminate|].
  intros _. discriminate.
Qed.

Lemma request_with_retry_returns method v u w w' :
  verb_of_method method = Some v ->
  request_with_retry serve method u MAX_RETRIES w <> (Diverge, w').
Proof. intros Hv. now apply (retry_loop_returns method v u MAX_RETRIES Hv). Qed.

(** One turn of the [while True] loop of [get_all_votes]. *)
Lemma get_all_votes_loop_step fuel option_id all_votes page w :
  get_all_votes_loop serve (S fuel) option_id all_votes page w =
    match request_with_retry serve "post" (url_poll_list option_id page)
            MAX_RETRIES w with
    | (Ok r, w1) =>
        if envelope_ok (body r) then
          match vote_list_of (body r) with
          | [] => (Ok (Some all_votes), w1)
          | _ :: _ =>
              get_all_votes_loop serve fuel option_id
                (all_votes ++ vote_list_of (body r)) (page + 1)
                (mkWorld (server w1) (trace w1 ++ [EvSleep 500]))
          end
        else (Ok None, w1)
    | (Raise e, w1) => (Ok None, w1)
    | (Diverge, w1) => (Diverge, w1)
    end.
Proof.
  simpl. unfold bind at 1. unfold try_except. unfold bind at 1.
  destruct (request_with_retry serve "post" (url_poll_list option_id page)
              MAX_RETRIES w) as [[r|e|] w1] eqn:Hreq.
  - unfold bind, json. destruct (body r) as [st c l|st c a k|st c ps|d|] eqn:Hb;
      simpl; try reflexivity.
    + destruct (st && (c =? 20000)); simpl; [|reflexivity].
      destruct l; reflexivity.
    + destruct (st && (c =? 20000)); reflexivity.
    + destruct (st && (c =? 20000)); reflexivity.
  - rewrite (request_with_retry_raises "post" POST _ _ _ _ eq_refl Hreq).
    reflexivity.
  - reflexivity.
Qed.

Lemma server_after_pure (f : verb -> url -> net_result) n (s : Srv) v u :
  server_after (pure_server f) n s v u = s.
Proof. induction n as [|n IH]; simpl; auto. Qed.

(** Against a pure server the executor ends with the outcome of the
    attempt, after one attempt or after the whole budget. *)
Lemma request_with_retry_pure (f : verb -> url -> net_result) method v u
    (w : world (Srv:=Srv)) :
  verb_of_method method = Some v ->
  request_with_retry (pure_server f) method u MAX_RETRIES w =
    (attempt_outcome (f v u),
     mkWorld (server w) (trace w ++ fetch_trace f v u)).
Proof.
  intros Hv. unfold request_with_retry, range, fetch_trace.
  destruct w as [s tr]. simpl server. simpl trace.
  destruct (attempt_outcome (f v u)) as [r|e|] eqn:Ho.
  - rewrite (retry_loop_run (pure_server f) method v u MAX_RETRIES Hv 0%nat
               (Z.to_nat (MAX_RETRIES + 1)) 0%nat None s tr); simpl;
      try (unfold MAX_RETRIES; lia).
    + now rewrite Ho.
    + now rewrite Ho.
  - destruct (is_retryable_error e) eqn:Hr.
    + rewrite (retry_loop_run (pure_server f) method v u MAX_RETRIES Hv
                 (Z.to_nat MAX_RETRIES)
                 (Z.to_nat (MAX_RETRIES + 1)) 0%nat None s tr).
      * rewrite !server_after_pure. simpl. now rewrite Ho.
      * unfold MAX_RETRIES; lia.
      * unfold MAX_RETRIES; lia.
      * intros j _. exists e. rewrite server_after_pure. simpl. now split.
      * rewrite server_after_pure. simpl. rewrite Ho. simpl. now right.
    + rewrite (retry_loop_run (pure_server f) method v u MAX_RETRIES Hv 0%nat
                 (Z.to_nat (MAX_RETRIES + 1)) 0%nat None s tr); simpl;
        try (unfold MAX_RETRIES; lia).
      * now rewrite Ho.
      * rewrite Ho. simpl. now left.
  - destruct (f v u) as [n|resp]; simpl in Ho; [discriminate|].
    destruct ((400 <=? status_code resp) && (status_code resp <? 600));
      discriminate.
Qed.

(** A returned vote list is complete: it is never what was fetched before a
    failed page. *)
Lemma get_all_votes_loop_complete option_id :
  forall fuel all_votes page w l w',
    get_all_votes_loop serve fuel option_id all_votes page w =
      (Ok (Some l), w') ->
    complete_listing serve option_id w page all_votes l w'.
Proof.
  induction fuel as [|fuel IH]; intros acc page w l w' Hrun.
  - discriminate.
  - rewrite get_all_votes_loop_step in Hrun.
    destruct (request_with_retry serve "post" (url_poll_list option_id page)
                MAX_RETRIES w) as [[r|e|] w1] eqn:Hreq; try discriminate.
    destruct (envelope_ok (body r)) eqn:Hok; [|discriminate].
    destruct (vote_list_of (body r)) as [|x xs] eqn:Hl.
    + injection Hrun as <- <-. eapply listing_end; eassumption.
    + eapply listing_page; try eassumption.
      * rewrite Hl. discriminate.
      * rewrite Hl. apply IH. exact Hrun.
Qed.

(** A page that fails, or that is not a successful envelope, ends the
    listing with no data, whatever was fetched before. *)
Lemma get_all_votes_loop_abort fuel option_id all_votes page w o w1 :
  request_with_retry serve "post" (url_poll_list option_id page)
    MAX_RETRIES w = (o, w1) ->
  match o with
  | Ok r => envelope_ok (body r) = false
  | Raise _ => True
  | Diverge => False
  end ->
  get_all_votes_loop serve (S fuel) option_id all_votes page w = (Ok None, w1).
Proof.
  intros Hreq Hbad. rewrite get_all_votes_loop_step, Hreq.
  destruct o as [r|e|]; [now rewrite Hbad|reflexivity|contradiction].
Qed.

Lemma get_all_votes_loop_never_raises option_id :
  forall fuel all_votes page w e w',
    get_all_votes_loop serve fuel option_id all_votes page w <> (Raise e, w').
Proof.
  induction fuel as [|fuel IH]; intros acc page w e w' Hrun.
  - discriminate.
  - rewrite get_all_votes_loop_step in Hrun.
    destruct (request_with_retry serve "post" (url_poll_list option_id page)
                MAX_RETRIES w) as [[r|e1|] w1]; try discriminate.
    destruct (envelope_ok (body r)); [|discriminate].
    destruct (vote_list_of (body r)); [discriminate|].
    now apply IH in Hrun.
Qed.

End PaginatorFacts.

(** *** Listings from a source of pages *)

Section VoteSourceFacts.

Context {Srv : Type}.

Lemma vote_source_nth (done rest : list (list vote)) p after v option_id :
  vote_source (done ++ p :: rest) after v
    (url_poll_list option_id (Z.of_nat (List.length done) + 1)) = vote_page p.
Proof.
  unfold vote_source.
  replace (Z.to_nat (Z.of_nat (List.length done) + 1 - 1))
    with (List.length done) by lia.
  rewrite map_app, app_nth2; rewrite length_map; [|lia].
  now rewrite Nat.sub_diag.
Qed.

Lemma vote_source_stop (good tail : list (list vote)) after v option_id :
  vote_source (good ++ tail) after v
    (url_poll_list option_id (Z.of_nat (List.length good) + 1)) =
  nth 0 (map vote_page tail) after.
Proof.
  unfold vote_source.
  replace (Z.to_nat (Z.of_nat (List.length good) + 1 - 1))
    with (List.length good) by lia.
  rewrite map_app, app_nth2; rewrite length_map; [|lia].
  now rewrite Nat.sub_diag.
Qed.

(** The pages with votes are fetched one after the other, one attempt and
    one cooldown each. *)
Lemma get_all_votes_loop_progress option_id tail after :
  forall rest done all_votes extra (w : world (Srv:=Srv)),
    Forall (fun p => p <> []) rest ->
    get_all_votes_loop
      (pure_server (vote_source (done ++ rest ++ tail) after))
      (List.length rest + extra) option_id all_votes
      (Z.of_nat (List.length done) + 1) w =
    get_all_votes_loop
      (pure_server (vote_source (done ++ rest ++ tail) after))
      extra option_id (all_votes ++ List.concat rest)
      (Z.of_nat (List.length (done ++ rest)) + 1)
      (mkWorld (server w)
         (trace w ++
          listing_trace option_id (Z.of_nat (List.length done) + 1)
            (List.length rest))).
Proof.
  induction rest as [|p rest IH]; intros done acc extra w Hne.
  - simpl. rewrite !app_nil_r. now destruct w.
  - inversion Hne as [|? ? Hp Hrest]; subst.
    change (List.length (p :: rest) + extra)%nat
      with (S (List.length rest + extra)).
    rewrite get_all_votes_loop_step.
    rewrite (request_with_retry_pure _ "post" POST) by reflexivity.
    unfold fetch_trace.
    change ((p :: rest) ++ tail) with (p :: rest ++ tail).
    rewrite (vote_source_nth done (rest ++ tail) p after POST option_id).
    destruct p as [|x xs]; [contradiction|].
    simpl attempt_outcome. cbv iota. cbv beta. simpl body.
    simpl envelope_ok. cbv iota. simpl vote_list_of. cbv iota.
    simpl server. simpl trace.
    pose proof (IH (done ++ [x :: xs]) (acc ++ x :: xs) extra
                  (mkWorld (server w)
                     ((trace w ++
                       [EvHttp POST
                          (url_poll_list option_id
                             (Z.of_nat (List.length done) + 1))]) ++
                      [EvSleep 500])) Hrest) as IH'.
    rewrite <- !app_assoc in IH'. simpl app in IH'.
    replace (Z.of_nat (List.length (done ++ [x :: xs])) + 1)
      with (Z.of_nat (List.length done) + 1 + 1) in IH'
      by (rewrite length_app; simpl; lia).
    simpl server in IH'. simpl trace in IH'.
    replace (List.length ((done ++ [x :: xs]) ++ rest))
      with (List.length (done ++ (x :: xs) :: rest)) in IH'
      by (now rewrite <- app_assoc).
    rewrite <- !app_assoc. simpl app.
    rewrite <- !app_assoc in IH'. simpl app in IH'.
    exact IH'.
Qed.

(** A listing from a source whose first pages [good] hold votes and whose
    next answer [stop] is not one more page of votes: the votes of [good] if
    [stop] is an empty page, no data otherwise. *)
Lemma get_all_votes_source option_id good tail after fuel
    (w : world (Srv:=Srv)) :
  let f := vote_source (good ++ tail) after in
  let stop := nth 0 (map vote_page tail) after in
  let last := url_poll_list option_id (Z.of_nat (List.length good) + 1) in
  Forall (fun p => p <> []) good ->
  (List.length good < fuel)%nat ->
  (forall r, attempt_outcome stop = Ok r ->
             envelope_ok (body r) = true -> vote_list_of (body r) = []) ->
  get_all_votes (pure_server f) fuel option_id w =
    (Ok (listing_result stop (List.concat good)),
     mkWorld (server w)
       (trace w ++ listing_trace option_id 1 (List.length good)
                ++ fetch_trace f POST last)).
Proof.
  intros f stop last Hgood Hfuel Hstop. unfold get_all_votes.
  replace fuel with (List.length good + S (fuel - List.length good - 1))%nat
    by lia.
  pose proof (get_all_votes_loop_progress option_id tail after good [] []
                (S (fuel - List.length good - 1)) w Hgood) as Hp.
  change ([] ++ good ++ tail) with (good ++ tail) in Hp.
  change (Z.of_nat (List.length (@nil (list vote))) + 1) with 1 in Hp.
  change ([] ++ List.concat good) with (List.concat good) in Hp.
  change (List.length ([] ++ good)) with (List.length good) in Hp.
  fold f in Hp. rewrite Hp. clear Hp.
  rewrite get_all_votes_loop_step.
  rewrite (request_with_retry_pure _ "post" POST) by reflexivity.
  fold last. unfold fetch_trace, listing_result.
  assert (Hf : f POST last = stop) by apply vote_source_stop.
  rewrite Hf. simpl server. simpl trace.
  destruct (attempt_outcome stop) as [r|e|] eqn:Ho.
  - destruct (envelope_ok (body r)) eqn:Hok.
    + rewrite (Hstop r eq_refl Hok). now rewrite <- app_assoc.
    + now rewrite <- app_assoc.
  - destruct (is_retryable_error e); now rewrite <- app_assoc.
  - destruct stop as [n|resp]; simpl in Ho; [discriminate|].
    destruct ((400 <=? status_code resp) && (status_code resp <? 600));
      discriminate.
Qed.

End VoteSourceFacts.

(** ** The weight aggregator: pagination *)

Section AggregatorFacts.

Context {Srv : Type}.
Variable serve : Srv -> verb -> url -> net_result * Srv.

(** One turn of the [while True] loop of [get_address_onchain_weight]. *)
Lemma live_cells_loop_step fuel page_size address total page w :
  live_cells_loop serve (S fuel) page_size address total page w =
    match request_with_retry serve "get"
            (url_address_live_cells address page page_size) MAX_RETRIES w with
    | (Ok r, w1) =>
        match body r with
        | NotJson => (Ok total, w1)
        | CellsBody data =>
            let total' := fold_left add_cell data total in
            if Z.of_nat (List.length data) <? page_size
            then (Ok total', w1)
            else live_cells_loop serve fuel page_size address total'
                   (page + 1)
                   (mkWorld (server w1) (trace w1 ++ [EvSleep 500]))
        | _ => (Raise AttributeError, w1)
        end
    | (Raise e, w1) => (Ok total, w1)
    | (Diverge, w1) => (Diverge, w1)
    end.
Proof.
  simpl. unfold bind at 1. unfold try_except. unfold bind at 1.
  destruct (request_with_retry serve "get"
              (url_address_live_cells address page page_size)
              MAX_RETRIES w) as [[r|e|] w1] eqn:Hreq.
  - unfold bind, json, lift.
    destruct (body r) as [st c l|st c a k|st c ps|d|] eqn:Hb; simpl;
      try reflexivity;
      match goal with
      | |- context [if ?c then _ else _] => destruct c; reflexivity
      end.
  - rewrite (request_with_retry_raises serve "get" GET _ _ _ _ eq_refl Hreq).
    reflexivity.
  - reflexivity.
Qed.

(** The loop lets no failure of a page request out: such a failure ends it
    with the capacity summed so far.  What it raises is the
    [AttributeError] of a body that is not a list of cells. *)
Lemma live_cells_loop_raises page_size address :
  forall fuel total page w e w',
    live_cells_loop serve fuel page_size address total page w = (Raise e, w') ->
    e = AttributeError.
Proof.
  induction fuel as [|fuel IH]; intros total page w e w' Hrun.
  - discriminate.
  - rewrite live_cells_loop_step in Hrun.
    destruct (request_with_retry serve "get"
                (url_address_live_cells address page page_size) MAX_RETRIES w)
      as [[r|e1|] w1]; try discriminate.
    destruct (body r); cbv zeta in Hrun; try discriminate;
      try (now injection Hrun as <- _).
    match type of Hrun with
    | context [if ?c then _ else _] => destruct c
    end; [discriminate|]. now apply IH in Hrun.
Qed.

End AggregatorFacts.

(** *** Cells from a source cut into pages *)

Section CellSourceFacts.

Context {Srv : Type}.

Lemma cell_pages_serves cells address :
  serves_cells (cell_pages cells) address cells.
Proof. intros v p n. reflexivity. Qed.

Lemma serves_cells_answer f (done rest : list cell) v address page n :
  serves_cells f address (done ++ rest) ->
  Z.of_nat (List.length done) = (page - 1) * n ->
  f v (url_address_live_cells address page n) =
    NetResponse (mkResponse 200 (CellsBody (firstn (Z.to_nat n) rest))).
Proof.
  intros Hs Hd. rewrite Hs, <- Hd, Nat2Z.id.
  rewrite skipn_app, skipn_all, Nat.sub_diag. reflexivity.
Qed.

Lemma div_step (a b : nat) :
  (1 <= b)%nat -> (b <= a)%nat -> (a / b = S ((a - b) / b))%nat.
Proof.
  intros Hb Hab.
  replace a with ((a - b) + 1 * b)%nat at 1 by lia.
  rewrite Nat.div_add by lia. lia.
Qed.

(** Whatever the page size, the loop adds every cell of the source, in the
    order of the source, with one request per full page and one more. *)
Lemma live_cells_loop_pages f address n :
  1 <= n ->
  forall fuel done rest total page (w : world (Srv:=Srv)),
    serves_cells f address (done ++ rest) ->
    (List.length rest / Z.to_nat n < fuel)%nat ->
    Z.of_nat (List.length done) = (page - 1) * n ->
    live_cells_loop (pure_server f) fuel n address total page w =
    (Ok (fold_left add_cell rest total),
     mkWorld (server w)
       (trace w ++
        cells_trace address n page (List.length rest / Z.to_nat n) ++
        [EvHttp GET
           (url_address_live_cells address
              (page + Z.of_nat (List.length rest / Z.to_nat n)) n)])).
Proof.
  intros Hn.
  induction fuel as [|fuel IH]; intros done rest total page w Hs Hf Hd.
  - lia.
  - rewrite live_cells_loop_step.
    rewrite (request_with_retry_pure _ "get" GET) by reflexivity.
    unfold fetch_trace.
    rewrite (serves_cells_answer f done rest GET address page n Hs Hd).
    simpl attempt_outcome. cbv iota. simpl body. cbv iota. cbv zeta.
    simpl server. simpl trace.
    destruct (Z.of_nat (List.length (firstn (Z.to_nat n) rest)) <? n) eqn:Hlt.
    + apply Z.ltb_lt in Hlt. rewrite length_firstn in Hlt.
      assert (Hshort : (List.length rest < Z.to_nat n)%nat) by lia.
      rewrite firstn_all2 by lia.
      rewrite Nat.div_small by exact Hshort. simpl. rewrite Z.add_0_r.
      reflexivity.
    + apply Z.ltb_ge in Hlt. rewrite length_firstn in Hlt.
      assert (Hfull : (Z.to_nat n <= List.length rest)%nat) by lia.
      pose proof (IH (done ++ firstn (Z.to_nat n) rest)
                    (skipn (Z.to_nat n) rest)
                    (fold_left add_cell (firstn (Z.to_nat n) rest) total)
                    (page + 1)
                    (mkWorld (server w)
                       ((trace w ++
                         [EvHttp GET (url_address_live_cells address page n)])
                        ++ [EvSleep 500]))) as IH'.
      rewrite IH'; clear IH'.
      * rewrite <- fold_left_app, firstn_skipn.
        rewrite (div_step (List.length rest) (Z.to_nat n)) by lia.
        rewrite length_skipn. simpl server. simpl trace. simpl cells_trace.
        rewrite <- !app_assoc. simpl app.
        replace (page + 1 +
                 Z.of_nat ((List.length rest - Z.to_nat n) / Z.to_nat n))
          with (page +
                Z.of_nat (S ((List.length rest - Z.to_nat n) / Z.to_nat n)))
          by lia.
        reflexivity.
      * now rewrite <- app_assoc, firstn_skipn.
      * rewrite length_skipn.
        rewrite (div_step (List.length rest) (Z.to_nat n)) in Hf by lia. lia.
      * rewrite length_app, length_firstn. lia.
Qed.

(** The weight of an address whose live cells are [cells], fetched with
    pages of any size [n >= 1]: the floor of the accumulated float over
    [10^8], the same for every page size. *)
Lemma get_address_onchain_weight_sized_pages f cells address n fuel
    (w : world (Srv:=Srv)) :
  serves_cells f address cells ->
  1 <= n ->
  (List.length cells / Z.to_nat n < fuel)%nat ->
  get_address_onchain_weight_sized (pure_server f) n fuel address w =
  (weight_of_float (float_capacity cells),
   mkWorld (server w)
     (trace w ++
      cells_trace address n 1 (List.length cells / Z.to_nat n) ++
      [EvHttp GET
         (url_address_live_cells address
            (1 + Z.of_nat (List.length cells / Z.to_nat n)) n)])).
Proof.
  intros Hs Hn Hf. unfold get_address_onchain_weight_sized, bind.
  rewrite (live_cells_loop_pages f address n Hn fuel [] cells)
    by (auto; simpl; lia).
  unfold lift, weight_of_float, float_capacity. reflexivity.
Qed.

Lemma http_events_app t1 t2 :
  http_events (t1 ++ t2) = http_events t1 ++ http_events t2.
Proof. apply filter_app. Qed.

Lemma http_events_listing_trace option_id n :
  forall first,
    http_events (listing_trace option_id first n) =
    vote_requests option_id first n.
Proof.
  induction n as [|n IH]; intros first; [reflexivity|].
  simpl. unfold http_events in *. simpl. now rewrite IH.
Qed.

Lemma http_events_cells_trace address page_size n :
  forall first,
    http_events (cells_trace address page_size first n) =
    cell_requests address page_size first n.
Proof.
  induction n as [|n IH]; intros first; [reflexivity|].
  simpl. unfold http_events in *. simpl. now rewrite IH.
Qed.

(** C4. Both pagination loops end by their own rule.  The vote listing asks
    for pages 1, 2, ... and ends at the first empty page, however short the
    pages before it: from a source of pages of 5, 5 and 0 votes it returns
    the 10 votes after exactly 3 page requests.  The cell listing ends at
    the first page shorter than the page size: from a source of pages of
    20, 20 and 7 cells at page size 20 it makes exactly 3 page requests and
    returns. *)
Theorem pagination_termination :
  (forall option_id good fuel (w : world (Srv:=Srv)),
     Forall (fun p => p <> []) good ->
     (List.length good < fuel)%nat ->
     exists w',
       get_all_votes (pure_server (vote_pages good)) fuel option_id w =
         (Ok (Some (List.concat good)), w') /\
       http_events (trace w') =
         http_events (trace w) ++
         vote_requests option_id 1 (List.length good + 1)) /\
  (forall option_id p1 p2 fuel (w : world (Srv:=Srv)),
     List.length p1 = 5%nat ->
     List.length p2 = 5%nat ->
     (3 <= fuel)%nat ->
     exists w',
       get_all_votes (pure_server (vote_pages [p1; p2; []])) fuel option_id w =
         (Ok (Some (p1 ++ p2)), w') /\
       List.length (p1 ++ p2) = 10%nat /\
       trace w' =
         trace w ++
         [EvHttp POST (url_poll_list option_id 1); EvSleep 500;
          EvHttp POST (url_poll_list option_id 2); EvSleep 500;
          EvHttp POST (url_poll_list option_id 3)] /\
       http_count (trace w') = (http_count (trace w) + 3)%nat) /\
  (forall cells address n fuel (w : world (Srv:=Srv)),
     1 <= n ->
     (List.length cells / Z.to_nat n < fuel)%nat ->
     exists w',
       get_address_onchain_weight_sized (pure_server (cell_pages cells)) n
         fuel address w = (weight_of_float (float_capacity cells), w') /\
       http_events (trace w') =
         http_events (trace w) ++
         cell_requests address n 1 (List.length cells / Z.to_nat n + 1)) /\
  (forall c1 c2 c3 address fuel (w : world (Srv:=Srv)),
     List.length c1 = 20%nat ->
     List.length c2 = 20%nat ->
     List.length c3 = 7%nat ->
     (3 <= fuel)%nat ->
     exists w',
       get_address_onchain_weight (pure_server (cell_pages (c1 ++ c2 ++ c3)))
         fuel address w =
         (weight_of_float (float_capacity (c1 ++ c2 ++ c3)), w') /\
       trace w' =
         trace w ++
         [EvHttp GET (url_address_live_cells address 1 20); EvSleep 500;
          EvHttp GET (url_address_live_cells address 2 20); EvSleep 500;
          EvHttp GET (url_address_live_cells address 3 20)] /\
       http_count (trace w') = (http_count (trace w) + 3)%nat).
Proof.
  split; [|split; [|split]].
  - intros option_id good fuel w Hgood Hfuel.
    eexists. split.
    + unfold vote_pages.
      pose proof (get_all_votes_source (Srv:=Srv) option_id good []
                    (vote_page []) fuel w Hgood Hfuel) as H.
      rewrite app_nil_r in H. cbv zeta in H. rewrite H.
      * reflexivity.
      * intros r [= <-] _. reflexivity.
    + simpl trace. rewrite !http_events_app, http_events_listing_trace.
      f_equal. rewrite Nat.add_1_r.
      assert (Hsnoc : forall n first,
                vote_requests option_id first (S n) =
                vote_requests option_id first n ++
                [EvHttp POST (url_poll_list option_id (first + Z.of_nat n))]).
      { induction n as [|n IH]; intros first.
        - simpl. now rewrite Z.add_0_r.
        - change (vote_requests option_id first (S (S n)))
            with (EvHttp POST (url_poll_list option_id first)
                    :: vote_requests option_id (first + 1) (S n)).
          rewrite IH.
          change (vote_requests option_id first (S n))
            with (EvHttp POST (url_poll_list option_id first)
                    :: vote_requests option_id (first + 1) n).
          rewrite <- app_comm_cons.
          replace (first + 1 + Z.of_nat n) with (first + Z.of_nat (S n))
            by lia.
          reflexivity. }
      rewrite Hsnoc. f_equal. unfold fetch_trace.
      replace (vote_source good (vote_page []) POST
                 (url_poll_list option_id (Z.of_nat (List.length good) + 1)))
        with (vote_page []).
      * rewrite (Z.add_comm 1). reflexivity.
      * symmetry. pose proof (vote_source_stop good [] (vote_page []) POST
                                option_id) as Hs.
        rewrite app_nil_r in Hs. exact Hs.
  - intros option_id p1 p2 fuel w H1 H2 Hfuel.
    pose proof (get_all_votes_source (Srv:=Srv) option_id [p1; p2] [[]]
                  (vote_page []) fuel w) as H.
    cbv zeta in H. eexists. split; [|split; [|split]].
    + unfold vote_pages. simpl app in H. rewrite H.
      * simpl List.concat. rewrite app_nil_r. reflexivity.
      * repeat constructor; intros ->; discriminate.
      * simpl. lia.
      * intros r [= <-] _. reflexivity.
    + rewrite length_app. lia.
    + reflexivity.
    + simpl trace. rewrite http_count_app. reflexivity.
  - intros cells address n fuel w Hn Hfuel.
    eexists. split.
    + apply get_address_onchain_weight_sized_pages;
        [apply cell_pages_serves|assumption|assumption].
    + simpl trace. rewrite !http_events_app, http_events_cells_trace.
      f_equal. rewrite Nat.add_1_r.
      assert (Hsnoc : forall k first,
                cell_requests address n first (S k) =
                cell_requests address n first k ++
                [EvHttp GET
                   (url_address_live_cells address (first + Z.of_nat k) n)]).
      { induction k as [|k IH]; intros first.
        - simpl. now rewrite Z.add_0_r.
        - change (cell_requests address n first (S (S k)))
            with (EvHttp GET (url_address_live_cells address first n)
                    :: cell_requests address n (first + 1) (S k)).
          rewrite IH.
          change (cell_requests address n first (S k))
            with (EvHttp GET (url_address_live_cells address first n)
                    :: cell_requests address n (first + 1) k).
          rewrite <- app_comm_cons.
          replace (first + 1 + Z.of_nat k) with (first + Z.of_nat (S k))
            by lia.
          reflexivity. }
      rewrite Hsnoc. reflexivity.
  - intros c1 c2 c3 address fuel w H1 H2 H3 Hfuel.
    assert (Hlen : List.length (c1 ++ c2 ++ c3) = 47%nat)
      by (rewrite !length_app; lia).
    unfold get_address_onchain_weight.
    rewrite (get_address_onchain_weight_sized_pages _ (c1 ++ c2 ++ c3));
      [|apply cell_pages_serves|lia|rewrite Hlen; simpl; lia].
    rewrite Hlen. eexists. split; [reflexivity|]. split.
    + reflexivity.
    + simpl trace. rewrite http_count_app. reflexivity.
Qed.

End CellSourceFacts.

Lemma pagination_termination_witness :
  (exists w',
     get_all_votes
       (pure_server (vote_pages
          [repeat (mkVote (Some 1) None None (Some 10)) 5;
           repeat (mkVote (Some 2) None None (Some 20)) 5; []]))
       3 66568 (mkWorld tt []) =
       (Ok (Some (repeat (mkVote (Some 1) None None (Some 10)) 5 ++
                  repeat (mkVote (Some 2) None None (Some 20)) 5)), w') /\
     http_count (trace w') = 3%nat) /\
  (exists w',
     get_address_onchain_weight
       (pure_server (cell_pages
          (repeat (mkCell (Some "nervos_dao_deposit") (Some 100000000)) 20 ++
           repeat (mkCell (Some "nervos_dao_deposit") (Some 100000000)) 20 ++
           repeat (mkCell (Some "nervos_dao_deposit") (Some 100000000)) 7)))
       3 "ckb1qyq" (mkWorld tt []) = (Ok 47, w') /\
     http_count (trace w') = 3%nat).
Proof.
  destruct (pagination_termination (Srv:=unit)) as (_ & Hv & _ & Hc).
  split.
  - destruct (Hv 66568
                (repeat (mkVote (Some 1) None None (Some 10)) 5)
                (repeat (mkVote (Some 2) None None (Some 20)) 5)
                3%nat (mkWorld tt []))
      as [w' (Hrun & _ & _ & Hcount)];
      [reflexivity|reflexivity|lia|].
    exists w'. split; [exact Hrun|exact Hcount].
  - destruct (Hc (repeat (mkCell (Some "nervos_dao_deposit") (Some 100000000)) 20)
                (repeat (mkCell (Some "nervos_dao_deposit") (Some 100000000)) 20)
                (repeat (mkCell (Some "nervos_dao_deposit") (Some 100000000)) 7)
                "ckb1qyq" 3%nat (mkWorld tt []))
      as [w' (Hrun & _ & Hcount)];
      [reflexivity|reflexivity|reflexivity|lia|].
    exists w'. split; [|exact Hcount].
    rewrite Hrun. apply f_equal2; [vm_compute; reflexivity|reflexivity].
Defined.

(** ** Vote listing is all or nothing *)

Section ListingFacts.

Context {Srv : Type}.
Variable serve : Srv -> verb -> url -> net_result * Srv.
Variable script_addr : bool -> list Byte.byte -> Z -> list Byte.byte -> string.

(** Without vote data [process_option] stops before any lookup or export. *)
Lemma process_option_no_data fuel option_id w w1 :
  get_all_votes serve fuel option_id w = (Ok None, w1) ->
  process_option serve script_addr fuel option_id w = (Ok None, w1).
Proof. intros H. unfold process_option, bind. now rewrite H. Qed.

(** C6. Vote listing is all or nothing.  A page request that fails, or an
    answer that is not a successful envelope, ends [get_all_votes] with no
    data whatever was fetched before; a list that is returned is a complete
    listing; with no data [process_option] returns nothing for the option.
    So a source whose page after the pages [good] fails yields no data, not
    the votes of [good]. *)
Theorem vote_listing_all_or_nothing :
  (forall fuel option_id all_votes page w o w1,
     request_with_retry serve "post" (url_poll_list option_id page)
       MAX_RETRIES w = (o, w1) ->
     match o with
     | Ok r => envelope_ok (body r) = false
     | Raise _ => True
     | Diverge => False
     end ->
     get_all_votes_loop serve (S fuel) option_id all_votes page w =
       (Ok None, w1)) /\
  (forall fuel option_id w l w',
     get_all_votes serve fuel option_id w = (Ok (Some l), w') ->
     complete_listing serve option_id w 1 [] l w') /\
  (forall fuel option_id w e w',
     get_all_votes serve fuel option_id w <> (Raise e, w')) /\
  (forall fuel option_id w w1,
     get_all_votes serve fuel option_id w = (Ok None, w1) ->
     process_option serve script_addr fuel option_id w = (Ok None, w1)) /\
  (forall option_id good after fuel (w : world (Srv:=Srv)),
     Forall (fun p => p <> []) good ->
     (List.length good < fuel)%nat ->
     match attempt_outcome after with
     | Ok r => envelope_ok (body r) = false
     | Raise _ => True
     | Diverge => False
     end ->
     exists w',
       get_all_votes (pure_server (vote_source good after)) fuel option_id w =
         (Ok None, w') /\
       process_option (pure_server (vote_source good after)) script_addr
         fuel option_id w = (Ok None, w')).
Proof.
  split; [|split; [|split; [|split]]].
  - intros. eapply get_all_votes_loop_abort; eassumption.
  - intros fuel option_id w l w' H.
    now apply get_all_votes_loop_complete in H.
  - intros fuel option_id w e w'. apply get_all_votes_loop_never_raises.
  - intros. now apply process_option_no_data.
  - intros option_id good after fuel w Hgood Hfuel Hbad.
    pose proof (get_all_votes_source (Srv:=Srv) option_id good [] after fuel w)
      as H.
    cbv zeta in H. rewrite app_nil_r in H. simpl nth in H.
    assert (Hres : listing_result after (List.concat good) = None).
    { unfold listing_result.
      destruct (attempt_outcome after) as [r|e|]; auto. now rewrite Hbad. }
    rewrite Hres in H. eexists. split.
    + apply H; auto. intros r Hr Hok. rewrite Hr in Hbad. congruence.
    + unfold process_option, bind. rewrite H; auto.
      intros r Hr Hok. rewrite Hr in Hbad. congruence.
Qed.

End ListingFacts.

Lemma vote_listing_all_or_nothing_witness :
  exists w',
    get_all_votes
      (pure_server (Srv:=unit)
         (vote_source [[mkVote (Some 1) None None (Some 10)]]
            (NetResponse (mkResponse 500 NotJson))))
      2 66568 (mkWorld tt []) = (Ok None, w') /\
    process_option
      (pure_server (Srv:=unit)
         (vote_source [[mkVote (Some 1) None None (Some 10)]]
            (NetResponse (mkResponse 500 NotJson))))
      (fun _ _ _ _ => "ckb1") 2 66568 (mkWorld tt []) = (Ok None, w').
Proof.
  destruct (vote_listing_all_or_nothing (Srv:=unit)
              (pure_server (always_status 200)) (fun _ _ _ _ => "ckb1"))
    as (_ & _ & _ & _ & H).
  apply H.
  - repeat constructor. discriminate.
  - simpl. lia.
  - exact I.
Defined.

(** ** The identity resolver *)

Section IdentityFacts.

Context {Srv : Type}.
Variable serve : Srv -> verb -> url -> net_result * Srv.
Variable script_addr : bool -> list Byte.byte -> Z -> list Byte.byte -> string.

(** [get_user_dao_addresses] by the outcome of the profile request. *)
Lemma get_user_dao_addresses_step uid w :
  get_user_dao_addresses serve script_addr uid w =
    match request_with_retry serve "get" (url_profile uid) MAX_RETRIES w with
    | (Ok r, w1) =>
        if envelope_ok (body r) then
          let addresses := neuron_addresses_of (body r) in
          let web3_public_key := web3_public_key_of (body r) in
          if truthy_string web3_public_key then
            match metamask_to_ckb_address script_addr web3_public_key true with
            | Ok pwlock_address =>
                if truthy_string pwlock_address
                   && negb (string_in pwlock_address addresses)
                then (Ok (addresses ++ [pwlock_address]), w1)
                else (Ok addresses, w1)
            | Raise e => (Raise e, w1)
            | Diverge => (Diverge, w1)
            end
          else (Ok addresses, w1)
        else (Ok [], w1)
    | (Raise e, w1) => (Ok [], w1)
    | (Diverge, w1) => (Diverge, w1)
    end.
Proof.
  unfold get_user_dao_addresses, try_except. unfold bind at 1.
  destruct (request_with_retry serve "get" (url_profile uid) MAX_RETRIES w)
    as [[r|e|] w1] eqn:Hreq.
  - unfold bind, json.
    destruct (body r) as [st c l|st c native k|st c ps|d|] eqn:Hb; simpl;
      try reflexivity.
    + destruct (st && (c =? 20000)); reflexivity.
    + destruct (st && (c =? 20000)); [|reflexivity].
      destruct (truthy_string k) eqn:Hk; [|reflexivity].
      unfold lift.
      destruct (metamask_to_ckb_address script_addr k true) as [a|e|] eqn:Hm.
      * destruct (truthy_string a && negb (string_in a native)); reflexivity.
      * assert (He : e = ValueError).
        { unfold metamask_to_ckb_address in Hm. rewrite Hk in Hm.
          cbn [negb] in Hm.
          repeat match type of Hm with
                 | context [match ?x with _ => _ end] => destruct x
                 end; congruence. }
        subst e. reflexivity.
      * reflexivity.
    + destruct (st && (c =? 20000)); reflexivity.
  - rewrite (request_with_retry_raises serve "get" GET _ _ _ _ eq_refl Hreq).
    reflexivity.
  - reflexivity.
Qed.

Lemma string_in_In a l : string_in a l = true <-> In a l.
Proof.
  unfold string_in. rewrite existsb_exists. split.
  - intros [x [Hx He]]. apply String.eqb_eq in He. now subst.
  - intros H. exists a. split; [exact H|apply String.eqb_refl].
Qed.

(** One turn of the loop over the votes, by the outcome of its lookups. *)
Lemma enrich_vote_step fuel v w :
  enrich_vote serve script_addr fuel v w =
    if negb (truthy_id (user_id v)) then (Ok (mkEnriched v [] 0), w)
    else
      match get_user_dao_addresses serve script_addr
              (match user_id v with Some u => u | None => 0 end) w with
      | (Ok [], w1) => (Ok (mkEnriched v [] 0), w1)
      | (Ok (a :: l), w1) =>
          match weigh_addresses serve fuel (a :: l) [] 0 w1 with
          | (Ok r, w2) => (Ok (mkEnriched v (fst r) (snd r)), w2)
          | (Raise e, w2) => (Raise e, w2)
          | (Diverge, w2) => (Diverge, w2)
          end
      | (Raise e, w1) => (Raise e, w1)
      | (Diverge, w1) => (Diverge, w1)
      end.
Proof.
  unfold enrich_vote. destruct (negb (truthy_id (user_id v))); [reflexivity|].
  unfold bind.
  destruct (get_user_dao_addresses serve script_addr
              (match user_id v with Some u => u | None => 0 end) w)
    as [[[|a l]|e|] w1]; reflexivity.
Qed.

(** C8, as the code has it.  With a successful profile the result is the
    native list as the platform gave it, followed by the bridge-derived
    address when the profile holds a public key and the derived address is
    neither empty nor in the native list (an exception of the derivation
    is raised as it is); it has no duplicates whenever the native list has
    none.  A failed profile request, or a profile that is
    not a successful envelope, gives the empty list and no error, and an
    empty list gives the voter an empty weight list and the total 0. *)
Theorem get_user_dao_addresses_resolves :
  (forall uid w r w1,
     request_with_retry serve "get" (url_profile uid) MAX_RETRIES w =
       (Ok r, w1) ->
     envelope_ok (body r) = true ->
     let native := neuron_addresses_of (body r) in
     let key := web3_public_key_of (body r) in
     (truthy_string key = false ->
      get_user_dao_addresses serve script_addr uid w = (Ok native, w1)) /\
     (forall a,
        truthy_string key = true ->
        metamask_to_ckb_address script_addr key true = Ok a ->
        get_user_dao_addresses serve script_addr uid w =
          (Ok (if truthy_string a && negb (string_in a native)
               then native ++ [a] else native), w1)) /\
     (forall e,
        truthy_string key = true ->
        metamask_to_ckb_address script_addr key true = Raise e ->
        get_user_dao_addresses serve script_addr uid w = (Raise e, w1)) /\
     (forall l w',
        get_user_dao_addresses serve script_addr uid w = (Ok l, w') ->
        NoDup native -> NoDup l)) /\
  (forall uid w o w1,
     request_with_retry serve "get" (url_profile uid) MAX_RETRIES w =
       (o, w1) ->
     match o with
     | Ok r => envelope_ok (body r) = false
     | Raise _ => True
     | Diverge => False
     end ->
     get_user_dao_addresses serve script_addr uid w = (Ok [], w1)) /\
  (forall fuel v uid w w1,
     user_id v = Some uid ->
     uid <> 0 ->
     get_user_dao_addresses serve script_addr uid w = (Ok [], w1) ->
     enrich_vote serve script_addr fuel v w = (Ok (mkEnriched v [] 0), w1)).
Proof.
  split; [|split].
  - intros uid w r w1 Hreq Hok native key.
    split; [|split; [|split]].
    + intros Hk. rewrite get_user_dao_addresses_step, Hreq, Hok.
      cbv zeta. fold key. now rewrite Hk.
    + intros a Hk Ha. rewrite get_user_dao_addresses_step, Hreq, Hok.
      cbv zeta. fold key native. rewrite Hk, Ha.
      now destruct (truthy_string a && negb (string_in a native)).
    + intros e Hk He. rewrite get_user_dao_addresses_step, Hreq, Hok.
      cbv zeta. fold key. now rewrite Hk, He.
    + intros l w' Hrun Hnd.
      rewrite get_user_dao_addresses_step, Hreq, Hok in Hrun.
      cbv zeta in Hrun. fold key native in Hrun.
      destruct (truthy_string key); [|now injection Hrun as <- _].
      destruct (metamask_to_ckb_address script_addr key true) as [a|e|];
        try discriminate.
      destruct (truthy_string a && negb (string_in a native)) eqn:Hc;
        [|now injection Hrun as <- _].
      injection Hrun as <- _.
      apply andb_true_iff in Hc. destruct Hc as [_ Hn].
      apply negb_true_iff in Hn.
      apply NoDup_app; [exact Hnd|repeat constructor; intros []|].
      intros x Hx [<-|[]].
      apply string_in_In in Hx. congruence.
  - intros uid w o w1 Hreq Hbad.
    rewrite get_user_dao_addresses_step, Hreq.
    destruct o as [r|e|]; [now rewrite Hbad|reflexivity|contradiction].
  - intros fuel v uid w w1 Hu Hne Hrun. rewrite enrich_vote_step, Hu.
    unfold truthy_id.
    replace (uid =? 0) with false by (symmetry; now apply Z.eqb_neq).
    cbn [negb]. now rewrite Hrun.
Qed.

End IdentityFacts.

Lemma get_user_dao_addresses_resolves_witness :
  get_user_dao_addresses (pure_server (Srv:=unit) (always_status 404))
    (fun _ _ _ _ => "ckb1pw") 7 (mkWorld tt []) =
    (Ok [], mkWorld tt [EvHttp GET (url_profile 7)]).
Proof.
  destruct (get_user_dao_addresses_resolves (Srv:=unit)
              (pure_server (always_status 404)) (fun _ _ _ _ => "ckb1pw"))
    as (_ & H & _).
  apply (H 7 (mkWorld tt []) (Raise (HTTPError (Some 404)))).
  - reflexivity.
  - exact I.
Defined.

(** C8 as stated fails: the native list is not deduplicated. *)
Lemma get_user_dao_addresses_keeps_duplicates :
  exists l w',
    get_user_dao_addresses
      (pure_server (Srv:=unit) (profile_source ["ckb1qa"; "ckb1qa"] ""))
      (fun _ _ _ _ => "ckb1pw") 7 (mkWorld tt []) = (Ok l, w') /\
    ~ NoDup l.
Proof.
  eexists; eexists. split; [vm_compute; reflexivity|].
  intros H. inversion H as [|x l Hin _]; subst. apply Hin. now left.
Qed.

(** ** The reconciliation engine *)

Section ReconciliationFacts.

Context {Srv : Type}.
Variable serve : Srv -> verb -> url -> net_result * Srv.
Variable script_addr : bool -> list Byte.byte -> Z -> list Byte.byte -> string.

Lemma sum_weights_app l1 l2 :
  sum_weights (l1 ++ l2) = sum_weights l1 + sum_weights l2.
Proof.
  induction l1 as [|x l1 IH]; simpl; [reflexivity|]. rewrite IH. lia.
Qed.

(** The loop over the addresses appends one entry per address, in order,
    and adds their weights to the total. *)
Lemma weigh_addresses_sum fuel :
  forall addresses wl total w wl' total' w',
    weigh_addresses serve fuel addresses wl total w = (Ok (wl', total'), w') ->
    exists new,
      wl' = wl ++ new /\
      map aw_address new = addresses /\
      total' = total + sum_weights new.
Proof.
  induction addresses as [|a rest IH]; intros wl total w wl' total' w' Hrun.
  - injection Hrun as <- <- _. exists []. rewrite app_nil_r. simpl.
    repeat split; lia.
  - simpl in Hrun. unfold bind in Hrun.
    destruct (get_address_onchain_weight serve fuel a w) as [[x|e|] w1];
      try discriminate.
    apply IH in Hrun. destruct Hrun as [new [Hwl [Hmap Hsum]]].
    exists (mkAW a x :: new). rewrite Hwl, <- app_assoc. simpl.
    repeat split; [now rewrite Hmap|]. rewrite Hsum. lia.
Qed.

(** The total of an enriched vote is the sum of its weight list. *)
Lemma enrich_vote_total fuel v w ev w' :
  enrich_vote serve script_addr fuel v w = (Ok ev, w') ->
  ev_vote ev = v /\ weight_calc ev = sum_weights (weight_list ev).
Proof.
  rewrite enrich_vote_step.
  destruct (negb (truthy_id (user_id v))).
  - intros [= <- _]. now split.
  - destruct (get_user_dao_addresses serve script_addr _ w)
      as [[[|a l]|e|] w1]; try discriminate.
    + intros [= <- _]. now split.
    + destruct (weigh_addresses serve fuel (a :: l) [] 0 w1)
        as [[[wl total]|e|] w2] eqn:Hw; try discriminate.
      intros [= <- _]. simpl.
      apply weigh_addresses_sum in Hw. destruct Hw as [new [-> [_ ->]]].
      now split.
Qed.

(** The rows of one vote share the voter-level fields. *)
Lemma export_vote_rows ev row :
  In row (export_vote ev) ->
  let reported := match weight (ev_vote ev) with Some z => z | None => 0 end in
  nickname row =
    match name (ev_vote ev) with Some n => n | None => "N/A" end /\
  userid row = user_id (ev_vote ev) /\
  total_weight_metaforo row = reported /\
  total_weight_onchain_floored row = math_floor_int (weight_calc ev) /\
  need_review row = negb (reported =? math_floor_int (weight_calc ev)).
Proof.
  unfold export_vote. destruct (weight_list ev) as [|item items].
  - intros [<-|[]]. simpl. repeat split.
  - intros Hin. apply in_map_iff in Hin. destruct Hin as [x [<- _]].
    simpl. repeat split.
Qed.

(** One row per address of the weight list, in order, or one row with an
    empty address and the weight 0 when the list is empty. *)
Lemma export_vote_addresses ev :
  map (fun row => (row_address row, address_weight_floored row))
      (export_vote ev) =
  match weight_list ev with
  | [] => [("", 0)]
  | _ :: _ => map (fun item => (aw_address item, aw_Weight item))
                  (weight_list ev)
  end.
Proof.
  unfold export_vote. destruct (weight_list ev) as [|item items];
    [reflexivity|].
  rewrite map_map. reflexivity.
Qed.

(** C1. The review flag is computed once per voter: every row of a vote
    carries the same flag and the same total; the flag is true exactly when
    the reported weight differs from the floor of the voter's total, and
    that total is the sum of the weights of all the voter's addresses. *)
Theorem need_review_per_voter :
  (forall fuel v w ev w',
     enrich_vote serve script_addr fuel v w = (Ok ev, w') ->
     ev_vote ev = v /\ weight_calc ev = sum_weights (weight_list ev)) /\
  (forall ev row,
     In row (export_vote ev) ->
     let reported :=
       match weight (ev_vote ev) with Some z => z | None => 0 end in
     total_weight_metaforo row = reported /\
     total_weight_onchain_floored row = math_floor_int (weight_calc ev) /\
     (need_review row = true <->
      reported <> math_floor_int (weight_calc ev))) /\
  (forall ev r1 r2,
     In r1 (export_vote ev) ->
     In r2 (export_vote ev) ->
     need_review r1 = need_review r2 /\
     total_weight_onchain_floored r1 = total_weight_onchain_floored r2).
Proof.
  split; [|split].
  - apply enrich_vote_total.
  - intros ev row Hin reported.
    destruct (export_vote_rows ev row Hin) as (_ & _ & Hm & Ht & Hr).
    fold reported in Hm, Hr. repeat split; auto.
    + rewrite Hr. intros H. apply negb_true_iff in H. now apply Z.eqb_neq.
    + rewrite Hr. intros H. apply negb_true_iff. now apply Z.eqb_neq.
  - intros ev r1 r2 H1 H2.
    destruct (export_vote_rows ev r1 H1) as (_ & _ & _ & Ht1 & Hr1).
    destruct (export_vote_rows ev r2 H2) as (_ & _ & _ & Ht2 & Hr2).
    split; congruence.
Qed.

End ReconciliationFacts.

Lemma need_review_per_voter_witness :
  let ev := mkEnriched (mkVote (Some 7) (Some "V") None (Some 1000))
              [mkAW "ckb1qa" 600; mkAW "ckb1qb" 399] 999 in
  let row := mkRow "V" (Some 7) 1000 999 "ckb1qb" 399 true
               "https://explorer.app5.org/address/ckb1qb" in
  In row (export_vote ev) /\
  total_weight_onchain_floored row = 999 /\
  (need_review row = true <-> 1000 <> 999).
Proof.
  intros ev row.
  assert (Hin : In row (export_vote ev)) by (right; left; reflexivity).
  split; [exact Hin|].
  destruct (need_review_per_voter (Srv:=unit)
              (pure_server (always_status 404)) (fun _ _ _ _ => "ckb1pw"))
    as (_ & H & _).
  destruct (H ev row Hin) as (_ & Ht & Hr). split; [exact Ht|exact Hr].
Defined.

(** ** The weight of an address *)

Section WeightFacts.

Context {Srv : Type}.

Lemma add_cell_not_deposit total c :
  is_deposit c = false -> add_cell total c = total.
Proof.
  unfold is_deposit, add_cell. destruct (cell_type c) as [t|]; [|reflexivity].
  now intros ->.
Qed.

(** Cells of another type add nothing to the float the loop accumulates. *)
Lemma float_capacity_deposits cells :
  float_capacity cells = float_capacity (filter is_deposit cells).
Proof.
  unfold float_capacity. generalize (S754_zero false).
  induction cells as [|c cells IH]; intros total; [reflexivity|].
  simpl. destruct (is_deposit c) eqn:Hd.
  - simpl. apply IH.
  - rewrite add_cell_not_deposit by exact Hd. apply IH.
Qed.

Lemma deposit_sum_deposits cells :
  deposit_sum cells = deposit_sum (filter is_deposit cells).
Proof.
  induction cells as [|c cells IH]; [reflexivity|].
  simpl. destruct (is_deposit c) eqn:Hd; simpl; unfold deposit_sum in *;
    simpl; rewrite IH; [reflexivity|].
  unfold is_deposit in Hd. unfold deposit_capacity.
  destruct (cell_type c) as [t|]; [|reflexivity]. now rewrite Hd.
Qed.

Lemma deposit_sum_Permutation cells cells' :
  Permutation cells cells' -> deposit_sum cells = deposit_sum cells'.
Proof.
  induction 1 as [|c l l' _ IH|c d l|l l' l'' _ IH1 _ IH2];
    unfold deposit_sum in *; simpl; lia.
Qed.

(** X23.  Where the weight is exact.  The weight of an address is the
    floor of the sum of the capacities of its deposit cells over [10^8]
    whenever that sum is below [2^53], the range in which the floats of the
    loop are exact; cells of another type add nothing, the order of the
    cells does not matter in that range, and the page size never changes
    the result. *)
Theorem onchain_weight_of_deposits :
  (forall cells,
     float_capacity cells = float_capacity (filter is_deposit cells) /\
     deposit_sum cells = deposit_sum (filter is_deposit cells)) /\
  (forall f cells address n fuel (w : world (Srv:=Srv)),
     serves_cells f address cells ->
     1 <= n ->
     (List.length cells / Z.to_nat n < fuel)%nat ->
     fst (get_address_onchain_weight_sized (pure_server f) n fuel address w) =
     weight_of_float (float_capacity cells)) /\
  (forall f cells address n fuel (w : world (Srv:=Srv)),
     serves_cells f address cells ->
     1 <= n ->
     (List.length cells / Z.to_nat n < fuel)%nat ->
     Forall (fun c => 0 <= deposit_capacity c) cells ->
     deposit_sum cells < 2 ^ 53 ->
     fst (get_address_onchain_weight_sized (pure_server f) n fuel address w) =
     Ok (deposit_sum cells / 10 ^ 8)) /\
  (forall cells cells',
     Permutation cells cells' -> deposit_sum cells = deposit_sum cells').
Proof.
  split; [|split; [|split]].
  - intros cells. split;
      [apply float_capacity_deposits|apply deposit_sum_deposits].
  - intros f cells address n fuel w Hs Hn Hf.
    now rewrite (get_address_onchain_weight_sized_pages f cells).
  - intros f cells address n fuel w Hs Hn Hf Hall Hsum.
    rewrite (get_address_onchain_weight_sized_pages f cells) by assumption.
    simpl fst. rewrite float_capacity_exact by assumption.
    apply weight_of_float_exact. split; [|assumption].
    now apply deposit_sum_nonneg.
  - apply deposit_sum_Permutation.
Qed.

End WeightFacts.

Lemma onchain_weight_of_deposits_witness :
  fst (get_address_onchain_weight_sized
         (pure_server (Srv:=unit)
            (cell_pages
               [mkCell (Some "nervos_dao_deposit") (Some 60000000000);
                mkCell (Some "normal") (Some 7000000000);
                mkCell (Some "nervos_dao_deposit") (Some 39900000001)]))
         2 2 "ckb1qa" (mkWorld tt [])) = Ok 999.
Proof.
  destruct (onchain_weight_of_deposits (Srv:=unit)) as (_ & _ & H & _).
  apply (H _
           [mkCell (Some "nervos_dao_deposit") (Some 60000000000);
            mkCell (Some "normal") (Some 7000000000);
            mkCell (Some "nervos_dao_deposit") (Some 39900000001)]).
  - apply cell_pages_serves.
  - lia.
  - simpl. lia.
  - repeat constructor; vm_compute; discriminate.
  - vm_compute. reflexivity.
Defined.

(** C2.  The weight is not the floor of the sum: the loop adds the
    capacities as floats, and one deposit of 9007199299999999 shannons is
    rounded to 9007199300000000, so that the function whose last line is
    commented [floor the result] returns 90071993 where the floor of the
    sum over [10^8] is 90071992. *)
Lemma onchain_weight_rounds_large_capacity :
  let cells := [mkCell (Some "nervos_dao_deposit") (Some 9007199299999999)] in
  fst (get_address_onchain_weight (pure_server (Srv:=unit) (cell_pages cells))
         1 "ckb1qa" (mkWorld tt [])) = Ok 90071993 /\
  deposit_sum cells / 10 ^ 8 = 90071992 /\
  fst (get_address_onchain_weight (pure_server (Srv:=unit) (cell_pages cells))
         1 "ckb1qa" (mkWorld tt [])) <> Ok (deposit_sum cells / 10 ^ 8).
Proof. split; [|split]; vm_compute; [reflexivity|reflexivity|discriminate]. Qed.

(** ** Where the floor is taken *)

Section FloorFacts.

Context {Srv : Type}.
Variable serve : Srv -> verb -> url -> net_result * Srv.
Variable script_addr : bool -> list Byte.byte -> Z -> list Byte.byte -> string.

(** The addresses of a ledger are weighed one by one, each weight floored
    by [get_address_onchain_weight] before it is added to the total. *)
Lemma weigh_addresses_ledger f cells fuel :
  forall addresses wl total (w : world (Srv:=Srv)),
    (forall a, In a addresses ->
       serves_cells f a (cells a) /\
       Forall (fun c => 0 <= deposit_capacity c) (cells a) /\
       deposit_sum (cells a) < 2 ^ 53 /\
       (List.length (cells a) / 20 < fuel)%nat) ->
    exists w',
      weigh_addresses (pure_server f) fuel addresses wl total w =
      (Ok (wl ++ floored_weights cells addresses,
           total + sum_weights (floored_weights cells addresses)), w').
Proof.
  induction addresses as [|a rest IH]; intros wl total w Hall.
  - exists w. simpl. unfold ret. rewrite app_nil_r, Z.add_0_r. reflexivity.
  - destruct (Hall a (or_introl eq_refl)) as (Hs & Hnn & Hlt & Hf).
    simpl weigh_addresses. unfold bind, get_address_onchain_weight.
    rewrite (get_address_onchain_weight_sized_pages f (cells a))
      by (auto; lia).
    rewrite float_capacity_exact by assumption.
    rewrite weight_of_float_exact
      by (split; [now apply deposit_sum_nonneg|assumption]).
    match goal with
    | |- context [weigh_addresses _ _ _ ?wl' ?t' ?w'] =>
        destruct (IH wl' t' w') as [w'' Hrun]
    end.
    { intros b Hb. apply Hall. now right. }
    exists w''. rewrite Hrun. simpl floored_weights. simpl sum_weights.
    rewrite <- app_assoc, <- Z.add_assoc. reflexivity.
Qed.

(** C3, as the code has it.  The weight of every address is floored on its
    own, when [get_address_onchain_weight] returns; the total of the voter
    is the sum of these floored integers, and the floor taken at comparison
    and export time returns it unchanged. *)
Theorem voter_total_sums_floored_weights :
  (forall fuel v w ev w',
     enrich_vote serve script_addr fuel v w = (Ok ev, w') ->
     weight_calc ev = sum_weights (weight_list ev) /\
     math_floor_int (weight_calc ev) = weight_calc ev) /\
  (forall f cells addresses uid v fuel (w : world (Srv:=Srv)),
     user_id v = Some uid ->
     uid <> 0 ->
     addresses <> [] ->
     f GET (url_profile uid) =
       NetResponse (mkResponse 200 (ProfileBody true 20000 addresses "")) ->
     (forall a, In a addresses ->
        serves_cells f a (cells a) /\
        Forall (fun c => 0 <= deposit_capacity c) (cells a) /\
        deposit_sum (cells a) < 2 ^ 53 /\
        (List.length (cells a) / 20 < fuel)%nat) ->
     fst (enrich_vote (pure_server f) script_addr fuel v w) =
     Ok (mkEnriched v (floored_weights cells addresses)
           (sum_weights (floored_weights cells addresses)))).
Proof.
  split.
  - intros fuel v w ev w' H.
    apply (enrich_vote_total serve script_addr) in H. now destruct H.
  - intros f cells addresses uid v fuel w Hu Hnz Hne Hp Hall.
    rewrite enrich_vote_step, Hu. unfold truthy_id.
    replace (uid =? 0) with false by (symmetry; now apply Z.eqb_neq).
    cbn [negb]. rewrite get_user_dao_addresses_step.
    rewrite (request_with_retry_pure f "get" GET) by reflexivity.
    rewrite Hp. simpl attempt_outcome. cbv iota. simpl body.
    simpl envelope_ok. cbv iota. cbv zeta. simpl web3_public_key_of.
    simpl truthy_string. cbv iota. simpl neuron_addresses_of.
    destruct addresses as [|a rest]; [congruence|].
    match goal with
    | |- context [weigh_addresses _ _ _ ?wl' ?t' ?w'] =>
        destruct (weigh_addresses_ledger f cells fuel (a :: rest) wl' t' w'
                    Hall) as [w'' Hrun]
    end.
    rewrite Hrun. reflexivity.
Qed.

End FloorFacts.

Lemma voter_total_sums_floored_weights_witness :
  fst (enrich_vote
         (pure_server (Srv:=unit)
            (ledger_source ["ckb1qa"; "ckb1qb"]
               (fun a =>
                  if (a =? "ckb1qa")%string
                  then [mkCell (Some "nervos_dao_deposit") (Some 60000000000)]
                  else [mkCell (Some "nervos_dao_deposit") (Some 39900000000)])))
         (fun _ _ _ _ => "ckb1pw") 1
         (mkVote (Some 7) (Some "V") None (Some 1000)) (mkWorld tt [])) =
  Ok (mkEnriched (mkVote (Some 7) (Some "V") None (Some 1000))
        [mkAW "ckb1qa" 600; mkAW "ckb1qb" 399] 999).
Proof.
  destruct (voter_total_sums_floored_weights (Srv:=unit)
              (pure_server (always_status 404)) (fun _ _ _ _ => "ckb1pw"))
    as (_ & H).
  apply (H _ (fun a =>
                if (a =? "ckb1qa")%string
                then [mkCell (Some "nervos_dao_deposit") (Some 60000000000)]
                else [mkCell (Some "nervos_dao_deposit") (Some 39900000000)])
           ["ckb1qa"; "ckb1qb"] 7).
  - reflexivity.
  - discriminate.
  - discriminate.
  - reflexivity.
  - intros a [<-|[<-|[]]]; (split; [intros v p n; reflexivity|]);
      (split; [repeat constructor; vm_compute; discriminate|]);
      (split; [vm_compute; reflexivity|simpl; lia]).
Defined.

(** C3 as stated fails: two addresses with half a CKB each give the total
    0, not the floor 1 of the sum of the unfloored weights, and a reported
    weight of 1 is flagged. *)
Lemma voter_total_is_not_floor_of_exact_sum :
  let cells := fun _ : string =>
                 [mkCell (Some "nervos_dao_deposit") (Some 50000000)] in
  let v := mkVote (Some 7) (Some "V") None (Some 1) in
  fst (enrich_vote
         (pure_server (Srv:=unit) (ledger_source ["ckb1qa"; "ckb1qb"] cells))
         (fun _ _ _ _ => "ckb1pw") 1 v (mkWorld tt [])) =
    Ok (mkEnriched v [mkAW "ckb1qa" 0; mkAW "ckb1qb" 0] 0) /\
  (deposit_sum (cells "ckb1qa") + deposit_sum (cells "ckb1qb")) / 10 ^ 8 = 1 /\
  map need_review
    (export_vote (mkEnriched v [mkAW "ckb1qa" 0; mkAW "ckb1qb" 0] 0)) =
    [true; true].
Proof. repeat split; vm_compute; reflexivity. Qed.

(** ** The weight lookup is best effort *)

Section BestEffortFacts.

Context {Srv : Type}.
Variable serve : Srv -> verb -> url -> net_result * Srv.

Lemma attempt_outcome_served x r :
  attempt_outcome x = Ok r -> x = NetResponse r.
Proof.
  destruct x as [n|resp]; simpl; [discriminate|].
  destruct ((400 <=? status_code resp) && (status_code resp <? 600));
    [discriminate|]. now intros [= ->].
Qed.

(** A response the executor returns is one the server gave. *)
Lemma retry_loop_served method v u mr :
  verb_of_method method = Some v ->
  forall attempts last w r w1,
    retry_loop serve method u mr attempts last w = (Ok r, w1) ->
    exists s s', serve s v u = (NetResponse r, s').
Proof.
  intros Hv. induction attempts as [|a rest IH]; intros last w r w1 Hrun.
  - simpl in Hrun. destruct last; discriminate.
  - rewrite (retry_loop_step serve _ _ _ _ _ _ _ _ Hv) in Hrun. simpl in Hrun.
    destruct (attempt_outcome (fst (serve (server w) v u))) as [r1|e1|] eqn:Ho.
    + injection Hrun as <- _. apply attempt_outcome_served in Ho.
      exists (server w), (snd (serve (server w) v u)).
      rewrite <- Ho. now destruct (serve (server w) v u).
    + destruct ((a <? mr) && is_retryable_error e1); [|discriminate].
      now apply IH in Hrun.
    + discriminate.
Qed.

Lemma live_cells_loop_below n address :
  capacities_u64 serve ->
  forall fuel total page w total' w',
    float_below 67 total ->
    live_cells_loop serve fuel n address total page w = (Ok total', w') ->
    float_below 67 total'.
Proof.
  intros Hcap. induction fuel as [|fuel IH]; intros total page w t' w' Ht Hrun.
  - discriminate.
  - rewrite live_cells_loop_step in Hrun.
    destruct (request_with_retry serve "get"
                (url_address_live_cells address page n) MAX_RETRIES w)
      as [[r|e|] w1] eqn:Hreq.
    + assert (Hcells : Forall (fun c => 0 <= deposit_capacity c < 2 ^ 64)
                         (cells_in (body r))).
      { unfold request_with_retry in Hreq.
        destruct (retry_loop_served "get" GET _ MAX_RETRIES eq_refl _ _ _ _ _
                    Hreq) as [s [s' Hs]].
        exact (Hcap _ _ _ _ _ Hs). }
      assert (Hsum : float_below 67
                       (fold_left add_cell (cells_in (body r)) total))
        by (now apply fold_add_cell_below).
      destruct (body r); cbv zeta in Hrun; try discriminate;
        try (injection Hrun as <- _; exact Ht).
      simpl cells_in in Hsum.
      match type of Hrun with
      | context [if ?c then _ else _] => destruct c
      end;
        [injection Hrun as <- _; exact Hsum|eapply IH; eassumption].
    + injection Hrun as <- _. exact Ht.
    + discriminate.
Qed.

(** When the explorer answers with lists of cells, the loop raises
    nothing. *)
Lemma live_cells_loop_never_raises n address :
  cell_bodies serve ->
  forall fuel total page w e w',
    live_cells_loop serve fuel n address total page w <> (Raise e, w').
Proof.
  intros Hbodies.
  induction fuel as [|fuel IH]; intros total page w e w' Hrun.
  - discriminate.
  - rewrite live_cells_loop_step in Hrun.
    destruct (request_with_retry serve "get"
                (url_address_live_cells address page n) MAX_RETRIES w)
      as [[r|e1|] w1] eqn:Hreq; try discriminate.
    unfold request_with_retry in Hreq.
    destruct (retry_loop_served "get" GET _ MAX_RETRIES eq_refl _ _ _ _ _
                Hreq) as [s [s' Hs]].
    destruct (Hbodies _ _ _ _ _ _ _ Hs) as [Hb|[l Hb]]; rewrite Hb in Hrun;
      [discriminate|].
    cbv zeta in Hrun.
    match type of Hrun with
    | context [if ?c then _ else _] => destruct c
    end; [discriminate|]. now apply IH in Hrun.
Qed.

(** What the weight lookup can raise: the [AttributeError] of a body that
    is not a list of cells, and what [math.floor] raises on a float that
    is not finite. *)
Lemma get_address_onchain_weight_escapes n fuel address w e w' :
  get_address_onchain_weight_sized serve n fuel address w = (Raise e, w') ->
  e = AttributeError \/ e = OverflowError \/ e = ValueError.
Proof.
  unfold get_address_onchain_weight_sized, bind.
  destruct (live_cells_loop serve fuel n address (S754_zero false) 1 w)
    as [[total|e1|] w1] eqn:Hl.
  - unfold lift.
    destruct (float_div total (float_of_Z (10 ^ 8))); simpl;
      intros [= <- _]; auto.
  - intros [= <- _]. left. now apply live_cells_loop_raises in Hl.
  - discriminate.
Qed.

(** With lists of cells whose capacities are 64-bit integers the weight
    lookup raises nothing. *)
Lemma get_address_onchain_weight_never_raises n fuel address w e w' :
  cell_bodies serve ->
  capacities_u64 serve ->
  get_address_onchain_weight_sized serve n fuel address w <> (Raise e, w').
Proof.
  intros Hbodies Hcap. unfold get_address_onchain_weight_sized, bind.
  destruct (live_cells_loop serve fuel n address (S754_zero false) 1 w)
    as [[total|e1|] w1] eqn:Hl.
  - apply (live_cells_loop_below n address Hcap) in Hl; [|now left].
    destruct (weight_of_float_returns total Hl) as [z Hz].
    unfold weight_of_float in Hz. unfold lift. rewrite Hz. discriminate.
  - now apply (live_cells_loop_never_raises n address Hbodies) in Hl.
  - discriminate.
Qed.

End BestEffortFacts.

(** *** Cells from a source that fails after some pages *)

Section CellPageFacts.

Context {Srv : Type}.

Lemma cell_page_source_nth (done rest : list (list cell)) p after v address n :
  cell_page_source (done ++ p :: rest) after v
    (url_address_live_cells address (Z.of_nat (List.length done) + 1) n) =
  cells_page p.
Proof.
  unfold cell_page_source.
  replace (Z.to_nat (Z.of_nat (List.length done) + 1 - 1))
    with (List.length done) by lia.
  rewrite map_app, app_nth2; rewrite length_map; [|lia].
  now rewrite Nat.sub_diag.
Qed.

Lemma cell_page_source_after (good : list (list cell)) after v address n :
  cell_page_source good after v
    (url_address_live_cells address (Z.of_nat (List.length good) + 1) n) =
  after.
Proof.
  unfold cell_page_source.
  replace (Z.to_nat (Z.of_nat (List.length good) + 1 - 1))
    with (List.length good) by lia.
  apply nth_overflow. rewrite length_map. lia.
Qed.

(** Full pages are added to the total one after the other. *)
Lemma live_cells_loop_progress address n after :
  forall rest done total extra (w : world (Srv:=Srv)),
    Forall (fun p => n <= Z.of_nat (List.length p)) rest ->
    live_cells_loop (pure_server (cell_page_source (done ++ rest) after))
      (List.length rest + extra) n address total
      (Z.of_nat (List.length done) + 1) w =
    live_cells_loop (pure_server (cell_page_source (done ++ rest) after))
      extra n address (fold_left add_cell (List.concat rest) total)
      (Z.of_nat (List.length (done ++ rest)) + 1)
      (mkWorld (server w)
         (trace w ++
          cells_trace address n (Z.of_nat (List.length done) + 1)
            (List.length rest))).
Proof.
  induction rest as [|p rest IH]; intros done total extra w Hfull.
  - simpl. rewrite !app_nil_r. now destruct w.
  - inversion Hfull as [|? ? Hp Hrest]; subst.
    change (List.length (p :: rest) + extra)%nat
      with (S (List.length rest + extra)).
    rewrite live_cells_loop_step.
    rewrite (request_with_retry_pure _ "get" GET) by reflexivity.
    unfold fetch_trace.
    rewrite (cell_page_source_nth done rest p after GET address n).
    simpl attempt_outcome. cbv iota. cbv beta. simpl body. cbv iota. cbv zeta.
    replace (Z.of_nat (List.length p) <? n) with false
      by (symmetry; apply Z.ltb_ge; exact Hp).
    simpl server. simpl trace.
    pose proof (IH (done ++ [p]) (fold_left add_cell p total) extra
                  (mkWorld (server w)
                     ((trace w ++
                       [EvHttp GET
                          (url_address_live_cells address
                             (Z.of_nat (List.length done) + 1) n)]) ++
                      [EvSleep 500])) Hrest) as IH'.
    rewrite <- !app_assoc in IH'. simpl app in IH'.
    replace (Z.of_nat (List.length (done ++ [p])) + 1)
      with (Z.of_nat (List.length done) + 1 + 1) in IH'
      by (rewrite length_app; simpl; lia).
    simpl server in IH'. simpl trace in IH'.
    replace (List.length ((done ++ [p]) ++ rest))
      with (List.length (done ++ p :: rest)) in IH'
      by (now rewrite <- app_assoc).
    rewrite <- !app_assoc. simpl app.
    rewrite <- !app_assoc in IH'. simpl app in IH'.
    simpl List.concat. rewrite fold_left_app.
    exact IH'.
Qed.

(** When the page after the full pages [good] fails, the weight is the one
    of the cells of [good]. *)
Lemma get_address_onchain_weight_truncates good after n fuel address
    (w : world (Srv:=Srv)) e :
  Forall (fun p => n <= Z.of_nat (List.length p)) good ->
  (List.length good < fuel)%nat ->
  attempt_outcome after = Raise e ->
  fst (get_address_onchain_weight_sized
         (pure_server (cell_page_source good after)) n fuel address w) =
  weight_of_float (float_capacity (List.concat good)).
Proof.
  intros Hfull Hfuel Hfail.
  unfold get_address_onchain_weight_sized, bind.
  replace fuel with (List.length good + S (fuel - List.length good - 1))%nat
    by lia.
  pose proof (live_cells_loop_progress address n after good []
                (S754_zero false) (S (fuel - List.length good - 1)) w Hfull)
    as Hp.
  change ([] ++ good) with good in Hp.
  change (Z.of_nat (List.length (@nil (list cell))) + 1) with 1 in Hp.
  rewrite Hp. clear Hp.
  rewrite live_cells_loop_step.
  rewrite (request_with_retry_pure _ "get" GET) by reflexivity.
  rewrite cell_page_source_after, Hfail. reflexivity.
Qed.

End CellPageFacts.

Section BestEffortTheorem.

Context {Srv : Type}.
Variable serve : Srv -> verb -> url -> net_result * Srv.

(** C7, as the code has it.  The weight lookup of an address lets no
    failure of a request and no answer that is not JSON out: a 404 on the
    first page is not retried, ends the lookup after this one attempt and
    gives the weight 0; a page request that fails, or an answer that is not
    JSON, at any page, ends the loop with the capacity of the pages before
    it, so that after the full pages [good] the weight is the floor taken
    on the cells of [good].  What it can raise is not caught anywhere in
    it: the [AttributeError] of a body that is not a list of cells, and
    the error of [math.floor] on a sum that is not finite.  With lists of
    cells and 64-bit capacities it raises nothing. *)
Theorem onchain_weight_best_effort :
  (forall fuel address w e w',
     get_address_onchain_weight serve fuel address w = (Raise e, w') ->
     (e = AttributeError \/ e = OverflowError \/ e = ValueError) /\
     is_RequestException e = false /\
     is_JSONDecodeError_or_KeyError e = false) /\
  (forall fuel address w e w',
     cell_bodies serve ->
     capacities_u64 serve ->
     get_address_onchain_weight serve fuel address w <> (Raise e, w')) /\
  (forall fuel address w,
     let u := url_address_live_cells address 1 20 in
     attempt_outcome (fst (serve (server w) GET u)) =
       Raise (HTTPError (Some 404)) ->
     is_retryable_error (HTTPError (Some 404)) = false /\
     get_address_onchain_weight serve (S fuel) address w =
       (Ok 0, mkWorld (snd (serve (server w) GET u))
                      (trace w ++ [EvHttp GET u]))) /\
  (forall fuel n address total page w e w1,
     request_with_retry serve "get" (url_address_live_cells address page n)
       MAX_RETRIES w = (Raise e, w1) ->
     live_cells_loop serve (S fuel) n address total page w = (Ok total, w1)) /\
  (forall fuel n address total page w r w1,
     request_with_retry serve "get" (url_address_live_cells address page n)
       MAX_RETRIES w = (Ok r, w1) ->
     body r = NotJson ->
     live_cells_loop serve (S fuel) n address total page w = (Ok total, w1)) /\
  (forall fuel n address total page w r w1,
     request_with_retry serve "get" (url_address_live_cells address page n)
       MAX_RETRIES w = (Ok r, w1) ->
     cells_of (body r) = Raise AttributeError ->
     body r <> NotJson ->
     live_cells_loop serve (S fuel) n address total page w =
       (Raise AttributeError, w1)) /\
  (forall good after fuel address (w : world (Srv:=Srv)) e,
     Forall (fun p => 20 <= Z.of_nat (List.length p)) good ->
     (List.length good < fuel)%nat ->
     attempt_outcome after = Raise e ->
     fst (get_address_onchain_weight
            (pure_server (cell_page_source good after)) fuel address w) =
     weight_of_float (float_capacity (List.concat good))).
Proof.
  split; [|split; [|split; [|split; [|split; [|split]]]]].
  - intros fuel address w e w' Hrun.
    apply get_address_onchain_weight_escapes in Hrun.
    split; [exact Hrun|].
    destruct Hrun as [-> | [-> | ->]]; now split.
  - intros fuel address w e w' Hbodies Hcap.
    now apply get_address_onchain_weight_never_raises.
  - intros fuel address w u H404. split; [reflexivity|].
    unfold get_address_onchain_weight, get_address_onchain_weight_sized, bind.
    rewrite live_cells_loop_step. fold u.
    rewrite (request_with_retry_propagates serve "get" GET u MAX_RETRIES w
               (HTTPError (Some 404)) eq_refl ltac:(unfold MAX_RETRIES; lia)
               H404 eq_refl).
    reflexivity.
  - intros fuel n address total page w e w1 Hreq.
    now rewrite live_cells_loop_step, Hreq.
  - intros fuel n address total page w r w1 Hreq Hbody.
    now rewrite live_cells_loop_step, Hreq, Hbody.
  - intros fuel n address total page w r w1 Hreq Hcells Hbody.
    rewrite live_cells_loop_step, Hreq.
    destruct (body r); try reflexivity; [discriminate|congruence].
  - intros good after fuel address w e Hfull Hfuel Hfail.
    now apply (get_address_onchain_weight_truncates good after 20 fuel
                 address w e).
Qed.

End BestEffortTheorem.

Lemma Forall_firstn_skipn {A} (P : A -> Prop) n m (l : list A) :
  Forall P l -> Forall P (firstn n (skipn m l)).
Proof.
  intros H.
  assert (Hs : Forall P (skipn m l)).
  { rewrite <- (firstn_skipn m l) in H. now apply Forall_app in H. }
  rewrite <- (firstn_skipn n (skipn m l)) in Hs. now apply Forall_app in Hs.
Qed.

(** A source of cells with 64-bit capacities gives 64-bit capacities. *)
Lemma cell_pages_u64 {Srv : Type} cells :
  Forall (fun c => 0 <= deposit_capacity c < 2 ^ 64) cells ->
  capacities_u64 (pure_server (Srv:=Srv) (cell_pages cells)).
Proof.
  intros Hall s v u r s'. unfold pure_server, cell_pages.
  destruct u; intros [= <- _]; simpl; try constructor.
  now apply Forall_firstn_skipn.
Qed.

Lemma cell_pages_bodies {Srv : Type} cells :
  cell_bodies (pure_server (Srv:=Srv) (cell_pages cells)).
Proof.
  intros s v address page page_size r s'. unfold pure_server, cell_pages.
  intros [= <- _]. right. eexists. reflexivity.
Qed.

Lemma onchain_weight_best_effort_witness :
  get_address_onchain_weight (pure_server (Srv:=unit) (always_status 404))
    1 "ckb1qa" (mkWorld tt []) =
  (Ok 0, mkWorld tt [EvHttp GET (url_address_live_cells "ckb1qa" 1 20)]) /\
  fst (get_address_onchain_weight
         (pure_server (Srv:=unit)
            (cell_page_source
               [repeat (mkCell (Some "nervos_dao_deposit") (Some 500000000)) 20]
               (NetResponse (mkResponse 500 NotJson))))
         2 "ckb1qa" (mkWorld tt [])) = Ok 100 /\
  fst (get_address_onchain_weight
         (pure_server (Srv:=unit)
            (cell_pages
               (repeat (mkCell (Some "nervos_dao_deposit")
                          (Some 18446744073709551615)) 3)))
         1 "ckb1qa" (mkWorld tt [])) <> Raise OverflowError.
Proof.
  split; [|split].
  - destruct (onchain_weight_best_effort (Srv:=unit)
                (pure_server (always_status 404))) as (_ & _ & H & _).
    destruct (H 0%nat "ckb1qa" (mkWorld tt [])) as [_ Hrun]; [reflexivity|].
    exact Hrun.
  - destruct (onchain_weight_best_effort (Srv:=unit)
                (pure_server (always_status 404)))
      as (_ & _ & _ & _ & _ & _ & H).
    rewrite (H [repeat (mkCell (Some "nervos_dao_deposit") (Some 500000000)) 20]
               (NetResponse (mkResponse 500 NotJson)) 2%nat "ckb1qa"
               (mkWorld tt []) (HTTPError (Some 500))).
    + vm_compute. reflexivity.
    + repeat constructor. simpl. lia.
    + simpl. lia.
    + reflexivity.
  - set (src := pure_server (Srv:=unit)
                  (cell_pages
                     (repeat (mkCell (Some "nervos_dao_deposit")
                                (Some 18446744073709551615)) 3))).
    destruct (onchain_weight_best_effort (Srv:=unit) src) as (_ & H & _).
    intros Hraise.
    apply (H 1%nat "ckb1qa" (mkWorld tt []) OverflowError
             (snd (get_address_onchain_weight src 1 "ckb1qa" (mkWorld tt [])))).
    + apply cell_pages_bodies.
    + apply cell_pages_u64. repeat constructor; vm_compute; discriminate.
    + rewrite <- Hraise. apply surjective_pairing.
Defined.

(** C7 as stated fails: the lookup can raise.  One deposit cell whose
    capacity is [10^400] makes the sum infinite and [math.floor] raises
    [OverflowError]; a body that is not a list of cells makes [cell.get]
    raise [AttributeError].  Neither is caught by the lookup. *)
Lemma onchain_weight_lookup_raises :
  get_address_onchain_weight
    (pure_server (Srv:=unit)
       (cell_pages [mkCell (Some "nervos_dao_deposit") (Some (10 ^ 400))]))
    1 "ckb1qa" (mkWorld tt []) =
  (Raise OverflowError,
   mkWorld tt [EvHttp GET (url_address_live_cells "ckb1qa" 1 20)]) /\
  get_address_onchain_weight
    (pure_server (Srv:=unit)
       (fun _ _ =>
          NetResponse (mkResponse 200 (ProfileBody true 20000 [] ""))))
    1 "ckb1qa" (mkWorld tt []) =
  (Raise AttributeError,
   mkWorld tt [EvHttp GET (url_address_live_cells "ckb1qa" 1 20)]).
Proof. split; vm_compute; reflexivity. Qed.

(** ** What step 4 prints *)

(** Formatting a weight returns, or raises [OverflowError]. *)
Lemma format_2f_outcome z :
  format_2f z = Ok tt \/ format_2f z = Raise OverflowError.
Proof. unfold format_2f. destruct (float_of_Z z); auto. Qed.

Lemma print_weight_list_outcome wl :
  print_weight_list wl = Ok tt \/ print_weight_list wl = Raise OverflowError.
Proof.
  induction wl as [|item rest IH]; [now left|]. cbn [print_weight_list].
  destruct (format_2f_outcome (aw_Weight item)) as [-> | ->]; auto.
Qed.

Lemma print_vote_outcome ev :
  print_vote ev = Ok tt \/ print_vote ev = Raise OverflowError.
Proof.
  unfold print_vote.
  destruct (format_2f_outcome
              (match weight (ev_vote ev) with Some z => z | None => 0 end))
    as [-> | ->]; [|auto].
  destruct (format_2f_outcome (weight_calc ev)) as [-> | ->]; [|auto].
  apply print_weight_list_outcome.
Qed.

Lemma print_results_outcome voters_data :
  print_results voters_data = Ok tt \/
  print_results voters_data = Raise OverflowError.
Proof.
  induction voters_data as [|ev rest IH]; [now left|]. cbn [print_results].
  destruct (print_vote_outcome ev) as [-> | ->]; auto.
Qed.

(** ** The loop over the poll options *)

Section OptionFacts.

Context {Srv : Type}.
Variable serve : Srv -> verb -> url -> net_result * Srv.
Variable script_addr : bool -> list Byte.byte -> Z -> list Byte.byte -> string.

Lemma get_address_onchain_weight_raises n fuel address w e w' :
  get_address_onchain_weight_sized serve n fuel address w = (Raise e, w') ->
  is_RequestException e = false.
Proof.
  unfold get_address_onchain_weight_sized, bind.
  destruct (live_cells_loop serve fuel n address (S754_zero false) 1 w)
    as [[total|e1|] w1] eqn:Hl.
  - unfold lift.
    destruct (float_div total (float_of_Z (10 ^ 8))); simpl;
      intros [= <- _]; reflexivity.
  - intros [= <- _]. now rewrite (live_cells_loop_raises _ _ _ _ _ _ _ _ _ Hl).
  - discriminate.
Qed.

Lemma weigh_addresses_raises fuel :
  forall addresses wl total w e w',
    weigh_addresses serve fuel addresses wl total w = (Raise e, w') ->
    is_RequestException e = false.
Proof.
  induction addresses as [|a rest IH]; intros wl total w e w' Hrun.
  - discriminate.
  - simpl in Hrun. unfold bind in Hrun.
    destruct (get_address_onchain_weight serve fuel a w) as [[x|e1|] w1] eqn:Ha.
    + now apply IH in Hrun.
    + injection Hrun as <- _.
      now apply get_address_onchain_weight_raises in Ha.
    + discriminate.
Qed.

Lemma get_user_dao_addresses_raises uid w e w' :
  get_user_dao_addresses serve script_addr uid w = (Raise e, w') ->
  is_RequestException e = false.
Proof.
  rewrite get_user_dao_addresses_step.
  destruct (request_with_retry serve "get" (url_profile uid) MAX_RETRIES w)
    as [[r|e1|] w1]; try discriminate.
  destruct (envelope_ok (body r)); [|discriminate]. cbv zeta.
  destruct (truthy_string (web3_public_key_of (body r))) eqn:Hk;
    [|discriminate].
  destruct (metamask_to_ckb_address script_addr
              (web3_public_key_of (body r)) true) as [a|e2|] eqn:Hm.
  - destruct (truthy_string a && negb (string_in a _)); discriminate.
  - intros [= <- _].
    unfold metamask_to_ckb_address in Hm. rewrite Hk in Hm. cbn [negb] in Hm.
    repeat match type of Hm with
           | context [match ?x with _ => _ end] => destruct x
           end; try discriminate; injection Hm as <-; reflexivity.
  - discriminate.
Qed.

Lemma enrich_vote_raises fuel v w e w' :
  enrich_vote serve script_addr fuel v w = (Raise e, w') ->
  is_RequestException e = false.
Proof.
  rewrite enrich_vote_step.
  destruct (negb (truthy_id (user_id v))); [discriminate|].
  destruct (get_user_dao_addresses serve script_addr _ w)
    as [[[|a l]|e1|] w1] eqn:Hu; try discriminate.
  - destruct (weigh_addresses serve fuel (a :: l) [] 0 w1)
      as [[r|e2|] w2] eqn:Hw; try discriminate.
    intros [= <- _]. now apply weigh_addresses_raises in Hw.
  - intros [= <- _]. now apply get_user_dao_addresses_raises in Hu.
Qed.

Lemma enrich_votes_raises fuel :
  forall votes w e w',
    enrich_votes serve script_addr fuel votes w = (Raise e, w') ->
    is_RequestException e = false.
Proof.
  induction votes as [|v rest IH]; intros w e w' Hrun.
  - discriminate.
  - simpl in Hrun. unfold bind in Hrun.
    destruct (enrich_vote serve script_addr fuel v w) as [[ev|e1|] w1] eqn:Hv.
    + destruct (enrich_votes serve script_addr fuel rest w1)
        as [[evs|e2|] w2] eqn:Hr; try discriminate.
      injection Hrun as <- _. now apply IH in Hr.
    + injection Hrun as <- _. now apply enrich_vote_raises in Hv.
    + discriminate.
Qed.

Lemma enrich_votes_votes fuel :
  forall votes w enriched w',
    enrich_votes serve script_addr fuel votes w = (Ok enriched, w') ->
    map ev_vote enriched = votes.
Proof.
  induction votes as [|v rest IH]; intros w enriched w' Hrun.
  - now injection Hrun as <- _.
  - simpl in Hrun. unfold bind in Hrun.
    destruct (enrich_vote serve script_addr fuel v w) as [[ev|e1|] w1] eqn:Hv;
      try discriminate.
    destruct (enrich_votes serve script_addr fuel rest w1)
      as [[evs|e2|] w2] eqn:Hr; try discriminate.
    injection Hrun as <- _. simpl.
    apply enrich_vote_total in Hv. destruct Hv as [-> _].
    f_equal. now apply IH in Hr.
Qed.

(** No failure of a request leaves [process_option] as an exception. *)
Lemma process_option_raises fuel option_id w e w' :
  process_option serve script_addr fuel option_id w = (Raise e, w') ->
  is_RequestException e = false.
Proof.
  unfold process_option, bind.
  destruct (get_all_votes serve fuel option_id w) as [[[[|v vs]|]|e1|] w1] eqn:Hg;
    try discriminate.
  - destruct (enrich_votes serve script_addr fuel (v :: vs) w1)
      as [[evs|e2|] w2] eqn:Hr; try discriminate.
    + unfold lift.
      destruct (print_results_outcome evs) as [-> | ->]; [discriminate|].
      now intros [= <- _].
    + intros [= <- _]. now apply enrich_votes_raises in Hr.
  - now apply get_all_votes_loop_never_raises in Hg.
Qed.

(** What [process_option] returns as rows is the export of the votes of the
    listing, enriched in order. *)
Lemma process_option_rows fuel option_id w rows w' :
  process_option serve script_addr fuel option_id w = (Ok (Some rows), w') ->
  exists votes enriched w1,
    get_all_votes serve fuel option_id w = (Ok (Some votes), w1) /\
    votes <> [] /\
    enrich_votes serve script_addr fuel votes w1 = (Ok enriched, w') /\
    map ev_vote enriched = votes /\
    rows = flat_map export_vote enriched.
Proof.
  unfold process_option, bind.
  destruct (get_all_votes serve fuel option_id w)
    as [[[[|v vs]|]|e1|] w1] eqn:Hg; try discriminate.
  destruct (enrich_votes serve script_addr fuel (v :: vs) w1)
    as [[evs|e2|] w2] eqn:Hr; try discriminate.
  unfold lift.
  destruct (print_results_outcome evs) as [-> | ->]; [|discriminate].
  intros [= <- <-]. exists (v :: vs), evs, w1.
  repeat split; try discriminate; auto.
  now apply enrich_votes_votes in Hr.
Qed.

Lemma enrich_votes_app fuel before : forall rest w,
  enrich_votes serve script_addr fuel (before ++ rest) w =
  match enrich_votes serve script_addr fuel before w with
  | (Ok evs, w1) =>
      match enrich_votes serve script_addr fuel rest w1 with
      | (Ok evs', w2) => (Ok (evs ++ evs'), w2)
      | (Raise e, w2) => (Raise e, w2)
      | (Diverge, w2) => (Diverge, w2)
      end
  | (Raise e, w1) => (Raise e, w1)
  | (Diverge, w1) => (Diverge, w1)
  end.
Proof.
  induction before as [|v before IH]; intros rest w.
  - change (enrich_votes serve script_addr fuel [] w) with (Ok (@nil enriched_vote), w).
    cbv iota. simpl app.
    now destruct (enrich_votes serve script_addr fuel rest w) as [[?|?|] ?].
  - simpl. unfold bind.
    destruct (enrich_vote serve script_addr fuel v w) as [[ev|e|] w1];
      try reflexivity.
    rewrite IH.
    destruct (enrich_votes serve script_addr fuel before w1)
      as [[evs|e|] w2]; try reflexivity.
    unfold ret.
    now destruct (enrich_votes serve script_addr fuel rest w2) as [[?|?|] ?].
Qed.

(** The weight list of a voter follows the address list
    [get_user_dao_addresses] returned for the voter, entry by entry. *)
Lemma enrich_vote_addresses fuel v w ev w' :
  enrich_vote serve script_addr fuel v w = (Ok ev, w') ->
  exists addresses,
    (if truthy_id (user_id v)
     then exists w1,
            get_user_dao_addresses serve script_addr
              (match user_id v with Some u => u | None => 0 end) w =
            (Ok addresses, w1)
     else addresses = [] /\ w' = w) /\
    map aw_address (weight_list ev) = addresses /\
    map row_address (export_vote ev) =
      match addresses with [] => [""%string] | _ :: _ => addresses end.
Proof.
  rewrite enrich_vote_step.
  destruct (truthy_id (user_id v)); cbn [negb].
  - destruct (get_user_dao_addresses serve script_addr _ w)
      as [[[|a l]|e|] w1]; try discriminate.
    + intros [= <- _]. exists []. repeat split. now exists w1.
    + destruct (weigh_addresses serve fuel (a :: l) [] 0 w1)
        as [[[wl total]|e|] w2] eqn:Hw; try discriminate.
      intros [= <- _]. exists (a :: l).
      apply weigh_addresses_sum in Hw. destruct Hw as [new [-> [Hmap _]]].
      cbn [app fst snd weight_list].
      split; [now exists w1|]. split; [exact Hmap|].
      unfold export_vote. cbn [weight_list].
      destruct new as [|item items]; [discriminate|].
      rewrite map_map. cbn [row_address]. exact Hmap.
  - intros [= <- <-]. exists []. repeat split.
Qed.

(** C9, as the code has it.  Every option of the poll is processed in
    turn: whatever [process_option] returns for an option, a batch of rows
    or nothing, the loop goes on with the options after it, and a batch is
    filed under its option; a listing that fails leaves its option without
    a batch and the loop goes on.  A batch holds, for every vote of the
    listing in order, one row per entry of the address list resolved for
    the voter, in the order of that list, or one row with an empty address
    when the list is empty or the voter has no id.  No failed request
    leaves [process_option] as an exception; an exception that does leave
    it is caught nowhere in the loop, which ends there with it: the options
    after it are not attempted. *)
Theorem options_processed_independently :
  (forall fuel o rest all_files w files w1,
     process_option serve script_addr fuel (id o) w = (Ok files, w1) ->
     main_options serve script_addr fuel (o :: rest) all_files w =
     main_options serve script_addr fuel rest
       (match files with
        | Some rows => all_files ++ [(id o, rows)]
        | None => all_files
        end) w1) /\
  (forall fuel o rest all_files w w1,
     get_all_votes serve fuel (id o) w = (Ok None, w1) ->
     main_options serve script_addr fuel (o :: rest) all_files w =
     main_options serve script_addr fuel rest all_files w1) /\
  (forall fuel option_id w rows w',
     process_option serve script_addr fuel option_id w = (Ok (Some rows), w') ->
     exists votes enriched w1,
       get_all_votes serve fuel option_id w = (Ok (Some votes), w1) /\
       votes <> [] /\
       enrich_votes serve script_addr fuel votes w1 = (Ok enriched, w') /\
       map ev_vote enriched = votes /\
       rows = flat_map export_vote enriched) /\
  (forall ev,
     map (fun row => (row_address row, address_weight_floored row))
         (export_vote ev) =
     match weight_list ev with
     | [] => [("", 0)]
     | _ :: _ => map (fun item => (aw_address item, aw_Weight item))
                     (weight_list ev)
     end) /\
  (forall fuel v w ev w',
     enrich_vote serve script_addr fuel v w = (Ok ev, w') ->
     exists addresses,
       (if truthy_id (user_id v)
        then exists w1,
               get_user_dao_addresses serve script_addr
                 (match user_id v with Some u => u | None => 0 end) w =
               (Ok addresses, w1)
        else addresses = [] /\ w' = w) /\
       map aw_address (weight_list ev) = addresses /\
       map row_address (export_vote ev) =
         match addresses with [] => [""%string] | _ :: _ => addresses end) /\
  (forall fuel option_id w e w',
     process_option serve script_addr fuel option_id w = (Raise e, w') ->
     is_RequestException e = false) /\
  (forall fuel o rest all_files w e w1,
     process_option serve script_addr fuel (id o) w = (Raise e, w1) ->
     main_options serve script_addr fuel (o :: rest) all_files w =
       (Raise e, w1)).
Proof.
  split; [|split; [|split; [|split; [|split; [|split]]]]].
  - intros fuel o rest acc w files w1 H. simpl. unfold bind. now rewrite H.
  - intros fuel o rest acc w w1 H. simpl. unfold bind.
    now rewrite (process_option_no_data serve script_addr _ _ _ _ H).
  - apply process_option_rows.
  - apply export_vote_addresses.
  - apply enrich_vote_addresses.
  - apply process_option_raises.
  - intros fuel o rest acc w e w1 H. simpl. unfold bind. now rewrite H.
Qed.

End OptionFacts.

Lemma options_processed_independently_witness :
  main_options (pure_server (Srv:=unit) two_options_source)
    (fun _ _ _ _ => "ckb1pw") 3
    [mkOption 1 "Yes"; mkOption 2 "No"] [] (mkWorld tt []) =
  main_options (pure_server (Srv:=unit) two_options_source)
    (fun _ _ _ _ => "ckb1pw") 3
    [mkOption 2 "No"] []
    (mkWorld tt
       [EvHttp POST (url_poll_list 1 1); EvSleep 3000;
        EvHttp POST (url_poll_list 1 1); EvSleep 3000;
        EvHttp POST (url_poll_list 1 1); EvSleep 3000;
        EvHttp POST (url_poll_list 1 1)]) /\
  main_options
    (pure_server (Srv:=unit)
       (keyed_poll_source [mkVote (Some 7) (Some "V") None (Some 1)] "0xzz"))
    (fun _ _ _ _ => "ckb1pw") 2
    [mkOption 1 "Yes"; mkOption 2 "No"] [] (mkWorld tt []) =
  (Raise ValueError,
   mkWorld tt
     [EvHttp POST (url_poll_list 1 1); EvSleep 500;
      EvHttp POST (url_poll_list 1 2); EvHttp GET (url_profile 7)]).
Proof.
  split.
  - destruct (options_processed_independently (Srv:=unit)
                (pure_server two_options_source) (fun _ _ _ _ => "ckb1pw"))
      as (_ & H & _).
    apply (H 3%nat (mkOption 1 "Yes")). reflexivity.
  - destruct (options_processed_independently (Srv:=unit)
                (pure_server
                   (keyed_poll_source
                      [mkVote (Some 7) (Some "V") None (Some 1)] "0xzz"))
                (fun _ _ _ _ => "ckb1pw"))
      as (_ & _ & _ & _ & _ & _ & H).
    apply (H 2%nat (mkOption 1 "Yes")). vm_compute. reflexivity.
Defined.

(** C9 as stated fails on both counts.  A public key that is not
    hexadecimal in the profile of a voter of option 1 raises [ValueError]
    out of the loop: no request is made for option 2.  And a voter whose
    profile lists the same address twice is exported with two rows for that
    one address. *)
Lemma options_not_independent :
  main_options
    (pure_server (Srv:=unit)
       (keyed_poll_source [mkVote (Some 7) (Some "V") None (Some 1)] "0xzz"))
    (fun _ _ _ _ => "ckb1pw") 2
    [mkOption 1 "Yes"; mkOption 2 "No"] [] (mkWorld tt []) =
  (Raise ValueError,
   mkWorld tt
     [EvHttp POST (url_poll_list 1 1); EvSleep 500;
      EvHttp POST (url_poll_list 1 2); EvHttp GET (url_profile 7)]) /\
  fst (process_option
         (pure_server (Srv:=unit)
            (poll_source [mkVote (Some 7) (Some "V") None (Some 6)]
               ["ckb1qa"; "ckb1qa"]
               (fun _ => [mkCell (Some "nervos_dao_deposit")
                            (Some 300000000)])))
         (fun _ _ _ _ => "ckb1pw") 2 1 (mkWorld tt [])) =
  Ok (Some
        [mkRow "V" (Some 7) 6 6 "ckb1qa" 3 false
           "https://explorer.app5.org/address/ckb1qa";
         mkRow "V" (Some 7) 6 6 "ckb1qa" 3 false
           "https://explorer.app5.org/address/ckb1qa"]).
Proof. split; vm_compute; reflexivity. Qed.

(** The run of the two options: the second one is exported although the
    first one failed. *)
Example two_options_run :
  fst (main_options (pure_server (Srv:=unit) two_options_source)
         (fun _ _ _ _ => "ckb1pw") 3
         [mkOption 1 "Yes"; mkOption 2 "No"] [] (mkWorld tt [])) =
  Ok [(2, [mkRow "anon" None 50 0 "" 0 true ""])].
Proof. vm_compute. reflexivity. Qed.

(** ** A vote without a voter id *)

Section SentinelFacts.

Context {Srv : Type}.
Variable serve : Srv -> verb -> url -> net_result * Srv.
Variable script_addr : bool -> list Byte.byte -> Z -> list Byte.byte -> string.




End SentinelFacts.


(** ** The scenarios of the specification *)

(** A voter reports 1000 and holds 600 and 399 CKB of deposits on two
    addresses: two rows, both flagged, both with the total 999. *)
Example two_addresses_scenario :
  fst (process_option
         (pure_server (Srv:=unit)
            (poll_source [mkVote (Some 7) (Some "V") None (Some 1000)]
               ["ckb1qa"; "ckb1qb"]
               (fun a =>
                  if (a =? "ckb1qa")%string
                  then [mkCell (Some "nervos_dao_deposit") (Some 60000000000)]
                  else [mkCell (Some "nervos_dao_deposit") (Some 39900000000)])))
         (fun _ _ _ _ => "ckb1pw") 2 66568 (mkWorld tt [])) =
  Ok (Some
        [mkRow "V" (Some 7) 1000 999 "ckb1qa" 600 true
           "https://explorer.app5.org/address/ckb1qa";
         mkRow "V" (Some 7) 1000 999 "ckb1qb" 399 true
           "https://explorer.app5.org/address/ckb1qb"]).
Proof. vm_compute. reflexivity. Qed.

(** A voter without any bound address who reports 50: one row, no address,
    weight 0, flagged. *)
Example no_address_scenario :
  fst (process_option
         (pure_server (Srv:=unit)
            (poll_source [mkVote (Some 9) (Some "W") None (Some 50)] []
               (fun _ => [])))
         (fun _ _ _ _ => "ckb1pw") 2 66568 (mkWorld tt [])) =
  Ok (Some [mkRow "W" (Some 9) 50 0 "" 0 true ""]).
Proof. vm_compute. reflexivity. Qed.

(** * The rest of the script: further properties *)

(** ** Every run of the request executor *)

Section ExecutorFacts.

Context {Srv : Type}.
Variable serve : Srv -> verb -> url -> net_result * Srv.

Lemma attempt_outcome_not_Diverge x : attempt_outcome x <> Diverge.
Proof.
  destruct x as [n|resp]; simpl; [discriminate|].
  destruct ((400 <=? status_code resp) && (status_code resp <? 600));
    discriminate.
Qed.

(** Among the attempts left there is a first one that ends the loop. *)
Lemma final_attempt_exists mr v u :
  forall n i s,
    (0 < n)%nat ->
    Z.of_nat (i + n) = mr + 1 ->
    exists k,
      (k < n)%nat /\
      (forall j, (j < k)%nat ->
         retryable_failure serve (server_after serve j s v u) v u) /\
      final_outcome mr i k
        (attempt_outcome (fst (serve (server_after serve k s v u) v u))).
Proof.
  induction n as [|n IH]; intros i s Hn Hi; [lia|].
  destruct (attempt_outcome (fst (serve s v u))) as [r|e|] eqn:Ho.
  - exists 0%nat. split; [lia|]. split; [intros j Hj; lia|].
    simpl. now rewrite Ho.
  - destruct (is_retryable_error e) eqn:Hr.
    + destruct (Nat.eq_dec n 0) as [->|Hn0].
      * exists 0%nat. split; [lia|]. split; [intros j Hj; lia|].
        simpl. rewrite Ho. simpl. right. lia.
      * destruct (IH (S i) (snd (serve s v u)) ltac:(lia) ltac:(lia))
          as [k [Hk [Hpre Hfin]]].
        exists (S k). split; [lia|]. split.
        -- intros [|j] Hj.
           ++ exists e. simpl. now split.
           ++ simpl. apply Hpre. lia.
        -- simpl. unfold final_outcome in *.
           destruct (attempt_outcome
                       (fst (serve (server_after serve k (snd (serve s v u)) v u) v u)));
             auto.
           destruct Hfin as [H|H]; [now left|right; lia].
    + exists 0%nat. split; [lia|]. split; [intros j Hj; lia|].
      simpl. rewrite Ho. simpl. now left.
  - now apply attempt_outcome_not_Diverge in Ho.
Qed.

(** Every run of the executor: [k] attempts fail retryably, each followed
    by the delay, and attempt [k + 1] gives the result. *)
Lemma request_with_retry_shape method v u mr w :
  verb_of_method method = Some v ->
  0 <= mr ->
  exists k,
    (Z.of_nat k <= mr) /\
    (forall j, (j < k)%nat ->
       retryable_failure serve (server_after serve j (server w) v u) v u) /\
    final_outcome mr 0 k
      (attempt_outcome
         (fst (serve (server_after serve k (server w) v u) v u))) /\
    request_with_retry serve method u mr w =
      (attempt_outcome
         (fst (serve (server_after serve k (server w) v u) v u)),
       mkWorld (server_after serve (S k) (server w) v u)
               (trace w ++ retry_trace k v u ++ [EvHttp v u])).
Proof.
  intros Hv Hmr.
  destruct (final_attempt_exists mr v u (Z.to_nat (mr + 1)) 0%nat (server w)
              ltac:(lia) ltac:(lia)) as [k [Hk [Hpre Hfin]]].
  exists k. split; [lia|]. split; [exact Hpre|]. split; [exact Hfin|].
  unfold request_with_retry, range. destruct w as [s tr].
  apply (retry_loop_run serve method v u mr Hv k (Z.to_nat (mr + 1)) 0%nat
           None s tr); auto. lia.
Qed.

(** X1.  Whatever the server does, a call of the executor with a supported
    method is a number [k] of attempts that fail retryably, at most
    [max_retries] of them and each followed by the delay, and one more
    attempt whose outcome is the outcome of the call: between 1 and
    [max_retries + 1] attempts of the same request, and never a loop
    without end. *)
Theorem request_with_retry_runs method v u mr w :
  verb_of_method method = Some v ->
  0 <= mr ->
  exists k,
    Z.of_nat k <= mr /\
    (forall j, (j < k)%nat ->
       retryable_failure serve (server_after serve j (server w) v u) v u) /\
    final_outcome mr 0 k
      (attempt_outcome
         (fst (serve (server_after serve k (server w) v u) v u))) /\
    request_with_retry serve method u mr w =
      (attempt_outcome
         (fst (serve (server_after serve k (server w) v u) v u)),
       mkWorld (server_after serve (S k) (server w) v u)
               (trace w ++ retry_trace k v u ++ [EvHttp v u])) /\
    http_count (trace (snd (request_with_retry serve method u mr w))) =
      (http_count (trace w) + k + 1)%nat.
Proof.
  intros Hv Hmr.
  destruct (request_with_retry_shape method v u mr w Hv Hmr)
    as [k [Hk [Hpre [Hfin Hrun]]]].
  exists k. repeat split; auto.
  rewrite Hrun. simpl trace.
  rewrite !http_count_app, http_count_retry_trace.
  change (http_count [EvHttp v u]) with 1%nat. lia.
Qed.

(** X2.  What the executor hands back: a response whose status is not an
    error status (400 to 599), or an exception of the [requests] family
    that is not a JSON decoding error; it never runs for ever. *)
Theorem request_with_retry_outcome method v u mr w o w' :
  verb_of_method method = Some v ->
  0 <= mr ->
  request_with_retry serve method u mr w = (o, w') ->
  match o with
  | Ok r => ~ (400 <= status_code r < 600)
  | Raise e => is_RequestException e = true /\ e <> JSONDecodeError
  | Diverge => False
  end.
Proof.
  intros Hv Hmr Hrun.
  destruct (request_with_retry_shape method v u mr w Hv Hmr)
    as [k [_ [_ [_ Hk]]]].
  rewrite Hk in Hrun. injection Hrun as <- _.
  destruct (fst (serve (server_after serve k (server w) v u) v u))
    as [n|resp]; simpl.
  - destruct n; split; (reflexivity || discriminate).
  - destruct ((400 <=? status_code resp) && (status_code resp <? 600))
      eqn:Hs.
    + split; [reflexivity|discriminate].
    + intros [H1 H2]. apply andb_false_iff in Hs.
      destruct Hs as [Hs|Hs]; [apply Z.leb_gt in Hs|apply Z.ltb_ge in Hs];
        lia.
Qed.

(** X3.  With a negative retry budget the loop has no turn: nothing is
    sent, and the [raise last_exception] after the loop raises [None],
    which is a [TypeError], whatever the method. *)
Theorem request_with_retry_negative_budget method u mr w :
  mr < 0 ->
  request_with_retry serve method u mr w = (Raise TypeError, w).
Proof.
  intros Hmr. unfold request_with_retry, range.
  replace (Z.to_nat (mr + 1)) with 0%nat by lia. reflexivity.
Qed.

(** X4.  Failures that pass are absorbed: when the first [k] attempts fail
    retryably, [k] being within the budget, and the next one is answered,
    the call returns that answer after [k] delays. *)
Theorem request_with_retry_recovers method v u mr w k r :
  verb_of_method method = Some v ->
  Z.of_nat k <= mr ->
  (forall j, (j < k)%nat ->
     retryable_failure serve (server_after serve j (server w) v u) v u) ->
  attempt_outcome (fst (serve (server_after serve k (server w) v u) v u)) =
    Ok r ->
  request_with_retry serve method u mr w =
    (Ok r,
     mkWorld (server_after serve (S k) (server w) v u)
             (trace w ++ retry_trace k v u ++ [EvHttp v u])).
Proof.
  intros Hv Hk Hpre Hok. unfold request_with_retry, range.
  destruct w as [s tr]. simpl server in *. simpl trace. rewrite <- Hok.
  apply (retry_loop_run serve method v u mr Hv k (Z.to_nat (mr + 1)) 0%nat
           None s tr); auto; try lia.
  rewrite Hok. exact I.
Qed.

End ExecutorFacts.

Lemma request_with_retry_runs_witness :
  exists k,
    Z.of_nat k <= MAX_RETRIES /\
    http_count
      (trace (snd (request_with_retry (flaky_server 2 503 (mkResponse 200 NotJson))
                     "GET" (url_profile 7) MAX_RETRIES (mkWorld 0%nat [])))) =
      (0 + k + 1)%nat.
Proof.
  destruct (request_with_retry_runs (flaky_server 2 503 (mkResponse 200 NotJson))
              "GET" GET (url_profile 7) MAX_RETRIES (mkWorld 0%nat [])
              eq_refl ltac:(unfold MAX_RETRIES; lia))
    as [k [Hk [_ [_ [_ Hc]]]]].
  exists k. split; [exact Hk|exact Hc].
Defined.

Lemma request_with_retry_outcome_witness :
  match fst (request_with_retry (flaky_server 2 503 (mkResponse 200 NotJson))
               "post" (url_poll_list 1 1) MAX_RETRIES (mkWorld 0%nat [])) with
  | Ok r => ~ (400 <= status_code r < 600)
  | Raise e => is_RequestException e = true /\ e <> JSONDecodeError
  | Diverge => False
  end.
Proof.
  apply (request_with_retry_outcome (flaky_server 2 503 (mkResponse 200 NotJson))
           "post" POST (url_poll_list 1 1) MAX_RETRIES (mkWorld 0%nat []) _
           (snd (request_with_retry
                   (flaky_server 2 503 (mkResponse 200 NotJson)) "post"
                   (url_poll_list 1 1) MAX_RETRIES (mkWorld 0%nat [])))).
  - reflexivity.
  - unfold MAX_RETRIES. lia.
  - apply surjective_pairing.
Defined.

Lemma request_with_retry_negative_budget_witness :
  request_with_retry (pure_server (Srv:=unit) (always_status 200)) "get"
    (url_profile 7) (-1) (mkWorld tt []) = (Raise TypeError, mkWorld tt []).
Proof.
  apply (request_with_retry_negative_budget
           (pure_server (Srv:=unit) (always_status 200)) "get" (url_profile 7)
           (-1) (mkWorld tt [])).
  lia.
Defined.

Lemma request_with_retry_recovers_witness :
  request_with_retry (flaky_server 2 503 (mkResponse 200 NotJson)) "get"
    (url_profile 7) MAX_RETRIES (mkWorld 0%nat []) =
  (Ok (mkResponse 200 NotJson),
   mkWorld 3%nat
     ([] ++ [EvHttp GET (url_profile 7); EvSleep 3000;
             EvHttp GET (url_profile 7); EvSleep 3000] ++
            [EvHttp GET (url_profile 7)])).
Proof.
  apply (request_with_retry_recovers (flaky_server 2 503 (mkResponse 200 NotJson))
           "get" GET (url_profile 7) MAX_RETRIES (mkWorld 0%nat []) 2%nat
           (mkResponse 200 NotJson)).
  - reflexivity.
  - unfold MAX_RETRIES. lia.
  - intros j Hj. exists (HTTPError (Some 503)).
    destruct j as [|[|j]]; [split; reflexivity|split; reflexivity|lia].
  - reflexivity.
Defined.

(** ** The address bridge on hexadecimal digits *)

Section BridgeFacts.

Variable script_addr : bool -> list Byte.byte -> Z -> list Byte.byte -> string.

Lemma hex_digit_lower c : hex_digit (ascii_lower c) = hex_digit c.
Proof.
  destruct c as [[] [] [] [] [] [] [] []]; reflexivity.
Qed.

Lemma is_ascii_space_lower c :
  is_ascii_space (ascii_lower c) = is_ascii_space c.
Proof.
  destruct c as [[] [] [] [] [] [] [] []]; reflexivity.
Qed.

Lemma hex_digit_not_space c n :
  hex_digit c = Some n -> is_ascii_space c = false.
Proof.
  destruct c as [[] [] [] [] [] [] [] []]; try discriminate; reflexivity.
Qed.

(** [fromhex] reads upper-case and lower-case digits alike. *)
Lemma fromhex_lower s : fromhex (lower s) = fromhex s.
Proof.
  enough (H : fromhex (lower s) = fromhex s /\
              forall c, fromhex (lower (String c s)) = fromhex (String c s))
    by apply H.
  induction s as [|d s [IH1 IH2]].
  - split; [reflexivity|]. intros c. simpl.
    rewrite is_ascii_space_lower, hex_digit_lower. reflexivity.
  - split; [apply IH2|]. intros c.
    change (lower (String c (String d s)))
      with (String (ascii_lower c) (String (ascii_lower d) (lower s))).
    change (fromhex (String (ascii_lower c) (String (ascii_lower d) (lower s))))
      with (if is_ascii_space (ascii_lower c)
            then fromhex (lower (String d s))
            else
              match hex_digit (ascii_lower c) with
              | Some hi =>
                  match hex_digit (ascii_lower d), fromhex (lower s) with
                  | Some lo, Some bytes =>
                      Some (byte_of_ascii (ascii_of_nat (16 * hi + lo)) :: bytes)
                  | _, _ => None
                  end
              | None => None
              end).
    rewrite is_ascii_space_lower, !hex_digit_lower, IH1, (IH2 d).
    reflexivity.
Qed.

(** On hexadecimal digits [fromhex] takes them two by two. *)
Lemma fromhex_all_hex s :
  all_hex s = true ->
  if Nat.even (String.length s)
  then exists bytes,
         fromhex s = Some bytes /\
         (2 * List.length bytes = String.length s)%nat
  else fromhex s = None.
Proof.
  set (P := fun s =>
              all_hex s = true ->
              if Nat.even (String.length s)
              then exists bytes,
                     fromhex s = Some bytes /\
                     (2 * List.length bytes = String.length s)%nat
              else fromhex s = None).
  enough (H : P s /\ forall c, P (String c s)) by apply H.
  induction s as [|d s [IH1 IH2]].
  - split.
    + intros _. exists []. now split.
    + intros c Hs. unfold all_hex in Hs. simpl in *.
      destruct (hex_digit c) as [hi|] eqn:Hc; [|discriminate].
      now rewrite (hex_digit_not_space c hi Hc).
  - split; [apply IH2|]. intros c Hs.
    unfold all_hex in Hs. simpl in Hs.
    destruct (hex_digit c) as [hi|] eqn:Hc; [|discriminate].
    destruct (hex_digit d) as [lo|] eqn:Hd; [|discriminate].
    simpl in Hs. specialize (IH1 Hs).
    change (String.length (String c (String d s)))
      with (S (S (String.length s))).
    change (Nat.even (S (S (String.length s))))
      with (Nat.even (String.length s)).
    simpl fromhex. rewrite (hex_digit_not_space c hi Hc), Hc, Hd.
    destruct (Nat.even (String.length s)).
    + destruct IH1 as [bytes [-> Hlen]]. eexists. split; [reflexivity|].
      simpl. lia.
    + now rewrite IH1.
Qed.

Lemma code_hash_bytes :
  exists code_hash,
    fromhex PW_LOCK_CODE_HASH = Some code_hash /\
    List.length code_hash = 32%nat.
Proof. eexists. split; vm_compute; reflexivity. Qed.

Lemma metamask_to_ckb_address_step a mainnet code_hash :
  fromhex PW_LOCK_CODE_HASH = Some code_hash ->
  a <> "" ->
  metamask_to_ckb_address script_addr a mainnet =
  match fromhex (if startswith_0x a then drop2 a else a) with
  | None => Raise ValueError
  | Some args =>
      Ok (script_addr mainnet code_hash script_hash_type_type args)
  end.
Proof.
  intros Hc Ha. unfold metamask_to_ckb_address. rewrite Hc, fromhex_lower.
  destruct a; [congruence|reflexivity].
Qed.

(** X5.  The derivation on hexadecimal digits: an even number of them, with
    or without the [0x] prefix, gives the address of the PW Lock script
    whose code hash has 32 bytes, whose hash type is 1 and whose arguments
    are the bytes of the digits, half as many (20 for an Ethereum address);
    an odd number of them raises [ValueError]. *)
Theorem metamask_to_ckb_address_hex h mainnet :
  all_hex h = true ->
  h <> "" ->
  if Nat.even (String.length h)
  then exists code_hash args,
         fromhex PW_LOCK_CODE_HASH = Some code_hash /\
         List.length code_hash = 32%nat /\
         fromhex h = Some args /\
         (2 * List.length args = String.length h)%nat /\
         metamask_to_ckb_address script_addr h mainnet =
           Ok (script_addr mainnet code_hash 1 args) /\
         metamask_to_ckb_address script_addr ("0x" ++ h) mainnet =
           Ok (script_addr mainnet code_hash 1 args)
  else metamask_to_ckb_address script_addr h mainnet = Raise ValueError /\
       metamask_to_ckb_address script_addr ("0x" ++ h) mainnet =
         Raise ValueError.
Proof.
  intros Hh Hne. destruct code_hash_bytes as [code_hash [Hc Hl]].
  assert (H0x : startswith_0x h = false).
  { destruct h as [|c [|d h]]; [reflexivity| |].
    - destruct c as [[] [] [] [] [] [] [] []]; reflexivity.
    - unfold all_hex in Hh. simpl in Hh.
      destruct (hex_digit c); [|discriminate].
      destruct (hex_digit d) eqn:Hd; [|discriminate].
      unfold startswith_0x.
      destruct c as [[] [] [] [] [] [] [] []]; try reflexivity.
      destruct d as [[] [] [] [] [] [] [] []]; try reflexivity.
      discriminate. }
  pose proof (fromhex_all_hex h Hh) as Hf.
  rewrite (metamask_to_ckb_address_step h mainnet code_hash Hc Hne).
  rewrite (metamask_to_ckb_address_step ("0x" ++ h) mainnet code_hash Hc)
    by discriminate.
  rewrite H0x. change (startswith_0x ("0x" ++ h)) with true.
  change (drop2 ("0x" ++ h)) with h. cbv iota.
  destruct (Nat.even (String.length h)).
  - destruct Hf as [args [Ha Hlen]]. exists code_hash, args.
    rewrite Ha. repeat split; auto.
  - rewrite Hf. now split.
Qed.

(** X6.  Neither the prefix nor the case of the digits matters: an address
    that does not begin with [0x] or [0X] gives the same result as itself
    with the prefix [0x], as its lower-case form, and as both; the
    upper-case prefix [0X] is not taken off and always raises
    [ValueError]. *)
Theorem metamask_to_ckb_address_prefix_and_case a mainnet :
  a <> "" ->
  startswith_0x (lower a) = false ->
  metamask_to_ckb_address script_addr ("0x" ++ a) mainnet =
    metamask_to_ckb_address script_addr a mainnet /\
  metamask_to_ckb_address script_addr (lower a) mainnet =
    metamask_to_ckb_address script_addr a mainnet /\
  metamask_to_ckb_address script_addr ("0x" ++ lower a) mainnet =
    metamask_to_ckb_address script_addr a mainnet /\
  metamask_to_ckb_address script_addr ("0X" ++ a) mainnet = Raise ValueError.
Proof.
  intros Hne Hl. destruct code_hash_bytes as [code_hash [Hc _]].
  assert (Ha : startswith_0x a = false).
  { destruct a as [|c [|d a]]; [reflexivity| |].
    - destruct c as [[] [] [] [] [] [] [] []]; reflexivity.
    - simpl in Hl. unfold startswith_0x.
      destruct c as [[] [] [] [] [] [] [] []]; try reflexivity.
      destruct d as [[] [] [] [] [] [] [] []]; try reflexivity.
      discriminate. }
  assert (Hnl : lower a <> "") by (destruct a; [congruence|discriminate]).
  rewrite (metamask_to_ckb_address_step a mainnet code_hash Hc Hne).
  rewrite (metamask_to_ckb_address_step ("0x" ++ a) mainnet code_hash Hc)
    by discriminate.
  rewrite (metamask_to_ckb_address_step (lower a) mainnet code_hash Hc Hnl).
  rewrite (metamask_to_ckb_address_step ("0x" ++ lower a) mainnet code_hash
             Hc) by discriminate.
  rewrite (metamask_to_ckb_address_step ("0X" ++ a) mainnet code_hash Hc)
    by discriminate.
  rewrite Ha, Hl.
  change (startswith_0x ("0x" ++ a)) with true.
  change (startswith_0x ("0x" ++ lower a)) with true.
  change (drop2 ("0x" ++ a)) with a.
  change (drop2 ("0x" ++ lower a)) with (lower a).
  cbv iota. rewrite fromhex_lower. repeat split; reflexivity.
Qed.

End BridgeFacts.

Lemma metamask_to_ckb_address_hex_witness :
  exists code_hash args,
    fromhex PW_LOCK_CODE_HASH = Some code_hash /\
    List.length code_hash = 32%nat /\
    fromhex "f93178475F922083335B91c4B9a70E66172A8391" = Some args /\
    (2 * List.length args = 40)%nat /\
    metamask_to_ckb_address (fun _ _ _ _ => "ckb1pw")
      "f93178475F922083335B91c4B9a70E66172A8391" true =
      Ok "ckb1pw" /\
    metamask_to_ckb_address (fun _ _ _ _ => "ckb1pw")
      "0xf93178475F922083335B91c4B9a70E66172A8391" true =
      Ok "ckb1pw".
Proof.
  exact (metamask_to_ckb_address_hex (fun _ _ _ _ => "ckb1pw")
           "f93178475F922083335B91c4B9a70E66172A8391" true eq_refl
           ltac:(discriminate)).
Defined.

Lemma metamask_to_ckb_address_prefix_and_case_witness :
  metamask_to_ckb_address (fun _ _ _ args => if Nat.eqb (List.length args) 2 then "two" else "other") "0xAb0C" true =
    metamask_to_ckb_address (fun _ _ _ args => if Nat.eqb (List.length args) 2 then "two" else "other") "Ab0C" true.
Proof.
  apply (metamask_to_ckb_address_prefix_and_case
           (fun _ _ _ args => if Nat.eqb (List.length args) 2 then "two" else "other") "Ab0C" true).
  - discriminate.
  - reflexivity.
Defined.

(** ** The thread URL *)

(** *** Strings *)

Lemma append_assoc (a b c : string) :
  ((a ++ b) ++ c = a ++ (b ++ c))%string.
Proof. induction a as [|x a IH]; simpl; congruence. Qed.

Lemma append_nil_r (a : string) : (a ++ "")%string = a.
Proof. induction a as [|x a IH]; simpl; congruence. Qed.

Lemma string_forall_app p a b :
  string_forall p (a ++ b) = (string_forall p a && string_forall p b)%bool.
Proof.
  induction a as [|x a IH]; simpl; [reflexivity|].
  now rewrite IH, andb_assoc.
Qed.

Lemma endswith_slash_app s t :
  t <> "" -> endswith_slash (s ++ t) = endswith_slash t.
Proof.
  intros Ht. induction s as [|c s IH]; [reflexivity|].
  simpl. destruct (s ++ t)%string eqn:E; [|exact IH].
  destruct s; simpl in E; [congruence|discriminate].
Qed.

Lemma digit_not_slash c : is_ascii_digit c = true -> (c =? "/")%char = false.
Proof. destruct c as [[] [] [] [] [] [] [] []]; try discriminate; reflexivity. Qed.

Lemma digit_not_newline c :
  is_ascii_digit c = true -> (c =? "010")%char = false.
Proof. destruct c as [[] [] [] [] [] [] [] []]; try discriminate; reflexivity. Qed.

Lemma endswith_slash_last_digit s :
  last_is_digit s = true -> endswith_slash s = false.
Proof.
  induction s as [|c s IH]; [discriminate|].
  destruct s as [|d s]; simpl in *; [apply digit_not_slash|exact IH].
Qed.

Lemma all_digits_last s : all_digits s = true -> s <> "" -> last_is_digit s = true.
Proof.
  induction s as [|c s IH]; [congruence|]. intros H _.
  unfold all_digits in *. simpl in H. apply andb_true_iff in H.
  destruct H as [Hc Hs]. destruct s as [|d s]; [exact Hc|].
  change (last_is_digit (String c (String d s)))
    with (last_is_digit (String d s)).
  apply IH; [exact Hs|discriminate].
Qed.

(** *** [rstrip] *)

Lemma rstrip_slash_replicate k : rstrip_slash (replicate k "/") = "".
Proof. induction k as [|k IH]; simpl; [reflexivity|]. now rewrite IH. Qed.

Lemma rstrip_slash_app t k :
  rstrip_slash (t ++ replicate k "/") = rstrip_slash t.
Proof.
  induction t as [|c t IH]; simpl; [apply rstrip_slash_replicate|].
  now rewrite IH.
Qed.

Lemma rstrip_slash_fixed t : endswith_slash t = false -> rstrip_slash t = t.
Proof.
  induction t as [|c t IH]; [reflexivity|]. intros H.
  destruct t as [|d t].
  - simpl in *. now rewrite H.
  - change (endswith_slash (String c (String d t)))
      with (endswith_slash (String d t)) in H.
    change (rstrip_slash (String c (String d t)))
      with (match rstrip_slash (String d t) with
            | EmptyString =>
                if (c =? "/")%char then EmptyString else String c EmptyString
            | r => String c r
            end).
    now rewrite (IH H).
Qed.

Lemma rstrip_slash_spec s :
  exists k, s = (rstrip_slash s ++ replicate k "/")%string.
Proof.
  induction s as [|c s [k IH]]; [now exists 0%nat|].
  simpl. destruct (rstrip_slash s) as [|d r].
  - destruct (c =? "/")%char eqn:E.
    + apply Ascii.eqb_eq in E. subst c. exists (S k). simpl in *. congruence.
    + exists k. simpl in *. congruence.
  - exists k. simpl in *. congruence.
Qed.

(** *** The pattern *)

Lemma re_match_digits_end_complete ds nl :
  all_digits ds = true -> ds <> "" -> at_end nl = true ->
  re_match_digits_end (ds ++ nl) = Some ds.
Proof.
  induction ds as [|c ds IH]; [congruence|]. intros H _ Hnl.
  unfold all_digits in *. simpl in H. apply andb_true_iff in H.
  destruct H as [Hc Hs]. simpl. rewrite Hc.
  destruct ds as [|d ds].
  - simpl. now rewrite Hnl.
  - change (at_end (String d ds ++ nl)) with
      (match (ds ++ nl)%string with
       | EmptyString => (d =? "010")%char
       | String _ _ => false
       end).
    assert (Hd : is_ascii_digit d = true).
    { simpl in Hs. now apply andb_true_iff in Hs. }
    rewrite (digit_not_newline d Hd).
    replace (match (ds ++ nl)%string with
             | EmptyString => false
             | String _ _ => false
             end) with false by (now destruct (ds ++ nl)%string).
    rewrite IH; [reflexivity|exact Hs|discriminate|exact Hnl].
Qed.

Lemma re_match_digits_end_sound s g :
  re_match_digits_end s = Some g ->
  all_digits g = true /\ g <> "" /\
  exists nl, at_end nl = true /\ s = (g ++ nl)%string.
Proof.
  revert g. induction s as [|c s IH]; [discriminate|]. intros g. simpl.
  destruct (is_ascii_digit c) eqn:Hc; [|discriminate].
  destruct (at_end s) eqn:He.
  - intros [= <-]. unfold all_digits. simpl. rewrite Hc.
    repeat split; [discriminate|]. now exists s.
  - destruct (re_match_digits_end s) as [g'|]; [|discriminate].
    intros [= <-]. destruct (IH g' eq_refl) as [Hg [_ [nl [Hnl ->]]]].
    unfold all_digits in *. simpl. rewrite Hc, Hg.
    repeat split; [discriminate|]. now exists nl.
Qed.

Lemma re_match_digits_end_nondigit q x t :
  is_ascii_digit x = false -> t <> "" ->
  re_match_digits_end (q ++ String x t) = None.
Proof.
  intros Hx Ht. induction q as [|c q IH]; simpl.
  - now rewrite Hx.
  - destruct (is_ascii_digit c); [|reflexivity].
    rewrite IH.
    replace (at_end (q ++ String x t)) with false; [reflexivity|].
    destruct q as [|d q]; simpl.
    + destruct t; [congruence|reflexivity].
    + destruct (q ++ String x t)%string eqn:E; [|reflexivity].
      destruct q; discriminate.
Qed.

Lemma last_not_digit_split p :
  p <> "" -> last_is_digit p = false ->
  exists q x, p = (q ++ String x "")%string /\ is_ascii_digit x = false.
Proof.
  induction p as [|c p IH]; [congruence|]. intros _ H.
  destruct p as [|d p].
  - exists "", c. now split.
  - destruct (IH ltac:(discriminate) H) as [q [x [Hq Hx]]].
    exists (String c q), x. simpl. rewrite Hq. now split.
Qed.

Lemma re_search_digits_end_unfold s :
  re_search_digits_end s =
  match re_match_digits_end s with
  | Some g => Some g
  | None =>
      match s with
      | EmptyString => None
      | String _ s' => re_search_digits_end s'
      end
  end.
Proof. destruct s; reflexivity. Qed.

Lemma re_search_digits_end_complete p ds nl :
  last_is_digit p = false ->
  all_digits ds = true -> ds <> "" -> at_end nl = true ->
  re_search_digits_end (p ++ ds ++ nl) = Some ds.
Proof.
  intros Hp Hds Hne Hnl. induction p as [|c p IH].
  - simpl append. rewrite re_search_digits_end_unfold.
    now rewrite re_match_digits_end_complete.
  - destruct (last_not_digit_split (String c p) ltac:(discriminate) Hp)
      as [q [x [Hq Hx]]].
    assert (Hm : re_match_digits_end (String c p ++ ds ++ nl) = None).
    { rewrite Hq, append_assoc. simpl append at 2.
      apply re_match_digits_end_nondigit; [exact Hx|].
      destruct ds; [congruence|discriminate]. }
    rewrite re_search_digits_end_unfold, Hm. simpl append. apply IH.
    destruct p as [|d p]; [reflexivity|exact Hp].
Qed.

Lemma re_search_digits_end_sound s g :
  re_search_digits_end s = Some g ->
  exists p nl,
    s = (p ++ g ++ nl)%string /\ last_is_digit p = false /\
    all_digits g = true /\ g <> "" /\ at_end nl = true.
Proof.
  induction s as [|c s IH]; [discriminate|].
  rewrite re_search_digits_end_unfold.
  destruct (re_match_digits_end (String c s)) as [g'|] eqn:Hm.
  - intros [= <-].
    destruct (re_match_digits_end_sound _ _ Hm) as [Hg [Hne [nl [Hnl E]]]].
    exists "", nl. simpl. repeat split; auto.
  - intros Hs. destruct (IH Hs) as [p [nl [E [Hp [Hg [Hne Hnl]]]]]].
    exists (String c p), nl. simpl append. rewrite E.
    repeat split; auto.
    destruct p as [|d p]; [|exact Hp].
    simpl. destruct (is_ascii_digit c) eqn:Hc; [|reflexivity].
    exfalso. simpl in E. subst s.
    simpl in Hm. rewrite Hc in Hm.
    rewrite (re_match_digits_end_complete g nl Hg Hne Hnl) in Hm.
    destruct (at_end (g ++ nl)); discriminate.
Qed.

Lemma at_end_iff nl : at_end nl = true <-> nl = "" \/ nl = String "010" "".
Proof.
  destruct nl as [|c [|d nl]]; simpl.
  - split; auto.
  - split.
    + intros H. apply Ascii.eqb_eq in H. subst c. now right.
    + intros [H|H]; [discriminate|]. injection H as ->. reflexivity.
  - split; [discriminate|]. intros [H|H]; discriminate.
Qed.

(** *** Decimal numbers *)

Lemma string_of_uint_digits d :
  all_digits (DecimalString.NilEmpty.string_of_uint d) = true.
Proof. induction d; simpl; auto. Qed.


Lemma str_nonneg n :
  0 <= n ->
  exists d,
    str n = DecimalString.NilZero.string_of_uint d /\ d <> Decimal.Nil /\
    Z.of_uint d = n.
Proof.
  intros Hn. destruct n as [|p|p]; [| |lia].
  - exists (Decimal.D0 Decimal.Nil). repeat split. discriminate.
  - exists (Pos.to_uint p). repeat split.
    + apply DecimalPos.Unsigned.to_uint_nonnil.
    + unfold Z.of_uint. now rewrite DecimalPos.Unsigned.of_to.
Qed.

Lemma string_of_uint_nonnil d :
  d <> Decimal.Nil ->
  DecimalString.NilZero.string_of_uint d =
  DecimalString.NilEmpty.string_of_uint d /\
  DecimalString.NilEmpty.string_of_uint d <> "".
Proof. destruct d; try congruence; intros _; split; (reflexivity || discriminate). Qed.

Section ThreadUrlFacts.

Variable int_max_str_digits : nat.

Lemma int_of_digits_nonneg ds n :
  int_of_digits int_max_str_digits ds = Ok n -> 0 <= n.
Proof.
  unfold int_of_digits.
  destruct (_ && _)%bool; [discriminate|].
  destruct (DecimalString.NilZero.uint_of_string ds); [|discriminate].
  intros [= <-]. unfold Z.of_uint. apply N2Z.is_nonneg.
Qed.

Lemma int_of_digits_outcome ds :
  int_of_digits int_max_str_digits ds = Raise ValueError \/
  exists n, int_of_digits int_max_str_digits ds = Ok n.
Proof.
  unfold int_of_digits.
  destruct (_ && _)%bool; [now left|].
  destruct (DecimalString.NilZero.uint_of_string ds); [right; eauto|now left].
Qed.

(** [int] reads back what [str] writes, within the limit on the digits. *)
Lemma int_of_digits_str n :
  0 <= n ->
  (int_max_str_digits = 0 \/ String.length (str n) <= int_max_str_digits)%nat ->
  int_of_digits int_max_str_digits (str n) = Ok n.
Proof.
  intros Hn Hl. destruct (str_nonneg n Hn) as [d [Hs [Hd Hv]]].
  unfold int_of_digits. rewrite Hs in *.
  rewrite (DecimalString.NilZero.usu d Hd), Hv.
  replace (_ && _)%bool with false; [reflexivity|].
  symmetry. apply andb_false_iff.
  destruct Hl as [->|Hl]; [now left|right]. now apply Nat.ltb_ge.
Qed.

Lemma parse_thread_id_from_url_Ok url n :
  parse_thread_id_from_url int_max_str_digits url = Ok n <->
  exists p ds nl k,
    url = (p ++ ds ++ nl ++ replicate k "/")%string /\
    last_is_digit p = false /\
    ds <> "" /\
    all_digits ds = true /\
    (nl = "" \/ nl = String "010" "") /\
    int_of_digits int_max_str_digits ds = Ok n.
Proof.
  unfold parse_thread_id_from_url. split.
  - destruct (re_search_digits_end (rstrip_slash url)) as [g|] eqn:Hs;
      [|discriminate].
    intros Hn.
    destruct (re_search_digits_end_sound _ _ Hs)
      as [p [nl [E [Hp [Hg [Hne Hnl]]]]]].
    destruct (rstrip_slash_spec url) as [k Hk].
    exists p, g, nl, k. rewrite E in Hk.
    rewrite !append_assoc in Hk.
    repeat split; auto. now apply at_end_iff.
  - intros [p [ds [nl [k [-> [Hp [Hne [Hds [Hnl Hn]]]]]]]]].
    apply at_end_iff in Hnl.
    replace (p ++ ds ++ nl ++ replicate k "/")%string
      with ((p ++ ds ++ nl) ++ replicate k "/")%string
      by (now rewrite !append_assoc).
    rewrite rstrip_slash_app, rstrip_slash_fixed.
    + now rewrite re_search_digits_end_complete.
    + rewrite endswith_slash_app
        by (destruct ds; [congruence|discriminate]).
      destruct nl as [|c [|d nl]]; [| |discriminate].
      * rewrite append_nil_r. apply endswith_slash_last_digit.
        now apply all_digits_last.
      * rewrite endswith_slash_app by discriminate.
        simpl in *. apply Ascii.eqb_eq in Hnl. now subst c.
Qed.

(** X7.  The thread id is the number the URL ends with.  The call returns
    [n] exactly when the URL is some text that does not end with a digit,
    then a run of digits that [int] reads as [n], then possibly one
    newline, then any number of slashes; any other URL raises
    [ValueError], and the id returned is never negative. *)
Theorem parse_thread_id_from_url_spec :
  (forall url n,
     parse_thread_id_from_url int_max_str_digits url = Ok n <->
     exists p ds nl k,
       url = (p ++ ds ++ nl ++ replicate k "/")%string /\
       last_is_digit p = false /\
       ds <> "" /\
       all_digits ds = true /\
       (nl = "" \/ nl = String "010" "") /\
       int_of_digits int_max_str_digits ds = Ok n) /\
  (forall url,
     parse_thread_id_from_url int_max_str_digits url = Raise ValueError \/
     exists n,
       parse_thread_id_from_url int_max_str_digits url = Ok n /\ 0 <= n).
Proof.
  split; [exact parse_thread_id_from_url_Ok|].
  intros url. unfold parse_thread_id_from_url.
  destruct (re_search_digits_end (rstrip_slash url)) as [g|]; [|now left].
  destruct (int_of_digits_outcome g) as [H|[n H]]; [now left|].
  right. exists n. split; [exact H|]. now apply int_of_digits_nonneg in H.
Qed.

(** X8.  A URL made of the thread id parses back to it: whatever the text
    before the number, provided it does not end with a digit, and however
    many slashes follow, the id written by [str] is the id returned, for
    every id that is not negative and within the digit limit of [int]. *)
Theorem parse_thread_id_from_url_str p n k :
  0 <= n ->
  last_is_digit p = false ->
  (int_max_str_digits = 0 \/
   String.length (str n) <= int_max_str_digits)%nat ->
  parse_thread_id_from_url int_max_str_digits
    (p ++ str n ++ replicate k "/") = Ok n.
Proof.
  intros Hn Hp Hl. apply parse_thread_id_from_url_Ok.
  exists p, (str n), "", k.
  destruct (str_nonneg n Hn) as [d [Hs [Hd _]]].
  destruct (string_of_uint_nonnil d Hd) as [E Hne].
  repeat split; auto.
  - rewrite Hs, E. exact Hne.
  - rewrite Hs, E. apply string_of_uint_digits.
  - now apply int_of_digits_str.
Qed.

End ThreadUrlFacts.

Lemma parse_thread_id_from_url_str_witness :
  parse_thread_id_from_url 4300
    ("https://dao.ckb.community/thread/vot-ckb-integration-for-rosen-bridge-"
       ++ str 66568 ++ replicate 1 "/") = Ok 66568.
Proof.
  apply (parse_thread_id_from_url_str 4300
           "https://dao.ckb.community/thread/vot-ckb-integration-for-rosen-bridge-"
           66568 1%nat).
  - lia.
  - reflexivity.
  - right. vm_compute. lia.
Defined.

Lemma parse_thread_id_from_url_spec_witness :
  parse_thread_id_from_url 4300 "https://dao.ckb.community/thread/66568/" =
    Ok 66568.
Proof.
  destruct (parse_thread_id_from_url_spec 4300) as [H _].
  apply H. exists "https://dao.ckb.community/thread/", "66568", "", 1%nat.
  repeat split; try reflexivity; [discriminate|now left].
Defined.

(** ** File names and paths *)

Lemma is_safe_char_plain c :
  is_safe_char c = true ->
  (negb (c =? "/")%char && negb (c =? ".")%char)%bool = true.
Proof.
  assert (H : implb (is_safe_char c)
                (negb (c =? "/")%char && negb (c =? ".")%char) = true)
    by (destruct c as [[] [] [] [] [] [] [] []]; vm_compute; reflexivity).
  intros Hc. now rewrite Hc in H.
Qed.

Lemma string_forall_impl (p q : ascii -> bool) s :
  (forall c, p c = true -> q c = true) ->
  string_forall p s = true -> string_forall q s = true.
Proof.
  intros Hpq. induction s as [|c s IH]; [reflexivity|]. simpl.
  intros H. apply andb_true_iff in H. destruct H as [Hc Hs].
  now rewrite (Hpq c Hc), IH.
Qed.

Lemma safe_option_name_chars s :
  string_forall is_safe_char (safe_option_name s) = true.
Proof.
  induction s as [|c s IH]; [reflexivity|].
  cbn [safe_option_name string_forall]. rewrite IH, andb_true_r.
  fold (is_safe_char c). destruct (is_safe_char c) eqn:E; [exact E|reflexivity].
Qed.

Lemma safe_option_name_fixed s :
  string_forall is_safe_char s = true -> safe_option_name s = s.
Proof.
  induction s as [|c s IH]; [reflexivity|].
  cbn [safe_option_name string_forall]. intros H.
  apply andb_true_iff in H. destruct H as [Hc Hs].
  fold (is_safe_char c). now rewrite Hc, IH.
Qed.

(** X9.  The name of the files of an option keeps the length of the option
    name and is made of word characters and hyphens only, so it has no
    slash and no dot; a name that is already so is kept as it is, and
    cleaning twice changes nothing more. *)
Theorem safe_option_name_safe option_name :
  String.length (safe_option_name option_name) = String.length option_name /\
  string_forall is_safe_char (safe_option_name option_name) = true /\
  string_forall (fun c => negb (c =? "/")%char && negb (c =? ".")%char)%bool
    (safe_option_name option_name) = true /\
  safe_option_name (safe_option_name option_name) =
    safe_option_name option_name /\
  (string_forall is_safe_char option_name = true ->
   safe_option_name option_name = option_name).
Proof.
  split; [|split; [|split; [|split]]].
  - induction option_name as [|c s IH];
      cbn [safe_option_name String.length]; congruence.
  - apply safe_option_name_chars.
  - apply (string_forall_impl is_safe_char); [apply is_safe_char_plain|].
    apply safe_option_name_chars.
  - apply safe_option_name_fixed, safe_option_name_chars.
  - apply safe_option_name_fixed.
Qed.

(** *** Directories *)

Lemma head_of_path_no_slash b : no_slash b = true -> head_of_path b = "".
Proof.
  induction b as [|c b IH]; [reflexivity|]. unfold no_slash. simpl.
  intros H. apply andb_true_iff in H. destruct H as [Hc Hb].
  rewrite (IH Hb). apply negb_true_iff in Hc. now rewrite Hc.
Qed.

Lemma head_of_path_app a b :
  no_slash b = true -> head_of_path (a ++ "/" ++ b) = (a ++ "/")%string.
Proof.
  intros Hb. induction a as [|c a IH].
  - simpl. now rewrite (head_of_path_no_slash b Hb).
  - simpl. simpl in IH. rewrite IH. now destruct a.
Qed.

Lemma all_slashes_app a b :
  all_slashes (a ++ b) = (all_slashes a && all_slashes b)%bool.
Proof.
  induction a as [|c a IH]; [reflexivity|]. simpl.
  now rewrite IH, andb_assoc.
Qed.

Lemma str_last_is_digit z : last_is_digit (str z) = true.
Proof.
  assert (H : forall d, d <> Decimal.Nil ->
                last_is_digit (DecimalString.NilZero.string_of_uint d) = true).
  { intros d Hd. destruct (string_of_uint_nonnil d Hd) as [-> Hne].
    apply all_digits_last; [apply string_of_uint_digits|exact Hne]. }
  destruct z as [|p|p].
  - reflexivity.
  - change (str (Z.pos p))
      with (DecimalString.NilZero.string_of_uint (Pos.to_uint p)).
    apply H, DecimalPos.Unsigned.to_uint_nonnil.
  - change (str (Z.neg p))
      with (String "-"
              (DecimalString.NilZero.string_of_uint (Pos.to_uint p))).
    specialize (H (Pos.to_uint p) (DecimalPos.Unsigned.to_uint_nonnil p)).
    destruct (DecimalString.NilZero.string_of_uint (Pos.to_uint p));
      [discriminate|exact H].
Qed.

Lemma last_is_digit_nonempty s : last_is_digit s = true -> s <> "".
Proof. destruct s; [discriminate|discriminate]. Qed.

(** The directory of a file placed in [./vote_result/<id>/]. *)
Lemma os_path_dirname_vote_result script_dir thread_id file :
  no_slash file = true ->
  os_path_dirname
    (os_path_join script_dir
       ("./vote_result/" ++ str thread_id ++ "/" ++ file)) =
  os_path_join script_dir ("./vote_result/" ++ str thread_id).
Proof.
  intros Hf. unfold os_path_join.
  change (prefix "/" ("./vote_result/" ++ str thread_id ++ "/" ++ file))
    with false.
  change (prefix "/" ("./vote_result/" ++ str thread_id)) with false.
  cbv iota.
  set (J := if (negb (truthy_string script_dir) || endswith_slash script_dir)%bool
            then script_dir else (script_dir ++ "/")%string).
  assert (E1 : (if (negb (truthy_string script_dir)
                    || endswith_slash script_dir)%bool
                then (script_dir ++
                      "./vote_result/" ++ str thread_id ++ "/" ++ file)%string
                else (script_dir ++ "/" ++
                      "./vote_result/" ++ str thread_id ++ "/" ++ file)%string)
               = ((J ++ "./vote_result/" ++ str thread_id) ++ "/" ++ file)%string).
  { unfold J. destruct (_ || _)%bool; now rewrite !append_assoc. }
  assert (E2 : (if (negb (truthy_string script_dir)
                    || endswith_slash script_dir)%bool
                then (script_dir ++ "./vote_result/" ++ str thread_id)%string
                else (script_dir ++ "/" ++
                      "./vote_result/" ++ str thread_id)%string)
               = (J ++ "./vote_result/" ++ str thread_id)%string).
  { unfold J. destruct (_ || _)%bool; now rewrite ?append_assoc. }
  rewrite E1, E2. clear E1 E2.
  set (X := (J ++ "./vote_result/" ++ str thread_id)%string).
  unfold os_path_dirname. rewrite (head_of_path_app X file Hf).
  assert (Hx : endswith_slash X = false).
  { unfold X. rewrite endswith_slash_app by discriminate.
    change ("./vote_result/" ++ str thread_id)%string
      with ("./vote_result/" ++ str thread_id)%string.
    rewrite endswith_slash_app
      by (apply last_is_digit_nonempty, str_last_is_digit).
    apply endswith_slash_last_digit, str_last_is_digit. }
  assert (Hs : all_slashes (X ++ "/") = false).
  { unfold X. rewrite !all_slashes_app. simpl.
    now rewrite andb_false_r. }
  rewrite Hs. replace (truthy_string (X ++ "/")) with true
    by (now destruct X).
  cbv iota. simpl negb. cbv iota.
  change (X ++ "/")%string with (X ++ replicate 1 "/")%string.
  rewrite rstrip_slash_app. now apply rstrip_slash_fixed.
Qed.

Lemma no_slash_file option_name timestamp ext :
  no_slash timestamp = true ->
  no_slash ext = true ->
  no_slash (safe_option_name option_name ++ "_" ++ timestamp ++ ext) = true.
Proof.
  intros Ht He. unfold no_slash in *.
  rewrite !string_forall_app, Ht, He. simpl. rewrite !andb_true_r.
  apply (string_forall_impl is_safe_char); [|apply safe_option_name_chars].
  intros c Hc. apply is_safe_char_plain in Hc.
  now apply andb_true_iff in Hc.
Qed.

Lemma paths_dirname script_dir thread_id option_name timestamp :
  no_slash timestamp = true ->
  os_path_dirname (json_path script_dir thread_id option_name timestamp) =
    os_path_join script_dir ("./vote_result/" ++ str thread_id) /\
  os_path_dirname (csv_path script_dir thread_id option_name timestamp) =
    os_path_join script_dir ("./vote_result/" ++ str thread_id).
Proof.
  intros Ht. unfold json_path, csv_path. split;
    apply os_path_dirname_vote_result, no_slash_file; auto.
Qed.

(** X10.  Both files of an option are placed in the directory of its thread,
    whatever the option is called: the directory of the JSON path, which
    is the one the script makes, and the directory of the CSV path are
    [vote_result/<thread id>] under the directory of the script, provided
    the timestamp has no slash. *)
Theorem files_in_thread_directory script_dir thread_id option_name timestamp :
  no_slash timestamp = true ->
  os_path_dirname (json_path script_dir thread_id option_name timestamp) =
    os_path_join script_dir ("./vote_result/" ++ str thread_id) /\
  os_path_dirname (csv_path script_dir thread_id option_name timestamp) =
    os_path_join script_dir ("./vote_result/" ++ str thread_id).
Proof. apply paths_dirname. Qed.

Lemma safe_option_name_safe_witness :
  safe_option_name "Yes-1_a" = "Yes-1_a".
Proof.
  destruct (safe_option_name_safe "Yes-1_a") as (_ & _ & _ & _ & H).
  apply H. reflexivity.
Defined.

Lemma files_in_thread_directory_witness :
  os_path_dirname
    (json_path "/home/dao" 66568 "Yes / No.." "20260101120000") =
    os_path_join "/home/dao" ("./vote_result/" ++ str 66568) /\
  os_path_dirname
    (csv_path "/home/dao" 66568 "Yes / No.." "20260101120000") =
    os_path_join "/home/dao" ("./vote_result/" ++ str 66568).
Proof.
  apply (files_in_thread_directory "/home/dao" 66568 "Yes / No.."
           "20260101120000").
  reflexivity.
Defined.

(** ** Rows and files of an option *)

Section ExportFacts.

Context {Srv : Type}.
Variable serve : Srv -> verb -> url -> net_result * Srv.
Variable script_addr : bool -> list Byte.byte -> Z -> list Byte.byte -> string.

Lemma sum_address_weights_map (g : address_weight -> export_row) l :
  (forall item, address_weight_floored (g item) = aw_Weight item) ->
  sum_address_weights (map g l) = sum_weights l.
Proof.
  intros Hg. induction l as [|x l IH]; [reflexivity|].
  unfold sum_address_weights, sum_weights in *. simpl.
  now rewrite Hg, IH.
Qed.

Lemma sum_address_weights_export_vote ev :
  sum_address_weights (export_vote ev) = sum_weights (weight_list ev).
Proof.
  unfold export_vote. destruct (weight_list ev) as [|item items];
    [reflexivity|].
  apply sum_address_weights_map. reflexivity.
Qed.

Lemma export_vote_length ev :
  List.length (export_vote ev) = Nat.max 1 (List.length (weight_list ev)).
Proof.
  unfold export_vote. destruct (weight_list ev) as [|item items];
    [reflexivity|].
  rewrite length_map. simpl. reflexivity.
Qed.

(** X11.  The rows of a voter add up: a voter is exported as one row per
    address, or as one row when there is no address, and the total every
    row carries is the sum of the address weights of the voter's rows. *)
Theorem voter_rows_add_up fuel v w ev w' :
  enrich_vote serve script_addr fuel v w = (Ok ev, w') ->
  List.length (export_vote ev) = Nat.max 1 (List.length (weight_list ev)) /\
  forall row,
    In row (export_vote ev) ->
    total_weight_onchain_floored row = sum_address_weights (export_vote ev).
Proof.
  intros Hrun. split; [apply export_vote_length|].
  intros row Hin.
  destruct (export_vote_rows ev row Hin) as (_ & _ & _ & Ht & _).
  destruct (enrich_vote_total serve script_addr fuel v w ev w' Hrun)
    as [_ Hsum].
  rewrite Ht, sum_address_weights_export_vote. exact Hsum.
Qed.

Lemma export_vote_nonempty ev : export_vote ev <> [].
Proof.
  intros H. pose proof (export_vote_length ev) as Hl. rewrite H in Hl.
  simpl in Hl. destruct (List.length (weight_list ev)); discriminate.
Qed.

(** What [process_option] exports is never an empty list. *)
Lemma process_option_rows_nonempty fuel option_id w rows w' :
  process_option serve script_addr fuel option_id w = (Ok (Some rows), w') ->
  rows <> [].
Proof.
  intros Hp.
  destruct (process_option_rows serve script_addr _ _ _ _ _ Hp)
    as (votes & enriched & w1 & _ & Hne & _ & Hmap & ->).
  destruct enriched as [|ev evs]; [simpl in Hmap; congruence|].
  simpl. intros H. apply app_eq_nil in H.
  now apply (export_vote_nonempty ev).
Qed.

End ExportFacts.

Section FileFacts.

Context {Srv : Type}.
Variable serve : Srv -> verb -> url -> net_result * Srv.
Variable script_addr : bool -> list Byte.byte -> Z -> list Byte.byte -> string.
Variable script_dir : string.

Lemma process_option_files_step fuel option_id option_name thread_id
    timestamp w :
  process_option_files serve script_addr script_dir fuel option_id
    option_name thread_id timestamp w =
  match process_option serve script_addr fuel option_id w with
  | (Ok (Some rows), w') =>
      (Ok (Some
             ([json_path script_dir thread_id option_name timestamp;
               csv_path script_dir thread_id option_name timestamp],
              [MakeDirs
                 (os_path_dirname
                    (json_path script_dir thread_id option_name timestamp));
               WriteJson
                 (json_path script_dir thread_id option_name timestamp) rows;
               WriteCsv
                 (csv_path script_dir thread_id option_name timestamp) rows])),
       w')
  | (Ok None, w') => (Ok None, w')
  | (Raise e, w') => (Raise e, w')
  | (Diverge, w') => (Diverge, w')
  end.
Proof.
  unfold process_option_files, bind.
  destruct (process_option serve script_addr fuel option_id w)
    as [[[rows|]|e|] w'] eqn:Hp; try reflexivity.
  apply process_option_rows_nonempty in Hp.
  destruct rows as [|row rows]; [congruence|reflexivity].
Qed.

(** X12.  An option is saved whole or not at all: when [process_option]
    exports rows, which are never an empty list, the directory is made and
    both files are written with these rows, the CSV file as surely as the
    JSON file, and both paths are returned; with no vote data nothing is
    written. *)
Theorem process_option_files_writes fuel option_id option_name thread_id
    timestamp w :
  match process_option serve script_addr fuel option_id w with
  | (Ok (Some rows), w') =>
      rows <> [] /\
      process_option_files serve script_addr script_dir fuel option_id
        option_name thread_id timestamp w =
      (Ok (Some
             ([json_path script_dir thread_id option_name timestamp;
               csv_path script_dir thread_id option_name timestamp],
              [MakeDirs
                 (os_path_dirname
                    (json_path script_dir thread_id option_name timestamp));
               WriteJson
                 (json_path script_dir thread_id option_name timestamp) rows;
               WriteCsv
                 (csv_path script_dir thread_id option_name timestamp) rows])),
       w')
  | (Ok None, w') =>
      process_option_files serve script_addr script_dir fuel option_id
        option_name thread_id timestamp w = (Ok None, w')
  | (Raise e, w') =>
      process_option_files serve script_addr script_dir fuel option_id
        option_name thread_id timestamp w = (Raise e, w')
  | (Diverge, w') =>
      process_option_files serve script_addr script_dir fuel option_id
        option_name thread_id timestamp w = (Diverge, w')
  end.
Proof.
  rewrite process_option_files_step.
  destruct (process_option serve script_addr fuel option_id w)
    as [[[rows|]|e|] w'] eqn:Hp; try reflexivity.
  split; [|reflexivity]. now apply process_option_rows_nonempty in Hp.
Qed.

End FileFacts.

Lemma voter_rows_add_up_witness :
  let ev := mkEnriched (mkVote (Some 7) (Some "V") None (Some 1000))
              [mkAW "ckb1qa" 600; mkAW "ckb1qb" 399] 999 in
  List.length (export_vote ev) = 2%nat /\
  total_weight_onchain_floored
    (mkRow "V" (Some 7) 1000 999 "ckb1qb" 399 true
       "https://explorer.app5.org/address/ckb1qb") =
  sum_address_weights (export_vote ev).
Proof.
  intros ev.
  set (src := pure_server (Srv:=unit)
                (ledger_source ["ckb1qa"; "ckb1qb"]
                   (fun a =>
                      if (a =? "ckb1qa")%string
                      then [mkCell (Some "nervos_dao_deposit")
                              (Some 60000000000)]
                      else [mkCell (Some "nervos_dao_deposit")
                              (Some 39900000000)]))).
  destruct (voter_rows_add_up src (fun _ _ _ _ => "ckb1pw") 1%nat
              (mkVote (Some 7) (Some "V") None (Some 1000)) (mkWorld tt [])
              ev
              (snd (enrich_vote src (fun _ _ _ _ => "ckb1pw") 1%nat
                      (mkVote (Some 7) (Some "V") None (Some 1000))
                      (mkWorld tt [])))) as [Hl Hsum].
  - vm_compute. reflexivity.
  - split; [exact Hl|]. apply Hsum. right. left. reflexivity.
Defined.

Lemma process_option_files_writes_witness :
  process_option_files (pure_server (Srv:=unit) two_options_source)
    (fun _ _ _ _ => "ckb1pw") "/home/dao" 3 2 "No" 66568 "20260101120000"
    (mkWorld tt []) =
  (Ok (Some
         (["/home/dao/./vote_result/66568/No_20260101120000.json";
           "/home/dao/./vote_result/66568/No_20260101120000.csv"],
          [MakeDirs "/home/dao/./vote_result/66568";
           WriteJson "/home/dao/./vote_result/66568/No_20260101120000.json"
             [mkRow "anon" None 50 0 "" 0 true ""];
           WriteCsv "/home/dao/./vote_result/66568/No_20260101120000.csv"
             [mkRow "anon" None 50 0 "" 0 true ""]])),
   mkWorld tt
     [EvHttp POST (url_poll_list 2 1); EvSleep 500;
      EvHttp POST (url_poll_list 2 2)]).
Proof.
  exact (proj2
           (process_option_files_writes
              (pure_server (Srv:=unit) two_options_source)
              (fun _ _ _ _ => "ckb1pw") "/home/dao" 3%nat 2 "No" 66568
              "20260101120000" (mkWorld tt []))).
Defined.

(** ** Weights: sign and rounding loss *)

(** The weight of a sum of 64-bit capacities is an integer that is not
    negative. *)
Lemma weight_of_float_nonneg t :
  float_below 67 t -> exists z, weight_of_float t = Ok z /\ 0 <= z.
Proof.
  unfold weight_of_float. rewrite float_of_Z_1e8.
  intros [->|[m [e [-> [Hdm He]]]]]; [exists 0; split; [reflexivity|lia]|].
  pose proof (digits2_bounds m) as Hbm. rewrite Hdm in Hbm.
  change (53 - 1) with 52 in Hbm.
  unfold float_div, SFdiv, SFdiv_core_binary.
  simpl Zdigits2. rewrite Hdm.
  change (Zpos (digits2_pos 6710886400000000)) with 53.
  replace (53 + e - (53 + -26)) with (e + 26) by lia.
  rewrite fexp_normal by lia.
  replace (Z.min (e + 26 - 53) (e - -26)) with (e - 27) by lia.
  replace (e - -26 - (e - 27)) with 53 by lia.
  cbv iota. rewrite Z.shiftl_mul_pow2 by lia.
  set (my := 6710886400000000).
  destruct (Z.div_eucl (Zpos m * 2 ^ 53) my) as [q r] eqn:Hdiv.
  assert (Hq : q = (Zpos m * 2 ^ 53) / my)
    by (unfold Z.div; now rewrite Hdiv).
  simpl xorb.
  assert (Hqb : 2 ^ 52 <= q < 2 ^ 54).
  { rewrite Hq. split.
    - apply Z.div_le_lower_bound; [reflexivity|].
      assert (my <= 2 ^ 53) by (unfold my; vm_compute; discriminate). nia.
    - apply Z.div_lt_upper_bound; [reflexivity|].
      assert (2 ^ 52 <= my) by (unfold my; vm_compute; discriminate).
      change (2 ^ 54) with (2 ^ 52 * 4). nia. }
  destruct (binary_round_aux_quotient_finite q (e - 27) (new_location my r)
              Hqb ltac:(lia)) as [m' [e' ->]].
  simpl. eexists. split; [reflexivity|].
  apply Z.shiftl_nonneg. lia.
Qed.

Lemma floor_sum_bounds D (xs : list Z) :
  0 < D ->
  let floors := fold_right (fun x acc => x / D + acc) 0 xs in
  let exact := fold_right (fun x acc => x + acc) 0 xs in
  D * floors <= exact <= D * floors + Z.of_nat (List.length xs) * (D - 1).
Proof.
  intros HD. induction xs as [|x xs IH]; [simpl; lia|].
  cbv zeta in *. simpl fold_right. simpl List.length.
  pose proof (Z.div_mod x D ltac:(lia)) as Hx.
  pose proof (Z.mod_pos_bound x D HD) as Hr.
  rewrite Nat2Z.inj_succ. nia.
Qed.

Section WeightBoundFacts.

Context {Srv : Type}.
Variable serve : Srv -> verb -> url -> net_result * Srv.
Variable script_addr : bool -> list Byte.byte -> Z -> list Byte.byte -> string.

Lemma get_address_onchain_weight_nonneg fuel address w z w' :
  capacities_u64 serve ->
  get_address_onchain_weight serve fuel address w = (Ok z, w') ->
  0 <= z.
Proof.
  intros Hcap. unfold get_address_onchain_weight,
    get_address_onchain_weight_sized, bind.
  destruct (live_cells_loop serve fuel 20 address (S754_zero false) 1 w)
    as [[total|e1|] w1] eqn:Hl; try discriminate.
  apply (live_cells_loop_below serve 20 address Hcap) in Hl; [|now left].
  destruct (weight_of_float_nonneg total Hl) as [z0 [Hz Hnn]].
  unfold weight_of_float in Hz. unfold lift. rewrite Hz.
  now intros [= <- _].
Qed.

Lemma weigh_addresses_nonneg fuel :
  capacities_u64 serve ->
  forall addresses wl total w wl' total' w',
    Forall (fun item => 0 <= aw_Weight item) wl ->
    weigh_addresses serve fuel addresses wl total w =
      (Ok (wl', total'), w') ->
    Forall (fun item => 0 <= aw_Weight item) wl'.
Proof.
  intros Hcap.
  induction addresses as [|a rest IH]; intros wl total w wl' total' w' Hwl Hrun.
  - now injection Hrun as <- _ _.
  - simpl in Hrun. unfold bind in Hrun.
    destruct (get_address_onchain_weight serve fuel a w) as [[x|e|] w1] eqn:Ha;
      try discriminate.
    apply (IH _ _ _ _ _ _) in Hrun; [exact Hrun|].
    apply Forall_app. split; [exact Hwl|].
    constructor; [|constructor]. simpl.
    now apply (get_address_onchain_weight_nonneg fuel a w x w1 Hcap).
Qed.

Lemma sum_weights_nonneg wl :
  Forall (fun item => 0 <= aw_Weight item) wl -> 0 <= sum_weights wl.
Proof.
  induction 1 as [|x l Hx _ IH]; unfold sum_weights in *; simpl; lia.
Qed.

(** X13.  No weight is negative.  Capacities being 64-bit integers, whatever
    the servers answer, the weight [get_address_onchain_weight] returns for
    an address is at least 0, and so are every entry of a voter's weight
    list and the voter's total. *)
Theorem onchain_weights_nonneg :
  capacities_u64 serve ->
  (forall fuel address w z w',
     get_address_onchain_weight serve fuel address w = (Ok z, w') ->
     0 <= z) /\
  (forall fuel v w ev w',
     enrich_vote serve script_addr fuel v w = (Ok ev, w') ->
     Forall (fun item => 0 <= aw_Weight item) (weight_list ev) /\
     0 <= weight_calc ev).
Proof.
  intros Hcap. split.
  - intros fuel address w z w'. now apply get_address_onchain_weight_nonneg.
  - intros fuel v w ev w' Hrun.
    assert (Hl : Forall (fun item => 0 <= aw_Weight item) (weight_list ev)).
    { rewrite enrich_vote_step in Hrun.
      destruct (negb (truthy_id (user_id v))).
      - injection Hrun as <- _. constructor.
      - destruct (get_user_dao_addresses serve script_addr _ w)
          as [[[|a l]|e|] w1]; try discriminate.
        + injection Hrun as <- _. constructor.
        + destruct (weigh_addresses serve fuel (a :: l) [] 0 w1)
            as [[[wl total]|e|] w2] eqn:Hw; try discriminate.
          injection Hrun as <- _. simpl.
          now apply (weigh_addresses_nonneg fuel Hcap _ _ _ _ _ _ _
                       (Forall_nil _)) in Hw. }
    split; [exact Hl|].
    destruct (enrich_vote_total serve script_addr fuel v w ev w' Hrun)
      as [_ ->].
    now apply sum_weights_nonneg.
Qed.

End WeightBoundFacts.

Section FlooringLossFacts.

Context {Srv : Type}.
Variable script_addr : bool -> list Byte.byte -> Z -> list Byte.byte -> string.

(** A voter whose profile lists [addresses] and no public key, over a
    ledger of exact sums: the weight list holds the floored weight of every
    address. *)
Lemma enrich_vote_ledger f cells addresses uid v fuel (w : world (Srv:=Srv)) :
  user_id v = Some uid ->
  uid <> 0 ->
  addresses <> [] ->
  f GET (url_profile uid) =
    NetResponse (mkResponse 200 (ProfileBody true 20000 addresses "")) ->
  (forall a, In a addresses ->
     serves_cells f a (cells a) /\
     Forall (fun c => 0 <= deposit_capacity c) (cells a) /\
     deposit_sum (cells a) < 2 ^ 53 /\
     (List.length (cells a) / 20 < fuel)%nat) ->
  fst (enrich_vote (pure_server f) script_addr fuel v w) =
  Ok (mkEnriched v (floored_weights cells addresses)
        (sum_weights (floored_weights cells addresses))).
Proof.
  intros Hu Hnz Hne Hp Hall.
  rewrite enrich_vote_step, Hu. unfold truthy_id.
  replace (uid =? 0) with false by (symmetry; now apply Z.eqb_neq).
  cbn [negb]. rewrite get_user_dao_addresses_step.
  rewrite (request_with_retry_pure f "get" GET) by reflexivity.
  rewrite Hp. simpl attempt_outcome. cbv iota. simpl body.
  simpl envelope_ok. cbv iota. cbv zeta. simpl web3_public_key_of.
  simpl truthy_string. cbv iota. simpl neuron_addresses_of.
  destruct addresses as [|a rest]; [congruence|].
  match goal with
  | |- context [weigh_addresses _ _ _ ?wl' ?t' ?w'] =>
      destruct (weigh_addresses_ledger f cells fuel (a :: rest) wl' t' w'
                  Hall) as [w'' Hrun]
  end.
  rewrite Hrun. reflexivity.
Qed.

Lemma floored_weights_bounds cells addresses :
  10 ^ 8 * sum_weights (floored_weights cells addresses) <=
    voter_deposits cells addresses <=
  10 ^ 8 * sum_weights (floored_weights cells addresses)
    + Z.of_nat (List.length addresses) * (10 ^ 8 - 1).
Proof.
  assert (E1 : fold_right (fun x acc => x / 10 ^ 8 + acc) 0
                 (map (fun a => deposit_sum (cells a)) addresses) =
               sum_weights (floored_weights cells addresses)).
  { unfold sum_weights, floored_weights.
    induction addresses as [|a l IH]; [reflexivity|].
    cbn [map fold_right aw_Weight]. now rewrite IH. }
  assert (E2 : fold_right (fun x acc => x + acc) 0
                 (map (fun a => deposit_sum (cells a)) addresses) =
               voter_deposits cells addresses).
  { clear E1. unfold voter_deposits.
    induction addresses as [|a l IH]; [reflexivity|].
    cbn [map fold_right]. now rewrite IH. }
  pose proof (floor_sum_bounds (10 ^ 8) (map (fun a => deposit_sum (cells a))
                                           addresses) ltac:(reflexivity)) as H.
  cbv zeta in H. now rewrite length_map, E1, E2 in H.
Qed.

(** X14.  What flooring every address costs.  For a voter with [n] addresses
    whose deposits are exactly summed, the total the script compares is at
    most the whole CKB of the voter's deposits taken together and falls
    short of them by at most [n - 1]: with one address nothing is lost. *)
Theorem voter_total_flooring_loss f cells addresses uid v fuel
    (w : world (Srv:=Srv)) :
  user_id v = Some uid ->
  uid <> 0 ->
  addresses <> [] ->
  f GET (url_profile uid) =
    NetResponse (mkResponse 200 (ProfileBody true 20000 addresses "")) ->
  (forall a, In a addresses ->
     serves_cells f a (cells a) /\
     Forall (fun c => 0 <= deposit_capacity c) (cells a) /\
     deposit_sum (cells a) < 2 ^ 53 /\
     (List.length (cells a) / 20 < fuel)%nat) ->
  exists ev,
    fst (enrich_vote (pure_server f) script_addr fuel v w) = Ok ev /\
    weight_calc ev <= voter_deposits cells addresses / 10 ^ 8 /\
    voter_deposits cells addresses / 10 ^ 8 <=
      weight_calc ev + Z.of_nat (List.length addresses) - 1.
Proof.
  intros Hu Hnz Hne Hp Hall. eexists. split.
  - apply (enrich_vote_ledger f cells addresses uid v fuel w); assumption.
  - simpl weight_calc.
    pose proof (floored_weights_bounds cells addresses) as [Hlo Hhi].
    assert (Hn : 1 <= Z.of_nat (List.length addresses))
      by (destruct addresses; [congruence|simpl List.length; lia]).
    set (S := sum_weights (floored_weights cells addresses)) in *.
    set (E := voter_deposits cells addresses) in *.
    set (n := Z.of_nat (List.length addresses)) in *.
    split.
    + apply Z.div_le_lower_bound; [reflexivity|exact Hlo].
    + assert (E / 10 ^ 8 < S + n); [|lia].
      apply Z.div_lt_upper_bound; [reflexivity|].
      change (10 ^ 8) with 100000000 in *. lia.
Qed.

End FlooringLossFacts.

Lemma onchain_weights_nonneg_witness :
  get_address_onchain_weight
    (pure_server (Srv:=unit)
       (cell_pages [mkCell (Some "nervos_dao_deposit") (Some 60000000000)]))
    1 "ckb1qa" (mkWorld tt []) =
  (Ok 600, mkWorld tt [EvHttp GET (url_address_live_cells "ckb1qa" 1 20)]) /\
  0 <= 600.
Proof.
  split; [vm_compute; reflexivity|].
  set (src := pure_server (Srv:=unit)
                (cell_pages
                   [mkCell (Some "nervos_dao_deposit") (Some 60000000000)])).
  destruct (onchain_weights_nonneg src (fun _ _ _ _ => "ckb1pw")) as [H _].
  - apply cell_pages_u64. repeat constructor; vm_compute; discriminate.
  - apply (H 1%nat "ckb1qa" (mkWorld tt []) 600
             (mkWorld tt [EvHttp GET (url_address_live_cells "ckb1qa" 1 20)])).
    vm_compute. reflexivity.
Defined.

Lemma voter_total_flooring_loss_witness :
  let cells := fun _ : string =>
                 [mkCell (Some "nervos_dao_deposit") (Some 50000000)] in
  exists ev,
    fst (enrich_vote
           (pure_server (Srv:=unit) (ledger_source ["ckb1qa"; "ckb1qb"] cells))
           (fun _ _ _ _ => "ckb1pw") 1
           (mkVote (Some 7) (Some "V") None (Some 1)) (mkWorld tt [])) =
      Ok ev /\
    weight_calc ev <= voter_deposits cells ["ckb1qa"; "ckb1qb"] / 10 ^ 8 /\
    voter_deposits cells ["ckb1qa"; "ckb1qb"] / 10 ^ 8 <=
      weight_calc ev + Z.of_nat 2 - 1.
Proof.
  intros cells.
  apply (voter_total_flooring_loss (Srv:=unit) (fun _ _ _ _ => "ckb1pw")
           (ledger_source ["ckb1qa"; "ckb1qb"] cells) cells
           ["ckb1qa"; "ckb1qb"] 7).
  - reflexivity.
  - discriminate.
  - discriminate.
  - reflexivity.
  - intros a [<-|[<-|[]]]; (split; [intros v p n; reflexivity|]);
      (split; [repeat constructor; vm_compute; discriminate|]);
      (split; [vm_compute; reflexivity|simpl; lia]).
Defined.

(** ** A public key that is not hexadecimal *)

Section MalformedKeyFacts.

Context {Srv : Type}.
Variable serve : Srv -> verb -> url -> net_result * Srv.
Variable script_addr : bool -> list Byte.byte -> Z -> list Byte.byte -> string.

Lemma metamask_to_ckb_address_malformed k mainnet :
  k <> "" ->
  ~ hexadecimal_key k ->
  metamask_to_ckb_address script_addr k mainnet = Raise ValueError.
Proof.
  intros Hk Hh. destruct code_hash_bytes as [code_hash [Hc _]].
  rewrite (metamask_to_ckb_address_step script_addr k mainnet code_hash Hc Hk).
  unfold hexadecimal_key in Hh. rewrite fromhex_lower in Hh.
  destruct (fromhex (if startswith_0x k then drop2 k else k));
    [exfalso; apply Hh; discriminate|reflexivity].
Qed.

(** X15.  One public key that is not hexadecimal stops the run.  When the
    profile of a voter of the listing holds a key that [bytearray.fromhex]
    refuses, the voters before it having been weighed, the [ValueError] of
    the derivation leaves [process_option], nothing is exported for the
    option, and the loop over the options ends there with the same
    error. *)
Theorem malformed_key_aborts fuel option_id before v after w w0 evs w1 uid r
    w2 :
  get_all_votes serve fuel option_id w =
    (Ok (Some (before ++ v :: after)), w0) ->
  enrich_votes serve script_addr fuel before w0 = (Ok evs, w1) ->
  user_id v = Some uid ->
  uid <> 0 ->
  request_with_retry serve "get" (url_profile uid) MAX_RETRIES w1 =
    (Ok r, w2) ->
  envelope_ok (body r) = true ->
  web3_public_key_of (body r) <> "" ->
  ~ hexadecimal_key (web3_public_key_of (body r)) ->
  process_option serve script_addr fuel option_id w = (Raise ValueError, w2) /\
  forall o rest all_files,
    id o = option_id ->
    main_options serve script_addr fuel (o :: rest) all_files w =
      (Raise ValueError, w2).
Proof.
  intros Hg Hb Hu Hnz Hreq Hok Hk Hh.
  assert (Hv : enrich_vote serve script_addr fuel v w1 =
               (Raise ValueError, w2)).
  { rewrite enrich_vote_step, Hu. unfold truthy_id.
    replace (uid =? 0) with false by (symmetry; now apply Z.eqb_neq).
    cbn [negb]. rewrite get_user_dao_addresses_step, Hreq, Hok. cbv zeta.
    replace (truthy_string (web3_public_key_of (body r))) with true
      by (destruct (web3_public_key_of (body r)); [congruence|reflexivity]).
    now rewrite (metamask_to_ckb_address_malformed _ true Hk Hh). }
  assert (Hp : process_option serve script_addr fuel option_id w =
               (Raise ValueError, w2)).
  { unfold process_option, bind. rewrite Hg.
    assert (Hr : enrich_votes serve script_addr fuel (before ++ v :: after)
                   w0 = (Raise ValueError, w2)).
    { rewrite enrich_votes_app, Hb. simpl. unfold bind. now rewrite Hv. }
    destruct (before ++ v :: after) eqn:E.
    - destruct before; discriminate.
    - now rewrite Hr. }
  split; [exact Hp|].
  intros o rest all_files Ho. simpl. unfold bind. now rewrite Ho, Hp.
Qed.

End MalformedKeyFacts.

Lemma malformed_key_aborts_witness :
  process_option
    (pure_server (Srv:=unit)
       (keyed_poll_source [mkVote (Some 7) (Some "V") None (Some 1)] "0xzz"))
    (fun _ _ _ _ => "ckb1pw") 2 1 (mkWorld tt []) =
  (Raise ValueError,
   mkWorld tt
     [EvHttp POST (url_poll_list 1 1); EvSleep 500;
      EvHttp POST (url_poll_list 1 2); EvHttp GET (url_profile 7)]).
Proof.
  refine (proj1
    (malformed_key_aborts
       (pure_server (Srv:=unit)
          (keyed_poll_source [mkVote (Some 7) (Some "V") None (Some 1)] "0xzz"))
       (fun _ _ _ _ => "ckb1pw") 2%nat 1 []
       (mkVote (Some 7) (Some "V") None (Some 1)) [] (mkWorld tt [])
       (mkWorld tt
          [EvHttp POST (url_poll_list 1 1); EvSleep 500;
           EvHttp POST (url_poll_list 1 2)])
       []
       (mkWorld tt
          [EvHttp POST (url_poll_list 1 1); EvSleep 500;
           EvHttp POST (url_poll_list 1 2)])
       7 (mkResponse 200 (ProfileBody true 20000 [] "0xzz")) _
       _ _ _ _ _ _ _ _)).
  - reflexivity.
  - reflexivity.
  - reflexivity.
  - lia.
  - reflexivity.
  - reflexivity.
  - discriminate.
  - intros H. apply H. reflexivity.
Defined.

(** ** The options of the poll *)

Section PollFacts.

Context {Srv : Type}.
Variable serve : Srv -> verb -> url -> net_result * Srv.

Lemma get_poll_options_step thread_id w :
  get_poll_options serve thread_id w =
  match request_with_retry serve "get" (url_get_thread thread_id)
          MAX_RETRIES w with
  | (Ok r, w1) =>
      (Ok (if envelope_ok (body r)
           then match polls_of (body r) with
                | (o :: os) :: _ => Some (o :: os, thread_id)
                | _ => None
                end
           else None), w1)
  | (Raise e, w1) => (Ok None, w1)
  | (Diverge, w1) => (Diverge, w1)
  end.
Proof.
  unfold get_poll_options, try_except, bind.
  destruct (request_with_retry serve "get" (url_get_thread thread_id)
              MAX_RETRIES w) as [[r|e|] w1] eqn:Hreq.
  - unfold json. destruct (body r) as [st c l|st c a k|st c ps|d|] eqn:Hb;
      simpl; try reflexivity;
      try (destruct (st && (c =? 20000)); reflexivity).
    destruct (st && (c =? 20000)); [|reflexivity].
    destruct ps as [|[|o os] ps]; reflexivity.
  - assert (H : is_RequestException e = true).
    { exact (request_with_retry_raises serve "get" GET _ w e w1 eq_refl
               Hreq). }
    now rewrite H.
  - reflexivity.
Qed.

(** A call of [get_poll_options]: the requests it makes and what it
    returns. *)
Lemma get_poll_options_run thread_id w :
  let u := url_get_thread thread_id in
  exists k,
    (k <= 3)%nat /\
    get_poll_options serve thread_id w =
      (Ok (match attempt_outcome
                   (fst (serve (server_after serve k (server w) GET u) GET u))
           with
           | Ok r =>
               if envelope_ok (body r)
               then match polls_of (body r) with
                    | (o :: os) :: _ => Some (o :: os, thread_id)
                    | _ => None
                    end
               else None
           | _ => None
           end),
       mkWorld (server_after serve (S k) (server w) GET u)
               (trace w ++ retry_trace k GET u ++ [EvHttp GET u])).
Proof.
  intros u.
  destruct (request_with_retry_shape serve "get" GET u MAX_RETRIES w eq_refl
              ltac:(unfold MAX_RETRIES; lia)) as [k [Hk [_ [_ Hrun]]]].
  exists k. split; [unfold MAX_RETRIES in Hk; lia|].
  rewrite get_poll_options_step. fold u. rewrite Hrun.
  destruct (attempt_outcome
              (fst (serve (server_after serve k (server w) GET u) GET u)))
    as [r|e|] eqn:Ho; try reflexivity.
  now apply attempt_outcome_not_Diverge in Ho.
Qed.

(** X16.  The options of a thread.  [get_poll_options] always returns, and
    raises nothing: it makes between one and four requests, all of them for
    the thread, each but the last followed by the retry delay.  It returns
    options exactly when the last request is answered with a successful
    envelope whose first poll has an option; they are the options of that
    first poll, in order, with the thread id it was given, whatever polls
    come after. *)
Theorem get_poll_options_returns thread_id w :
  let u := url_get_thread thread_id in
  exists k result,
    (k <= 3)%nat /\
    get_poll_options serve thread_id w =
      (Ok result,
       mkWorld (server_after serve (S k) (server w) GET u)
               (trace w ++ retry_trace k GET u ++ [EvHttp GET u])) /\
    (forall options t,
       result = Some (options, t) <->
       t = thread_id /\ options <> [] /\
       exists r later,
         attempt_outcome
           (fst (serve (server_after serve k (server w) GET u) GET u)) =
           Ok r /\
         envelope_ok (body r) = true /\
         polls_of (body r) = options :: later).
Proof.
  intros u. destruct (get_poll_options_run thread_id w) as [k [Hk Hrun]].
  fold u in Hrun. eexists k, _. split; [exact Hk|]. split; [exact Hrun|].
  intros options t.
  destruct (attempt_outcome
              (fst (serve (server_after serve k (server w) GET u) GET u)))
    as [r|e|] eqn:Ho.
  - split.
    + destruct (envelope_ok (body r)) eqn:Hok; [|discriminate].
      destruct (polls_of (body r)) as [|[|o os] later] eqn:Hp;
        try discriminate.
      intros [= <- <-]. repeat split; [discriminate|].
      exists r, later. repeat split; auto.
    + intros [-> [Hne [r' [later [Hr [Hok Hp]]]]]].
      assert (Er : r' = r) by congruence. subst r'. rewrite Hok, Hp.
      destruct options; [congruence|reflexivity].
  - split; [discriminate|].
    intros [_ [_ [r' [later [H _]]]]]. congruence.
  - split; [discriminate|].
    intros [_ [_ [r' [later [H _]]]]]. congruence.
Qed.

End PollFacts.

Lemma get_poll_options_returns_witness :
  fst (get_poll_options
         (pure_server (Srv:=unit)
            (forum_source [[mkOption 1 "Yes"; mkOption 2 "No"];
                           [mkOption 3 "Later"]] (always_status 404)))
         66568 (mkWorld tt [])) =
  Ok (Some ([mkOption 1 "Yes"; mkOption 2 "No"], 66568)).
Proof.
  destruct (get_poll_options_returns
              (pure_server (Srv:=unit)
                 (forum_source [[mkOption 1 "Yes"; mkOption 2 "No"];
                                [mkOption 3 "Later"]] (always_status 404)))
              66568 (mkWorld tt [])) as [k [result [_ [Hrun Hres]]]].
  rewrite Hrun. simpl fst. f_equal. apply Hres.
  repeat split; [discriminate|].
  exists (mkResponse 200
            (ThreadBody true 20000
               [[mkOption 1 "Yes"; mkOption 2 "No"]; [mkOption 3 "Later"]])),
    [[mkOption 3 "Later"]].
  rewrite server_after_pure. repeat split.
Defined.

(** ** The whole run *)

Lemma digit_is_safe_char c : is_ascii_digit c = true -> is_safe_char c = true.
Proof.
  assert (H : implb (is_ascii_digit c) (is_safe_char c) = true)
    by (destruct c as [[] [] [] [] [] [] [] []]; vm_compute; reflexivity).
  intros Hc. now rewrite Hc in H.
Qed.

(** The decimal writing of an integer is a file name as it is. *)
Lemma safe_option_name_str z : safe_option_name (str z) = str z.
Proof.
  apply safe_option_name_fixed.
  assert (H : forall d,
            string_forall is_safe_char
              (DecimalString.NilZero.string_of_uint d) = true).
  { intros d. destruct (Decimal.uint_eq_dec d Decimal.Nil) as [->|Hd];
      [reflexivity|].
    destruct (string_of_uint_nonnil d Hd) as [-> _].
    apply (string_forall_impl is_ascii_digit); [apply digit_is_safe_char|].
    apply string_of_uint_digits. }
  destruct z as [|p|p].
  - reflexivity.
  - apply H.
  - change (str (Z.neg p))
      with (String "-"
              (DecimalString.NilZero.string_of_uint (Pos.to_uint p))).
    cbn [string_forall]. now rewrite H.
Qed.

Section MainFacts.

Context {Srv : Type}.
Variable serve : Srv -> verb -> url -> net_result * Srv.
Variable script_addr : bool -> list Byte.byte -> Z -> list Byte.byte -> string.
Variable int_max_str_digits : nat.
Variable int_of_argument : string -> option Z.
Variable script_dir : string.

Lemma saved_step dir effects batches p1 p2 rows o :
  os_path_dirname p1 = dir ->
  os_path_dirname p2 = dir ->
  saved dir effects batches ->
  saved dir
    (effects ++ [MakeDirs (os_path_dirname p1); WriteJson p1 rows;
                 WriteCsv p2 rows])
    (batches ++ [(o, rows)]).
Proof.
  intros H1 H2 (Hj & Hc & Hl & Hd). unfold saved, json_rows, csv_rows in *.
  rewrite !flat_map_app, !map_app, !length_app, Hj, Hc. simpl.
  repeat split; try lia.
  apply Forall_app. split; [exact Hd|].
  repeat constructor; simpl; assumption.
Qed.

Lemma main_loop_batches fuel thread_id timestamp :
  no_slash timestamp = true ->
  let dir := os_path_join script_dir ("./vote_result/" ++ str thread_id) in
  forall options all_files done batches w,
    saved dir done batches ->
    match main_options serve script_addr fuel options batches w with
    | (Ok batches', w') =>
        exists all_files' effects,
          main_loop serve script_addr script_dir fuel options thread_id
            timestamp all_files done w = (Ok (all_files', effects), w') /\
          saved dir effects batches'
    | (Raise e, w') =>
        main_loop serve script_addr script_dir fuel options thread_id
          timestamp all_files done w = (Raise e, w')
    | (Diverge, w') =>
        main_loop serve script_addr script_dir fuel options thread_id
          timestamp all_files done w = (Diverge, w')
    end.
Proof.
  intros Hts dir.
  induction options as [|o rest IH]; intros all_files done batches w Hs.
  - cbn [main_loop main_options]. unfold ret. now exists all_files, done.
  - cbn [main_loop main_options]. unfold bind.
    rewrite process_option_files_step.
    destruct (process_option serve script_addr fuel (id o) w)
      as [[[rows|]|e|] w1]; try reflexivity.
    + apply IH.
      destruct (paths_dirname script_dir thread_id (html o) timestamp Hts)
        as [H1 H2].
      apply saved_step; [exact H1|exact H2|exact Hs].
    + now apply IH.
Qed.

Lemma main_url_step fuel script arg rest timestamp w :
  prefix "http" arg = true ->
  main serve script_addr int_max_str_digits int_of_argument script_dir fuel
    (script :: arg :: rest) timestamp w =
  match parse_thread_id_from_url int_max_str_digits arg with
  | Ok thread_id =>
      match get_poll_options serve thread_id w with
      | (Ok (Some (options, t)), w1) =>
          match main_loop serve script_addr script_dir fuel options t
                  timestamp [] [] w1 with
          | (Ok r, w2) => (Ok (Completed (snd r)), w2)
          | (Raise e, w2) => (Raise e, w2)
          | (Diverge, w2) => (Diverge, w2)
          end
      | (Ok None, w1) => (Ok (SystemExit 1), w1)
      | (Raise e, w1) => (Raise e, w1)
      | (Diverge, w1) => (Diverge, w1)
      end
  | Raise ValueError => (Ok (SystemExit 1), w)
  | Raise e => (Raise e, w)
  | Diverge => (Diverge, w)
  end.
Proof.
  intros Hp. unfold main. rewrite Hp.
  destruct (parse_thread_id_from_url int_max_str_digits arg) as [tid|e|];
    [|destruct e; reflexivity|reflexivity].
  unfold bind.
  destruct (get_poll_options serve tid w) as [[[[options t]|]|e|] w1];
    reflexivity.
Qed.

(** X17.  When [main] gives up.  Without an argument, with a URL that has no
    number at its end, or with an argument that is neither a URL nor an
    integer, it exits with status 1 before any request; in URL mode, when
    the options of the thread cannot be had, it exits with status 1 after
    the one to four requests for the thread, and nothing else was asked of
    any server. *)
Theorem main_exits_early fuel timestamp w :
  (forall argv,
     (List.length argv < 2)%nat ->
     main serve script_addr int_max_str_digits int_of_argument script_dir
       fuel argv timestamp w = (Ok (SystemExit 1), w)) /\
  (forall script arg rest,
     prefix "http" arg = true ->
     parse_thread_id_from_url int_max_str_digits arg = Raise ValueError ->
     main serve script_addr int_max_str_digits int_of_argument script_dir
       fuel (script :: arg :: rest) timestamp w = (Ok (SystemExit 1), w)) /\
  (forall script arg rest,
     prefix "http" arg = false ->
     int_of_argument arg = None ->
     main serve script_addr int_max_str_digits int_of_argument script_dir
       fuel (script :: arg :: rest) timestamp w = (Ok (SystemExit 1), w)) /\
  (forall script arg rest thread_id,
     prefix "http" arg = true ->
     parse_thread_id_from_url int_max_str_digits arg = Ok thread_id ->
     fst (get_poll_options serve thread_id w) = Ok None ->
     let u := url_get_thread thread_id in
     exists k,
       (k <= 3)%nat /\
       main serve script_addr int_max_str_digits int_of_argument script_dir
         fuel (script :: arg :: rest) timestamp w =
       (Ok (SystemExit 1),
        mkWorld (server_after serve (S k) (server w) GET u)
                (trace w ++ retry_trace k GET u ++ [EvHttp GET u]))).
Proof.
  split; [|split; [|split]].
  - intros [|script [|arg rest]] Hl; [reflexivity|reflexivity|].
    simpl in Hl. lia.
  - intros script arg rest Hp Hv. now rewrite main_url_step, Hv.
  - intros script arg rest Hp Hi. unfold main. now rewrite Hp, Hi.
  - intros script arg rest thread_id Hp Hv Hnone u.
    destruct (get_poll_options_run serve thread_id w) as [k [Hk Hrun]].
    fold u in Hrun. exists k. split; [exact Hk|].
    rewrite main_url_step, Hv by exact Hp.
    rewrite Hrun in Hnone |- *. simpl fst in Hnone.
    injection Hnone as Hnone. now rewrite Hnone.
Qed.

(** X18.  The URL mode, once the options are had: [main] saves what the loop
    over the options computes.  It completes exactly when that loop
    returns, and then the rows of the JSON files it wrote are the batches
    of the loop, in order, and so are the rows of the CSV files: one
    directory made and two files written for each option that has votes,
    nothing for the others, everything in the directory of the thread. *)
Theorem main_url_mode fuel script arg rest timestamp w thread_id options t
    w1 :
  prefix "http" arg = true ->
  parse_thread_id_from_url int_max_str_digits arg = Ok thread_id ->
  get_poll_options serve thread_id w = (Ok (Some (options, t)), w1) ->
  no_slash timestamp = true ->
  match main_options serve script_addr fuel options [] w1 with
  | (Ok batches, w') =>
      exists effects,
        main serve script_addr int_max_str_digits int_of_argument script_dir
          fuel (script :: arg :: rest) timestamp w =
          (Ok (Completed effects), w') /\
        saved (os_path_join script_dir ("./vote_result/" ++ str thread_id))
          effects batches
  | (Raise e, w') =>
      main serve script_addr int_max_str_digits int_of_argument script_dir
        fuel (script :: arg :: rest) timestamp w = (Raise e, w')
  | (Diverge, w') =>
      main serve script_addr int_max_str_digits int_of_argument script_dir
        fuel (script :: arg :: rest) timestamp w = (Diverge, w')
  end.
Proof.
  intros Hp Hv Hg Hts.
  assert (Ht : t = thread_id).
  { rewrite get_poll_options_step in Hg.
    destruct (request_with_retry serve "get" (url_get_thread thread_id)
                MAX_RETRIES w) as [[r|e|] w0]; try discriminate.
    destruct (envelope_ok (body r)); [|discriminate].
    destruct (polls_of (body r)) as [|[|o os] later]; try discriminate.
    now injection Hg as _ <- _. }
  subst t. rewrite main_url_step, Hv, Hg by exact Hp.
  pose proof (main_loop_batches fuel thread_id timestamp Hts options [] [] []
                w1) as H.
  cbv zeta in H.
  assert (H0 : saved (os_path_join script_dir
                        ("./vote_result/" ++ str thread_id)) [] [])
    by (repeat split; constructor).
  specialize (H H0).
  destruct (main_options serve script_addr fuel options [] w1)
    as [[batches|e|] w'].
  - destruct H as [paths [effects [Hrun Hs]]]. exists effects.
    rewrite Hrun. now split.
  - now rewrite H.
  - now rewrite H.
Qed.

(** X19.  The option mode.  With an integer argument [main] never exits with
    status 1: it processes this one option and completes even when the
    listing gives no data, having then written nothing.  When there are
    rows it makes the directory [vote_result/<id>] and writes there the two
    files named after the id and the timestamp, the decimal writing of the
    id being a file name as it is. *)
Theorem main_option_mode fuel script arg rest timestamp w option_id :
  prefix "http" arg = false ->
  int_of_argument arg = Some option_id ->
  no_slash timestamp = true ->
  let dir := os_path_join script_dir ("./vote_result/" ++ str option_id) in
  let file := fun extension =>
    os_path_join script_dir
      ("./vote_result/" ++ str option_id ++ "/" ++ str option_id ++ "_"
         ++ timestamp ++ extension)%string in
  match process_option serve script_addr fuel option_id w with
  | (Ok (Some rows), w') =>
      main serve script_addr int_max_str_digits int_of_argument script_dir
        fuel (script :: arg :: rest) timestamp w =
      (Ok (Completed [MakeDirs dir; WriteJson (file ".json") rows;
                      WriteCsv (file ".csv") rows]), w')
  | (Ok None, w') =>
      main serve script_addr int_max_str_digits int_of_argument script_dir
        fuel (script :: arg :: rest) timestamp w = (Ok (Completed []), w')
  | (Raise e, w') =>
      main serve script_addr int_max_str_digits int_of_argument script_dir
        fuel (script :: arg :: rest) timestamp w = (Raise e, w')
  | (Diverge, w') =>
      main serve script_addr int_max_str_digits int_of_argument script_dir
        fuel (script :: arg :: rest) timestamp w = (Diverge, w')
  end.
Proof.
  intros Hp Hi Hts dir file. unfold main. rewrite Hp, Hi. unfold bind.
  rewrite process_option_files_step.
  destruct (process_option serve script_addr fuel option_id w)
    as [[[rows|]|e|] w']; try reflexivity.
  unfold ret.
  destruct (paths_dirname script_dir option_id (str option_id) timestamp Hts)
    as [H1 _].
  rewrite H1. unfold json_path, csv_path.
  now rewrite safe_option_name_str.
Qed.

End MainFacts.

Lemma main_exits_early_witness :
  exists k,
    (k <= 3)%nat /\
    main (pure_server (Srv:=unit) (always_status 500)) (fun _ _ _ _ => "ckb1pw")
      4300 (fun _ => None) "/home/dao" 3
      ["metaforo_watchdog_en.py"; "https://dao.ckb.community/thread/66568"]
      "20260101120000" (mkWorld tt []) =
    (Ok (SystemExit 1),
     mkWorld
       (server_after (pure_server (Srv:=unit) (always_status 500)) (S k) tt
          GET (url_get_thread 66568))
       ([] ++ retry_trace k GET (url_get_thread 66568)
           ++ [EvHttp GET (url_get_thread 66568)])).
Proof.
  destruct (main_exits_early (pure_server (Srv:=unit) (always_status 500))
              (fun _ _ _ _ => "ckb1pw") 4300 (fun _ => None) "/home/dao"
              3%nat "20260101120000" (mkWorld tt [])) as (_ & _ & _ & H).
  apply (H "metaforo_watchdog_en.py" "https://dao.ckb.community/thread/66568"
           [] 66568); reflexivity.
Defined.

Lemma main_url_mode_witness :
  exists effects,
    main (pure_server (Srv:=unit)
            (forum_source [[mkOption 1 "Yes"; mkOption 2 "No"]]
               two_options_source))
      (fun _ _ _ _ => "ckb1pw") 4300 (fun _ => None) "/home/dao" 3
      ["metaforo_watchdog_en.py"; "https://dao.ckb.community/thread/66568"]
      "20260101120000" (mkWorld tt []) =
    (Ok (Completed effects),
     snd (main_options
            (pure_server (Srv:=unit)
               (forum_source [[mkOption 1 "Yes"; mkOption 2 "No"]]
                  two_options_source))
            (fun _ _ _ _ => "ckb1pw") 3 [mkOption 1 "Yes"; mkOption 2 "No"] []
            (mkWorld tt [EvHttp GET (url_get_thread 66568)]))) /\
    saved (os_path_join "/home/dao" ("./vote_result/" ++ str 66568)) effects
      [(2, [mkRow "anon" None 50 0 "" 0 true ""])].
Proof.
  exact (main_url_mode
           (pure_server (Srv:=unit)
              (forum_source [[mkOption 1 "Yes"; mkOption 2 "No"]]
                 two_options_source))
           (fun _ _ _ _ => "ckb1pw") 4300 (fun _ => None) "/home/dao" 3%nat
           "metaforo_watchdog_en.py" "https://dao.ckb.community/thread/66568"
           [] "20260101120000" (mkWorld tt []) 66568
           [mkOption 1 "Yes"; mkOption 2 "No"] 66568
           (mkWorld tt [EvHttp GET (url_get_thread 66568)])
           eq_refl eq_refl eq_refl eq_refl).
Defined.

Lemma main_option_mode_witness :
  main (pure_server (Srv:=unit) two_options_source) (fun _ _ _ _ => "ckb1pw")
    4300 (fun s => if (s =? "2")%string then Some 2 else None) "/home/dao" 3
    ["metaforo_watchdog_en.py"; "2"] "20260101120000" (mkWorld tt []) =
  (Ok (Completed
         [MakeDirs "/home/dao/./vote_result/2";
          WriteJson "/home/dao/./vote_result/2/2_20260101120000.json"
            [mkRow "anon" None 50 0 "" 0 true ""];
          WriteCsv "/home/dao/./vote_result/2/2_20260101120000.csv"
            [mkRow "anon" None 50 0 "" 0 true ""]]),
   mkWorld tt
     [EvHttp POST (url_poll_list 2 1); EvSleep 500;
      EvHttp POST (url_poll_list 2 2)]).
Proof.
  exact (main_option_mode (pure_server (Srv:=unit) two_options_source)
           (fun _ _ _ _ => "ckb1pw") 4300
           (fun s => if (s =? "2")%string then Some 2 else None) "/home/dao"
           3%nat "metaforo_watchdog_en.py" "2" [] "20260101120000"
           (mkWorld tt []) 2 eq_refl eq_refl eq_refl).
Defined.

(** ** The files of [metaforo_watchdog_cn.py] *)

Lemma str_safe_chars z : string_forall is_safe_char (str z) = true.
Proof.
  rewrite <- (safe_option_name_str z). apply safe_option_name_chars.
Qed.

Lemma no_slash_prefix file : no_slash file = true -> prefix "/" file = false.
Proof.
  destruct file as [|c file]; [reflexivity|]. unfold no_slash.
  cbn [string_forall]. intros H. apply andb_true_iff in H.
  destruct H as [Hc _]. apply negb_true_iff in Hc.
  cbn [prefix]. destruct (ascii_dec "/" c) as [<-|]; [discriminate|reflexivity].
Qed.

Lemma endswith_slash_split d :
  endswith_slash d = true -> exists d', d = (d' ++ "/")%string.
Proof.
  induction d as [|c d IH]; [discriminate|]. destruct d as [|e d].
  - simpl. intros H. apply Ascii.eqb_eq in H. subst c. now exists "".
  - intros H. destruct (IH H) as [d' Hd]. exists (String c d').
    simpl. now rewrite <- Hd.
Qed.

Lemma all_slashes_endswith d :
  all_slashes d = true -> d <> "" -> endswith_slash d = true.
Proof.
  induction d as [|c d IH]; [congruence|]. intros H _.
  simpl in H. apply andb_true_iff in H. destruct H as [Hc Hd].
  destruct d as [|e d]; [exact Hc|].
  change (endswith_slash (String c (String e d)))
    with (endswith_slash (String e d)).
  apply IH; [exact Hd|discriminate].
Qed.

(** The directory of a file put beside the script. *)
Lemma os_path_dirname_beside script_dir file :
  no_slash file = true ->
  endswith_slash script_dir = false \/ all_slashes script_dir = true ->
  os_path_dirname (os_path_join script_dir file) = script_dir.
Proof.
  intros Hf Hd. unfold os_path_join. rewrite (no_slash_prefix file Hf).
  destruct script_dir as [|c d] eqn:E.
  - simpl. unfold os_path_dirname. now rewrite (head_of_path_no_slash file Hf).
  - rewrite <- E in *. replace (truthy_string script_dir) with true
      by (now rewrite E).
    cbn [negb orb].
    destruct (endswith_slash script_dir) eqn:Hs.
    + destruct Hd as [Hd|Hd]; [discriminate|].
      destruct (endswith_slash_split script_dir Hs) as [d' Hd'].
      unfold os_path_dirname.
      replace (script_dir ++ file)%string with (d' ++ "/" ++ file)%string
        by (now rewrite Hd', append_assoc).
      rewrite (head_of_path_app d' file Hf), <- Hd', Hd.
      now rewrite andb_false_r.
    + unfold os_path_dirname. rewrite (head_of_path_app script_dir file Hf).
      assert (Ha : all_slashes (script_dir ++ "/") = false).
      { rewrite all_slashes_app.
        destruct (all_slashes script_dir) eqn:Ha; [|reflexivity].
        rewrite (all_slashes_endswith script_dir Ha) in Hs by (now rewrite E).
        discriminate. }
      rewrite Ha. replace (truthy_string (script_dir ++ "/")) with true
        by (now rewrite E).
      cbn [negb andb].
      change (script_dir ++ "/")%string
        with (script_dir ++ replicate 1 "/")%string.
      rewrite rstrip_slash_app. now apply rstrip_slash_fixed.
Qed.

Lemma no_slash_file_cn thread_id option_name timestamp ext :
  no_slash timestamp = true ->
  no_slash ext = true ->
  no_slash ("vote_result_" ++ str thread_id ++ "_"
              ++ safe_option_name option_name ++ "_" ++ timestamp ++ ext)
  = true.
Proof.
  intros Ht He.
  assert (Hsafe : forall s, string_forall is_safe_char s = true ->
                            no_slash s = true).
  { intros s. apply string_forall_impl. intros c Hc.
    apply is_safe_char_plain in Hc. now apply andb_true_iff in Hc. }
  unfold no_slash in *.
  rewrite !string_forall_app, Ht, He.
  rewrite (Hsafe _ (str_safe_chars thread_id)).
  rewrite (Hsafe _ (safe_option_name_chars option_name)).
  reflexivity.
Qed.

(** X20.  The Chinese script puts both files of an option beside itself:
    the directory of the JSON path and of the CSV path is the directory of
    the script, whatever the option is called, provided the timestamp has
    no slash and the directory of the script is written without a slash at
    its end (or is the root). *)
Theorem files_beside_script script_dir thread_id option_name timestamp :
  no_slash timestamp = true ->
  endswith_slash script_dir = false \/ all_slashes script_dir = true ->
  os_path_dirname (json_path_cn script_dir thread_id option_name timestamp) =
    script_dir /\
  os_path_dirname (csv_path_cn script_dir thread_id option_name timestamp) =
    script_dir.
Proof.
  intros Ht Hd. unfold json_path_cn, csv_path_cn. split;
    apply os_path_dirname_beside; auto; now apply no_slash_file_cn.
Qed.

Lemma files_beside_script_witness :
  os_path_dirname
    (json_path_cn "/home/dao" 66568 "Yes / No.." "20260101120000") =
    "/home/dao" /\
  os_path_dirname
    (csv_path_cn "/home/dao" 66568 "Yes / No.." "20260101120000") =
    "/home/dao".
Proof.
  apply (files_beside_script "/home/dao" 66568 "Yes / No.." "20260101120000").
  - reflexivity.
  - left. reflexivity.
Defined.

(** ** The pace of the requests *)

Lemma paced_retry_trace k v u : paced (retry_trace k v u ++ [EvHttp v u]).
Proof.
  induction k as [|k IH]; [apply paced_last|].
  change (retry_trace (S k) v u ++ [EvHttp v u])
    with (EvHttp v u :: EvSleep (1000 * RETRY_DELAY)
            :: (retry_trace k v u ++ [EvHttp v u])).
  apply paced_pause; [now left|exact IH].
Qed.

Lemma paced_next_page t1 t2 :
  paced t1 -> paced t2 -> paced (t1 ++ EvSleep 500 :: t2).
Proof.
  induction 1 as [v u|v u ms t Hms Ht IH]; intros H2.
  - apply paced_pause; [now right|exact H2].
  - simpl. apply paced_pause; [exact Hms|now apply IH].
Qed.

Section PaceFacts.

Context {Srv : Type}.
Variable serve : Srv -> verb -> url -> net_result * Srv.

Lemma request_with_retry_paced method v u w o w1 :
  verb_of_method method = Some v ->
  request_with_retry serve method u MAX_RETRIES w = (o, w1) ->
  exists t, trace w1 = trace w ++ t /\ paced t.
Proof.
  intros Hv Hrun.
  destruct (request_with_retry_shape serve method v u MAX_RETRIES w Hv
              ltac:(unfold MAX_RETRIES; lia)) as [k [_ [_ [_ Hk]]]].
  rewrite Hk in Hrun. injection Hrun as _ <-.
  exists (retry_trace k v u ++ [EvHttp v u]). split; [reflexivity|].
  apply paced_retry_trace.
Qed.

Lemma get_all_votes_loop_paced option_id :
  forall fuel all_votes page w r w',
    get_all_votes_loop serve fuel option_id all_votes page w = (Ok r, w') ->
    exists t, trace w' = trace w ++ t /\ paced t.
Proof.
  induction fuel as [|fuel IH]; intros acc page w r w' Hrun; [discriminate|].
  rewrite get_all_votes_loop_step in Hrun.
  destruct (request_with_retry serve "post" (url_poll_list option_id page)
              MAX_RETRIES w) as [[resp|e|] w1] eqn:Hreq; try discriminate.
  - destruct (request_with_retry_paced "post" POST _ w _ w1 eq_refl Hreq)
      as [t1 [Ht1 Hp1]].
    destruct (envelope_ok (body resp));
      [|injection Hrun as _ <-; now exists t1].
    destruct (vote_list_of (body resp));
      [injection Hrun as _ <-; now exists t1|].
    apply IH in Hrun. destruct Hrun as [t2 [Ht2 Hp2]]. simpl trace in Ht2.
    exists (t1 ++ EvSleep 500 :: t2). split.
    + rewrite Ht2, Ht1, <- !app_assoc. reflexivity.
    + now apply paced_next_page.
  - destruct (request_with_retry_paced "post" POST _ w _ w1 eq_refl Hreq)
      as [t1 [Ht1 Hp1]].
    injection Hrun as _ <-. now exists t1.
Qed.

Lemma live_cells_loop_paced page_size address :
  forall fuel total page w r w',
    live_cells_loop serve fuel page_size address total page w = (Ok r, w') ->
    exists t, trace w' = trace w ++ t /\ paced t.
Proof.
  induction fuel as [|fuel IH]; intros total page w r w' Hrun;
    [discriminate|].
  rewrite live_cells_loop_step in Hrun.
  destruct (request_with_retry serve "get"
              (url_address_live_cells address page page_size) MAX_RETRIES w)
    as [[resp|e|] w1] eqn:Hreq; try discriminate.
  - destruct (request_with_retry_paced "get" GET _ w _ w1 eq_refl Hreq)
      as [t1 [Ht1 Hp1]].
    destruct (body resp); cbv zeta in Hrun;
      try (injection Hrun as _ <-; now exists t1);
      match type of Hrun with
      | context [if ?c then _ else _] => destruct c
      end;
      try (injection Hrun as _ <-; now exists t1);
      (apply IH in Hrun; destruct Hrun as [t2 [Ht2 Hp2]];
       simpl trace in Ht2; exists (t1 ++ EvSleep 500 :: t2); split;
       [rewrite Ht2, Ht1, <- !app_assoc; reflexivity
       |now apply paced_next_page]).
  - destruct (request_with_retry_paced "get" GET _ w _ w1 eq_refl Hreq)
      as [t1 [Ht1 Hp1]].
    injection Hrun as _ <-. now exists t1.
Qed.

(** X21.  The requests are paced.  Whatever the servers do, what a vote
    listing that returns adds to the trace, and what a weight lookup that
    returns adds to it, is a run of requests that begins and ends with a
    request and has, between any two requests, one pause: the retry delay
    of 3 seconds or the half second between pages.  No two requests of a
    listing or of a lookup follow each other at once. *)
Theorem requests_are_paced :
  (forall fuel option_id w r w',
     get_all_votes serve fuel option_id w = (Ok r, w') ->
     exists t, trace w' = trace w ++ t /\ paced t) /\
  (forall fuel address w z w',
     get_address_onchain_weight serve fuel address w = (Ok z, w') ->
     exists t, trace w' = trace w ++ t /\ paced t).
Proof.
  split.
  - intros fuel option_id w r w'. apply get_all_votes_loop_paced.
  - intros fuel address w z w'.
    unfold get_address_onchain_weight, get_address_onchain_weight_sized, bind.
    destruct (live_cells_loop serve fuel 20 address (S754_zero false) 1 w)
      as [[total|e|] w1] eqn:Hl; try discriminate.
    unfold lift. intros H.
    assert (Hw : w' = w1) by (now injection H). subst w'.
    now apply live_cells_loop_paced in Hl.
Qed.

End PaceFacts.

Lemma requests_are_paced_witness :
  exists t,
    [EvHttp POST (url_poll_list 2 1); EvSleep 500;
     EvHttp POST (url_poll_list 2 2)] = [] ++ t /\ paced t.
Proof.
  destruct (requests_are_paced (pure_server (Srv:=unit) two_options_source))
    as [H _].
  apply (H 3%nat 2 (mkWorld tt [])
           (Some [mkVote None (Some "anon") None (Some 50)])
           (mkWorld tt [EvHttp POST (url_poll_list 2 1); EvSleep 500;
                        EvHttp POST (url_poll_list 2 2)])).
  reflexivity.
Defined.

(** ** An option without votes *)

Section EmptyOptionFacts.

Context {Srv : Type}.
Variable serve : Srv -> verb -> url -> net_result * Srv.
Variable script_addr : bool -> list Byte.byte -> Z -> list Byte.byte -> string.
Variable script_dir : string.

(** X22.  An option nobody voted for is treated as one whose listing
    failed.  When the first page of the listing is answered with a
    successful envelope and no vote, [get_all_votes] returns the empty
    list after this one page, [process_option] returns [None] for it, no
    file is written, and the loop over the options goes on without a batch
    for the option. *)
Theorem option_without_votes fuel option_id w r w1 :
  request_with_retry serve "post" (url_poll_list option_id 1) MAX_RETRIES w =
    (Ok r, w1) ->
  envelope_ok (body r) = true ->
  vote_list_of (body r) = [] ->
  get_all_votes serve (S fuel) option_id w = (Ok (Some []), w1) /\
  process_option serve script_addr (S fuel) option_id w = (Ok None, w1) /\
  (forall option_name thread_id timestamp,
     process_option_files serve script_addr script_dir (S fuel) option_id
       option_name thread_id timestamp w = (Ok None, w1)) /\
  (forall o rest all_files,
     id o = option_id ->
     main_options serve script_addr (S fuel) (o :: rest) all_files w =
     main_options serve script_addr (S fuel) rest all_files w1).
Proof.
  intros Hreq Hok Hl.
  assert (Hg : get_all_votes serve (S fuel) option_id w = (Ok (Some []), w1)).
  { unfold get_all_votes. now rewrite get_all_votes_loop_step, Hreq, Hok, Hl. }
  assert (Hp : process_option serve script_addr (S fuel) option_id w =
               (Ok None, w1)).
  { unfold process_option, bind. now rewrite Hg. }
  split; [exact Hg|]. split; [exact Hp|]. split.
  - intros option_name thread_id timestamp.
    now rewrite process_option_files_step, Hp.
  - intros o rest all_files Ho. cbn [main_options]. unfold bind.
    now rewrite Ho, Hp.
Qed.

End EmptyOptionFacts.

Lemma option_without_votes_witness :
  process_option (pure_server (Srv:=unit) (vote_pages []))
    (fun _ _ _ _ => "ckb1pw") 1 5 (mkWorld tt []) =
  (Ok None, mkWorld tt [EvHttp POST (url_poll_list 5 1)]).
Proof.
  refine (proj1 (proj2
    (option_without_votes (pure_server (Srv:=unit) (vote_pages []))
       (fun _ _ _ _ => "ckb1pw") "/home/dao" 0%nat 5 (mkWorld tt [])
       (mkResponse 200 (VoteListBody true 20000 []))
       (mkWorld tt [EvHttp POST (url_poll_list 5 1)]) _ _ _)));
    reflexivity.
Defined.
